(** * PyForceSim: the SQLite access layer [pyforcesim.simulation.databases]

    A shallow embedding of [src/pyforcesim/simulation/databases.py]:
    the identifier sanitizer (a regular expression searched with
    [re.IGNORECASE]), the three temporal codecs registered with [sqlite3],
    and the [Database] class, whose methods open a connection, run one
    statement inside [with con:] and close the connection in a [finally]
    block.

    Python values are modelled as follows.
    - [str] is a list of Unicode code points ([list N]); [bytes] is a list
      of octets ([list N], each below 256).
    - The Unicode tables of the interpreter ([\w], case-insensitive
      comparison, [str.upper], UTF-8) are the operations of the class
      [PyRuntime]; only their behaviour on ASCII is fixed, by laws.
    - Exceptions are the constructors of [exn]; a computation that may
      raise returns a [res].
    - The [sqlite3] engine is the interface [Engine]; the methods of
      [Database] are written against it in a state-and-exception monad
      over the interpreter state [World]. *)

From Stdlib Require Import ZArith NArith List Bool Lia Ascii String.
From stdpp Require Import base tactics option list gmap.

Open Scope N_scope.
Open Scope nat_scope.
Open Scope string_scope.
Open Scope list_scope.

(** ** Python strings *)

Abbreviation pystr := (list N).

(** A [str] literal of the source: the code points of an ASCII text. *)
Definition py (s : string) : pystr := N_of_ascii <$> list_ascii_of_string s.

Definition ascii_isupper (c : N) : bool := (65 <=? c)%N && (c <=? 90)%N.
Definition ascii_islower (c : N) : bool := (97 <=? c)%N && (c <=? 122)%N.
Definition ascii_isalpha (c : N) : bool := ascii_isupper c || ascii_islower c.
Definition ascii_isdigit (c : N) : bool := (48 <=? c)%N && (c <=? 57)%N.
Definition ascii_isword (c : N) : bool :=
  ascii_isalpha c || ascii_isdigit c || (c =? 95)%N.
Definition ascii_lower (c : N) : N := if ascii_isupper c then (c + 32)%N else c.
Definition ascii_upper (c : N) : N := if ascii_islower c then (c - 32)%N else c.
Definition is_ascii (c : N) : bool := (c <? 128)%N.

(** What the module takes from the interpreter.  [uni_isword] is the
    category [\w] of a [str] pattern, [uni_ieq p c] says that the pattern
    character [p] matches the subject character [c] under [re.IGNORECASE],
    [uni_upper] is [str.upper], [utf8_encode] and [utf8_decode] are
    [str.encode()] and [bytes.decode()], and [frozenset_repr] is the text an
    f-string prints for a [frozenset] of strings (its order is the
    interpreter's).  On ASCII the Unicode operations are what the laws say;
    elsewhere they are left open. *)
Class PyRuntime := {
  uni_isword : N → bool;
  uni_ieq : N → N → bool;
  uni_upper : pystr → pystr;
  utf8_encode : pystr → list N;
  utf8_decode : list N → option pystr;
  frozenset_repr : gset pystr → pystr;
  uni_isword_ascii : ∀ c, is_ascii c = true → uni_isword c = ascii_isword c;
  uni_ieq_ascii : ∀ p c, is_ascii p = true → is_ascii c = true →
    uni_ieq p c = (ascii_lower p =? ascii_lower c)%N;
  uni_ieq_uncased : ∀ p c, is_ascii p = true → ascii_isalpha p = false →
    uni_ieq p c = (p =? c)%N;
  uni_upper_ascii : ∀ s, forallb is_ascii s = true →
    uni_upper s = ascii_upper <$> s;
  utf8_encode_ascii : ∀ s, forallb is_ascii s = true → utf8_encode s = s;
  utf8_decode_ascii : ∀ b, forallb is_ascii b = true → utf8_decode b = Some b;
}.

(** [sep.join(l)] *)
Fixpoint str_join (sep : pystr) (l : list pystr) : pystr :=
  match l with
  | [] => []
  | [x] => x
  | x :: r => x ++ sep ++ str_join sep r
  end.

(** An interpreter whose tables know ASCII only. *)
#[refine] Instance ascii_runtime : PyRuntime := {|
  uni_isword c := is_ascii c && ascii_isword c;
  uni_ieq p c := (ascii_lower p =? ascii_lower c)%N;
  uni_upper s := ascii_upper <$> s;
  utf8_encode s := s;
  utf8_decode b := if forallb is_ascii b then Some b else None;
  frozenset_repr s :=
    py "frozenset({" ++ str_join (py ", ") ((λ x, py "'" ++ x ++ py "'") <$> elements s)
    ++ py "})";
|}.
Proof.
  - intros c ->. reflexivity.
  - reflexivity.
  - intros p c Hp Hal. unfold ascii_lower, ascii_isalpha, ascii_isupper, ascii_islower, is_ascii in *.
    repeat match goal with
           | |- context [(?a <=? ?b)%N] => destruct (N.leb_spec a b); simpl in *
           | H : context [(?a <=? ?b)%N] |- _ => destruct (N.leb_spec a b); simpl in *
           end; try discriminate;
    match goal with |- (?a =? ?b)%N = (?c =? ?d)%N =>
      destruct (N.eqb_spec a b), (N.eqb_spec c d) end; try reflexivity; lia.
  - reflexivity.
  - reflexivity.
  - intros b ->. reflexivity.
Defined.

(** ** Exceptions *)

Inductive sqlite3_error :=
| OperationalError | IntegrityError | ProgrammingError | InterfaceError.

Inductive exn :=
| ValueError (msg : pystr)
| IndexError (msg : pystr)
| OverflowError (msg : pystr)
| UnicodeDecodeError
| CommonSQLError (msg : pystr)
| Sqlite3Error (cls : sqlite3_error) (msg : pystr).

Inductive res (A : Type) :=
| Ok (a : A)
| Raise (e : exn).
Arguments Ok {A} a.
Arguments Raise {A} e.

(** ** Regular expressions: the fragment of [re] used by the module *)

Inductive cls_item :=
| CLit (c : N)              (* a character *)
| CRange (lo hi : N)        (* lo-hi *)
| CWord.                    (* \w *)

Inductive regex :=
| Empty
| Bol                                        (* ^ *)
| Lit (c : N)
| In_ (negate : bool) (items : list cls_item) (* [...] and [^...] *)
| Seq (r1 r2 : regex)
| Alt (r1 r2 : regex)                        (* r1|r2 *)
| Plus (r : regex)                           (* r+ *)
| Group (r : regex).                         (* (r) *)

(** A pattern made of literal characters, such as [select]. *)
Definition lits (s : string) : regex := foldr (λ c r, Seq (Lit c) r) Empty (py s).

(** [re.compile(pattern, flags)] *)
Record Pattern := re_compile { re_pattern : regex; re_ignorecase : bool }.

Definition nonempty {A} (l : list A) : bool :=
  match l with
  | [] => false
  | _ :: _ => true
  end.

Section Regex.
Context `{PyRuntime}.

Definition chr_match (ic : bool) (p c : N) : bool :=
  if ic then uni_ieq p c else (p =? c)%N.

Definition N_range (lo hi : N) : list N :=
  (λ k, (lo + N.of_nat k)%N) <$> seq 0 (N.to_nat (hi + 1 - lo)).

Definition cls_match (ic : bool) (it : cls_item) (c : N) : bool :=
  match it with
  | CLit p => chr_match ic p c
  | CRange lo hi =>
      if ic then existsb (λ p, uni_ieq p c) (N_range lo hi)
      else (lo <=? c)%N && (c <=? hi)%N
  | CWord => uni_isword c
  end.

(** The positions at which one or more repetitions of [step] can end. *)
Fixpoint iter_plus (step : nat → list nat) (fuel i : nat) : list nat :=
  match fuel with
  | O => []
  | S k => step i ++ flat_map (iter_plus step k) (step i)
  end.

(** [ends ic w r i]: the positions at which a match of [r] that starts at
    position [i] of the subject [w] can end. *)
Fixpoint ends (ic : bool) (w : pystr) (r : regex) (i : nat) : list nat :=
  match r with
  | Empty => [i]
  | Bol => if Nat.eqb i 0 then [i] else []
  | Lit p =>
      match w !! i with
      | Some c => if chr_match ic p c then [S i] else []
      | None => []
      end
  | In_ negate items =>
      match w !! i with
      | Some c =>
          if xorb negate (existsb (λ it, cls_match ic it c) items)
          then [S i] else []
      | None => []
      end
  | Seq r1 r2 => flat_map (ends ic w r2) (ends ic w r1 i)
  | Alt r1 r2 => ends ic w r1 i ++ ends ic w r2 i
  | Plus r => iter_plus (ends ic w r) (S (length w)) i
  | Group r => ends ic w r i
  end.

Definition matches_at (p : Pattern) (w : pystr) (i : nat) : bool :=
  nonempty (ends (re_ignorecase p) w (re_pattern p) i).

(** [Pattern.search]: the start of the leftmost match, [None] when the
    pattern matches nowhere. *)
Definition re_search (p : Pattern) (w : pystr) : option nat :=
  find (matches_at p w) (seq 0 (S (length w))).

End Regex.

(** ** The identifier sanitizer *)

(** [DB_INJECTION_PATTERN =
      r'(^[_0-9]+)|[^\w ]|(true|false|select|where|drop|delete|create)'] *)
Definition DB_INJECTION_PATTERN : regex :=
  Alt (Group (Seq Bol (Plus (In_ false [CLit 95; CRange 48 57]))))
 (Alt (In_ true [CWord; CLit 32])
      (Group (Alt (lits "true") (Alt (lits "false") (Alt (lits "select")
             (Alt (lits "where") (Alt (lits "drop") (Alt (lits "delete")
                  (lits "create"))))))))).

(** [self._check_query_pattern], set once in [__init__]:
    [re.compile(DB_INJECTION_PATTERN, flags=re.IGNORECASE)]. *)
Definition _check_query_pattern : Pattern := re_compile DB_INJECTION_PATTERN true.

(** The exception of the sanitizer: [ValueError(f'Unallowed characters in
    value {value}.')]. *)
Definition injection_error (value : pystr) : exn :=
  ValueError (py "Unallowed characters in value " ++ value ++ py ".").

Section Sanitizer.
Context `{PyRuntime}.

Definition _clean_query_injection (value : pystr) : res pystr :=
  match re_search _check_query_pattern value with
  | Some _ => Raise (injection_error value)
  | None => Ok value
  end.

(** The words of the sanitizer's specification.  A keyword is contained
    case-insensitively when lowering the ASCII capitals of some substring
    gives the keyword. *)
Definition banned_keywords : list string :=
  ["true"; "false"; "select"; "where"; "drop"; "delete"; "create"].

Definition contains_ci (kw : string) (s : pystr) : Prop :=
  ∃ pre mid post, s = pre ++ mid ++ post ∧ ascii_lower <$> mid = py kw.

Definition contains_banned (s : pystr) : Prop :=
  ∃ kw, In kw banned_keywords ∧ contains_ci kw s.

(** The same containment, decided. *)
Definition contains_ci_b (kw : string) (s : pystr) : bool :=
  existsb (λ i, bool_decide (ascii_lower <$> take (length (py kw)) (drop i s) = py kw))
          (seq 0 (S (length s))).

Definition contains_banned_b (s : pystr) : bool :=
  existsb (λ kw, contains_ci_b kw s) banned_keywords.

(** [[_0-9]+] from the first to the last character *)
Definition purely_digits_underscores (s : pystr) : Prop :=
  s ≠ [] ∧ Forall (λ c, ascii_isdigit c = true ∨ c = 95%N) s.

Definition has_char_outside_word_space (s : pystr) : Prop :=
  Exists (λ c, uni_isword c = false ∧ c ≠ 32%N) s.

(** [^[A-Za-z][A-Za-z0-9_]*$], the whole string *)
Definition plain_identifier (s : pystr) : Prop :=
  ∃ c rest, s = c :: rest ∧ ascii_isalpha c = true ∧
            Forall (λ c, ascii_isword c = true) rest.

(** A keyword of the pattern matches a prefix of the subject. *)
Fixpoint ci_prefix (ic : bool) (kw w : pystr) : bool :=
  match kw, w with
  | [], _ => true
  | p :: kw', c :: w' => chr_match ic p c && ci_prefix ic kw' w'
  | _ :: _, [] => false
  end.

(** What the compiled injection pattern matches at a position: a leading
    digit or underscore, a character that is neither a word character nor
    a space, or one of the seven keywords. *)
Definition head_digit_us (w : pystr) (i : nat) : bool :=
  Nat.eqb i 0 &&
  match w !! 0 with
  | Some c => existsb (λ it, cls_match true it c) [CLit 95; CRange 48 57]
  | None => false
  end.

Definition odd_char (w : pystr) (i : nat) : bool :=
  match w !! i with
  | Some c => negb (existsb (λ it, cls_match true it c) [CWord; CLit 32])
  | None => false
  end.

End Sanitizer.

(** ** Integers as decimal text *)

Open Scope Z_scope.

Definition chr_of_digit (d : Z) : N := Z.to_N (48 + d).

(** The decimal digits of a natural number, most significant first. *)
Fixpoint digits_fuel (fuel : nat) (n : Z) : pystr :=
  match fuel with
  | O => []
  | S k => (if n <? 10 then [] else digits_fuel k (n / 10)) ++ [chr_of_digit (n mod 10)]
  end.

Definition digits (n : Z) : pystr := digits_fuel (S (Z.to_nat (Z.log2 n))) n.

(** [str(z)], which is also what an f-string field [{z}] prints. *)
Definition int_str (z : Z) : pystr :=
  if z <? 0 then 45%N :: digits (- z) else digits z.

(** ['%0wd' % z]: the sign, then zeros up to the width [w], then the digits. *)
Definition zpad (w : nat) (z : Z) : pystr :=
  if z <? 0
  then 45%N :: replicate (w - 1 - length (digits (- z))) 48%N ++ digits (- z)
  else replicate (w - length (digits z)) 48%N ++ digits z.

Definition digit_val (c : N) : option Z :=
  if ascii_isdigit c then Some (Z.of_N c - 48) else None.

(** A run of digits read as a number; [None] at the first other character. *)
Fixpoint parse_digits_acc (acc : Z) (cs : list N) : option Z :=
  match cs with
  | [] => Some acc
  | c :: r =>
      match digit_val c with
      | Some d => parse_digits_acc (10 * acc + d) r
      | None => None
      end
  end.

(** Exactly [n] digits at the head of [cs], and what follows them. *)
Definition parse_fixed (n : nat) (cs : list N) : option (Z * list N) :=
  if Nat.ltb (length cs) n then None
  else match parse_digits_acc 0 (take n cs) with
       | Some v => Some (v, drop n cs)
       | None => None
       end.

(** [bytes.split(sep)] for a one-byte separator. *)
Fixpoint split_on (sep : N) (b : list N) : list (list N) :=
  match b with
  | [] => [[]]
  | c :: r =>
      if (c =? sep)%N then [] :: split_on sep r
      else match split_on sep r with
           | p :: ps => (c :: p) :: ps
           | [] => [[c]]
           end
  end.

Definition bytes_isspace (c : N) : bool :=
  (c =? 32)%N || ((9 <=? c)%N && (c <=? 13)%N).

Fixpoint lstrip (b : list N) : list N :=
  match b with
  | [] => []
  | c :: r => if bytes_isspace c then lstrip r else b
  end.

Definition strip (b : list N) : list N := reverse (lstrip (reverse (lstrip b))).

(** The digits of an [int] literal: single underscores may separate them. *)
Fixpoint int_digits (after_digit : bool) (acc : Z) (cs : list N) : option Z :=
  match cs with
  | [] => if after_digit then Some acc else None
  | c :: r =>
      if (c =? 95)%N then (if after_digit then int_digits false acc r else None)
      else match digit_val c with
           | Some d => int_digits true (10 * acc + d) r
           | None => None
           end
  end.

(** [int(b)] for a [bytes] argument, base ten: surrounding white space, an
    optional sign, digits.  (The message of the real exception also quotes
    the argument.) *)
Definition int_of_bytes (b : list N) : res Z :=
  let b := strip b in
  let '(neg, ds) :=
    match b with
    | c :: r =>
        if (c =? 45)%N then (true, r)
        else if (c =? 43)%N then (false, r) else (false, b)
    | [] => (false, b)
    end in
  match int_digits false 0 ds with
  | Some n => Ok (if neg then - n else n)
  | None => Raise (ValueError (py "invalid literal for int() with base 10"))
  end.

(** [tuple(map(f, xs))]: the first exception raised by [f] propagates. *)
Fixpoint map_res {A B} (f : A → res B) (xs : list A) : res (list B) :=
  match xs with
  | [] => Ok []
  | x :: r =>
      match f x with
      | Raise e => Raise e
      | Ok y => match map_res f r with
                | Raise e => Raise e
                | Ok ys => Ok (y :: ys)
                end
      end
  end.

(** ** The [datetime] module: [date], [datetime] (naive) and [timedelta] *)

Record date := mk_date { year : Z; month : Z; day : Z }.

Record datetime := mk_datetime {
  dt_date : date; hour : Z; minute : Z; second : Z; microsecond : Z }.

Record timedelta := mk_timedelta { days : Z; seconds : Z; microseconds : Z }.

Definition is_leap (y : Z) : bool :=
  (y mod 4 =? 0) && (negb (y mod 100 =? 0) || (y mod 400 =? 0)).

Definition days_in_month (y m : Z) : Z :=
  if m =? 2 then (if is_leap y then 29 else 28)
  else if (m =? 4) || (m =? 6) || (m =? 9) || (m =? 11) then 30 else 31.

(** The values the constructors accept: [MINYEAR <= year <= MAXYEAR] and a
    day of the month that exists; a time of day; a normalised duration. *)
Definition valid_date (d : date) : bool :=
  (1 <=? year d) && (year d <=? 9999) && (1 <=? month d) && (month d <=? 12) &&
  (1 <=? day d) && (day d <=? days_in_month (year d) (month d)).

Definition valid_time (h m s us : Z) : bool :=
  (0 <=? h) && (h <? 24) && (0 <=? m) && (m <? 60) && (0 <=? s) && (s <? 60) &&
  (0 <=? us) && (us <? 1000000).

Definition valid_datetime (t : datetime) : bool :=
  valid_date (dt_date t) && valid_time (hour t) (minute t) (second t) (microsecond t).

Definition valid_timedelta (td : timedelta) : bool :=
  (-999999999 <=? days td) && (days td <=? 999999999) &&
  (0 <=? seconds td) && (seconds td <? 86400) &&
  (0 <=? microseconds td) && (microseconds td <? 1000000).

(** [date(year, month, day)] *)
Definition Date (y m d : Z) : res date :=
  if negb ((1 <=? y) && (y <=? 9999)) then
    Raise (ValueError (py "year " ++ int_str y ++ py " is out of range"))
  else if negb ((1 <=? m) && (m <=? 12)) then
    Raise (ValueError (py "month must be in 1..12"))
  else if negb ((1 <=? d) && (d <=? days_in_month y m)) then
    Raise (ValueError (py "day is out of range for month"))
  else Ok (mk_date y m d).

(** [datetime(year, month, day, hour, minute, second, microsecond)] *)
Definition Datetime (y m d hh mm ss us : Z) : res datetime :=
  match Date y m d with
  | Raise e => Raise e
  | Ok dd =>
      if negb ((0 <=? hh) && (hh <? 24)) then
        Raise (ValueError (py "hour must be in 0..23"))
      else if negb ((0 <=? mm) && (mm <? 60)) then
        Raise (ValueError (py "minute must be in 0..59"))
      else if negb ((0 <=? ss) && (ss <? 60)) then
        Raise (ValueError (py "second must be in 0..59"))
      else if negb ((0 <=? us) && (us <? 1000000)) then
        Raise (ValueError (py "microsecond must be in 0..999999"))
      else Ok (mk_datetime dd hh mm ss us)
  end.

(** [timedelta(days=d, seconds=s, microseconds=us)]: the three arguments
    are added up and carried into the normal form
    [0 <= microseconds < 1000000], [0 <= seconds < 86400]; the number of
    days must stay within nine digits. *)
Definition Timedelta (d s us : Z) : res timedelta :=
  let total_s := s + us / 1000000 in
  let d' := d + total_s / 86400 in
  if (-999999999 <=? d') && (d' <=? 999999999)
  then Ok (mk_timedelta d' (total_s mod 86400) (us mod 1000000))
  else Raise (OverflowError (py "days=" ++ int_str d' ++ py "; must have magnitude <= 999999999")).

(** [date.isoformat()]: ['%04d-%02d-%02d'] *)
Definition date_isoformat (d : date) : pystr :=
  zpad 4 (year d) ++ py "-" ++ zpad 2 (month d) ++ py "-" ++ zpad 2 (day d).

(** [datetime.isoformat()] with the default separator ['T'] and the default
    [timespec='auto']: the fraction is printed when it is not zero. *)
Definition datetime_isoformat (t : datetime) : pystr :=
  date_isoformat (dt_date t) ++ py "T" ++
  zpad 2 (hour t) ++ py ":" ++ zpad 2 (minute t) ++ py ":" ++ zpad 2 (second t) ++
  (if microsecond t =? 0 then [] else py "." ++ zpad 6 (microsecond t)).

Definition invalid_isoformat (s : pystr) : exn :=
  ValueError (py "Invalid isoformat string: " ++ s).

(** The fields of [YYYY-MM-DD] at the head of a string, and the rest. *)
Definition parse_isoformat_date (s : pystr) : option (Z * Z * Z * pystr) :=
  match parse_fixed 4 s with
  | Some (y, 45%N :: s1) =>
      match parse_fixed 2 s1 with
      | Some (m, 45%N :: s2) =>
          match parse_fixed 2 s2 with
          | Some (d, s3) => Some (y, m, d, s3)
          | None => None
          end
      | _ => None
      end
  | _ => None
  end.

(** The fields of [HH], [HH:MM], [HH:MM:SS], [HH:MM:SS.fff] or
    [HH:MM:SS.ffffff], the whole string. *)
Definition parse_isoformat_time (s : pystr) : option (Z * Z * Z * Z) :=
  match parse_fixed 2 s with
  | Some (hh, []) => Some (hh, 0, 0, 0)
  | Some (hh, 58%N :: s1) =>
      match parse_fixed 2 s1 with
      | Some (mm, []) => Some (hh, mm, 0, 0)
      | Some (mm, 58%N :: s2) =>
          match parse_fixed 2 s2 with
          | Some (ss, []) => Some (hh, mm, ss, 0)
          | Some (ss, 46%N :: s3) =>
              match parse_fixed 6 s3, parse_fixed 3 s3 with
              | Some (us, []), _ => Some (hh, mm, ss, us)
              | _, Some (ms, []) => Some (hh, mm, ss, ms * 1000)
              | _, _ => None
              end
          | _ => None
          end
      | _ => None
      end
  | _ => None
  end.

(** [date.fromisoformat]: the layout [YYYY-MM-DD] (later interpreters read
    further ISO 8601 layouts as well, which are left out here). *)
Definition date_fromisoformat (s : pystr) : res date :=
  match parse_isoformat_date s with
  | Some (y, m, d, []) => Date y m d
  | _ => Raise (invalid_isoformat s)
  end.

(** [datetime.fromisoformat] for a string without a UTC offset: a date, and
    optionally any one separator character and a time. *)
Definition datetime_fromisoformat (s : pystr) : res datetime :=
  match parse_isoformat_date s with
  | Some (y, m, d, []) => Datetime y m d 0 0 0 0
  | Some (y, m, d, _ :: tstr) =>
      match parse_isoformat_time tstr with
      | Some (hh, mm, ss, us) => Datetime y m d hh mm ss us
      | None => Raise (invalid_isoformat s)
      end
  | None => Raise (invalid_isoformat s)
  end.

(** ** The codecs registered with [sqlite3] *)

Definition int_chr (c : N) : bool := (c =? 45)%N || ascii_isdigit c.

Section Codecs.
Context `{PyRuntime}.

Definition adapt_date_iso (val : date) : pystr := date_isoformat val.

Definition adapt_datetime_iso (val : datetime) : pystr := datetime_isoformat val.

Definition adapt_timedelta (td : timedelta) : pystr :=
  int_str (days td) ++ py "," ++ int_str (seconds td) ++ py "," ++
  int_str (microseconds td).

(** [val.decode()] *)
Definition bytes_decode (val : list N) : res pystr :=
  match utf8_decode val with
  | Some s => Ok s
  | None => Raise UnicodeDecodeError
  end.

Definition convert_date (val : list N) : res date :=
  match bytes_decode val with
  | Ok s => date_fromisoformat s
  | Raise e => Raise e
  end.

Definition convert_datetime (val : list N) : res datetime :=
  match bytes_decode val with
  | Ok s => datetime_fromisoformat s
  | Raise e => Raise e
  end.

Definition convert_timedelta (val : list N) : res timedelta :=
  match map_res int_of_bytes (split_on 44 val) with
  | Raise e => Raise e
  | Ok [days; secs; mic_secs] => Timedelta days secs mic_secs
  | Ok [] | Ok [_] | Ok [_; _] =>
      Raise (ValueError (py "not enough values to unpack"))
  | Ok _ => Raise (ValueError (py "too many values to unpack"))
  end.

(** A value written to a column travels as the text its adapter returns;
    the converter of the column's declared type is handed that text as
    UTF-8 bytes when the value is read back. *)
Definition stored_bytes (text : pystr) : list N := utf8_encode text.

End Codecs.

Close Scope Z_scope.

(** ** The constants of [pyforcesim.types] *)

(** [DB_DATA_TYPES] and [DB_SUPPORTED_COL_CONSTRAINTS] are imported from
    [pyforcesim.types]; the module is written for any two sets of strings. *)
Class Types := {
  DB_DATA_TYPES : gset pystr;
  DB_SUPPORTED_COL_CONSTRAINTS : gset pystr;
}.

Section AllowedTypes.
Context `{Types}.

(** [product(DB_DATA_TYPES, DB_SUPPORTED_COL_CONSTRAINTS)] *)
Definition db_col_combinations : list (pystr * pystr) :=
  a ← elements DB_DATA_TYPES; b ← elements DB_SUPPORTED_COL_CONSTRAINTS; [(a, b)].

(** [{' '.join(entry) for entry in db_col_combinations}] *)
Definition db_data_types_additional : gset pystr :=
  list_to_set ((λ entry, str_join (py " ") [entry.1; entry.2]) <$> db_col_combinations).

Definition DB_DATA_TYPES_ALLOWED : gset pystr :=
  DB_DATA_TYPES ∪ db_data_types_additional.

End AllowedTypes.

(** ** The [sqlite3] module *)

(** A value of a row: [tuple[Any, ...]] is a list of them. *)
Inductive pyval :=
| PNone
| PInt (z : Z)
| PStr (s : pystr)
| PBytes (b : list N)
| PDate (d : date)
| PDatetime (t : datetime)
| PTimedelta (td : timedelta).

Abbreviation row := (list pyval).

(** The result of a call into [sqlite3]: a value, or one of the module's
    exceptions with its message. *)
Inductive eres (A : Type) :=
| EOk (a : A)
| EErr (cls : sqlite3_error) (msg : pystr).
Arguments EOk {A} a.
Arguments EErr {A} cls msg.

Definition PARSE_DECLTYPES : N := 1.

(** The calls the class makes.  [eng_state] is everything the library and
    the database file hold; every call may change it and, except [close],
    may raise. *)
Class Engine := {
  eng_state : Type;
  connection : Type;
  cursor : Type;
  sql_connect : pystr → N → eng_state → eres connection * eng_state;
  con_execute : connection → pystr → row → eng_state → eres cursor * eng_state;
  con_executemany : connection → pystr → list row → eng_state → eres cursor * eng_state;
  cur_fetchall : cursor → eng_state → eres (list row) * eng_state;
  con_commit : connection → eng_state → eres unit * eng_state;
  con_rollback : connection → eng_state → eres unit * eng_state;
  con_close : connection → eng_state → eng_state;
}.

(** What an instance asks of [sqlite3], in the order of the calls. *)
Inductive event :=
| EvConnect (ok : bool)
| EvExecute (query : pystr) (params : row)
| EvExecuteMany (query : pystr) (data : list row)
| EvFetchall
| EvCommit
| EvRollback
| EvClose.

Definition is_connect (ev : event) : bool :=
  match ev with EvConnect _ => true | _ => false end.

(** The number of calls of [sql.connect] among the events. *)
Definition acquisitions (tr : list event) : nat := length (filter is_connect tr).

(** No connection is opened while another one is open, and none is left
    open: [held] says whether one is open before the events. *)
Fixpoint one_at_a_time (held : bool) (tr : list event) : bool :=
  match tr with
  | [] => negb held
  | EvConnect true :: r => negb held && one_at_a_time true r
  | EvConnect false :: r => negb held && one_at_a_time false r
  | EvClose :: r => held && one_at_a_time false r
  | _ :: r => held && one_at_a_time held r
  end.

(** ** The class [Database] *)

Section Db.
Context `{PyRuntime} `{Types} `{Engine}.

Record Database := mk_db {
  _name : pystr;
  _path : pystr;
  _con : option connection;
}.

(** The state a method runs in: the instance and the engine. *)
Record World := mk_world { w_db : Database; w_engine : eng_state }.

Definition set_con (c : option connection) (w : World) : World :=
  mk_world (mk_db (_name (w_db w)) (_path (w_db w)) c) (w_engine w).

Definition set_engine (s : eng_state) (w : World) : World := mk_world (w_db w) s.

(** A method: from a state to a result or an exception, the state it
    leaves, and the events it caused. *)
Definition M (A : Type) : Type := World → res A * World * list event.

Definition ret {A} (a : A) : M A := λ w, (Ok a, w, []).

Definition raise {A} (e : exn) : M A := λ w, (Raise e, w, []).

Definition lift {A} (r : res A) : M A := λ w, (r, w, []).

Definition bind {A B} (m : M A) (f : A → M B) : M B := λ w,
  match m w with
  | (Ok a, w1, t1) => let '(r, w2, t2) := f a w1 in (r, w2, t1 ++ t2)
  | (Raise e, w1, t1) => (Raise e, w1, t1)
  end.

Notation "'let*' x := m 'in' k" := (bind m (λ x, k))
  (at level 10, x name, m at level 100, k at level 200).
Notation "'let*' ' p := m 'in' k" := (bind m (λ p, k))
  (at level 10, p strict pattern, m at level 100, k at level 200).
Notation "'do' m 'then' k" := (bind m (λ _, k))
  (at level 10, m at level 100, k at level 200).

(** [try: body / except Exception as error: handler / else: orelse /
    finally: final] *)
Definition try_ {A} (body : M A) (handler : exn → M A) (orelse : M unit)
    (final : M unit) : M A := λ w,
  let '(r, w1, t1) :=
    match body w with
    | (Ok a, w1, t1) =>
        match orelse w1 with
        | (Ok _, w2, t2) => (Ok a, w2, t1 ++ t2)
        | (Raise e, w2, t2) => (Raise e, w2, t1 ++ t2)
        end
    | (Raise e, w1, t1) => let '(r, w2, t2) := handler e w1 in (r, w2, t1 ++ t2)
    end in
  match final w1 with
  | (Ok _, w2, t2) => (r, w2, t1 ++ t2)
  | (Raise e, w2, t2) => (Raise e, w2, t1 ++ t2)
  end.

(** A call into [sqlite3]: the engine moves, the event is recorded, an
    error becomes the exception. *)
Definition call {A} (f : eng_state → eres A * eng_state) (ev : event) : M A := λ w,
  match f (w_engine w) with
  | (EOk a, s) => (Ok a, set_engine s w, [ev])
  | (EErr cls msg, s) => (Raise (Sqlite3Error cls msg), set_engine s w, [ev])
  end.

(** [sql.connect(path, detect_types=...)] *)
Definition connect (path : pystr) (detect_types : N) : M connection := λ w,
  match sql_connect path detect_types (w_engine w) with
  | (EOk c, s) => (Ok c, set_engine s w, [EvConnect true])
  | (EErr cls msg, s) => (Raise (Sqlite3Error cls msg), set_engine s w, [EvConnect false])
  end.

(** [with con: body]: the transaction is committed when the body ends
    normally and rolled back when it raises. *)
Definition with_ {A} (con : connection) (body : M A) : M A := λ w,
  match body w with
  | (Ok a, w1, t1) =>
      match call (con_commit con) EvCommit w1 with
      | (Ok _, w2, t2) => (Ok a, w2, t1 ++ t2)
      | (Raise e, w2, t2) => (Raise e, w2, t1 ++ t2)
      end
  | (Raise e, w1, t1) =>
      match call (con_rollback con) EvRollback w1 with
      | (Ok _, w2, t2) => (Raise e, w2, t1 ++ t2)
      | (Raise e', w2, t2) => (Raise e', w2, t1 ++ t2)
      end
  end.

(** The calls of [logger] leave the state alone. *)
Definition logger (level : string) (msg : pystr) : M unit := ret tt.

(** The exception for a column type outside [DB_DATA_TYPES_ALLOWED]; its
    message prints the whole set. *)
Definition vocabulary_error (col_type : pystr) : exn :=
  ValueError (py "Column type " ++ col_type ++ py " not allowed. " ++
              py "Must be one of: " ++ frozenset_repr DB_DATA_TYPES_ALLOWED).

(** The loop of [_format_column_declaration] over [columns.items()]. *)
Fixpoint format_columns (columns : list (pystr * pystr)) (col_def : list pystr)
    : res (list pystr) :=
  match columns with
  | [] => Ok col_def
  | (col_name, col_type) :: columns' =>
      let col_type := uni_upper col_type in
      if bool_decide (col_type ∉ DB_DATA_TYPES_ALLOWED) then
        Raise (vocabulary_error col_type)
      else
        match _clean_query_injection col_name with
        | Raise e => Raise e
        | Ok col_name =>
            match _clean_query_injection col_type with
            | Raise e => Raise e
            | Ok col_type =>
                format_columns columns' (col_def ++ [col_name ++ py " " ++ col_type])
            end
        end
  end.

Definition _format_column_declaration (columns : list (pystr * pystr)) : res pystr :=
  match format_columns columns [] with
  | Raise e => Raise e
  | Ok col_def => Ok (str_join (py ", ") col_def)
  end.

Definition get_connection : M connection := λ w,
  match _con (w_db w) with
  | Some con =>
      (do logger "warning" (py "Connection already established.") then ret con) w
  | None =>
      (let* con := connect (_path (w_db w)) PARSE_DECLTYPES in
       λ w', (Ok con, set_con (Some con) w', [])) w
  end.

Definition close_connection : M unit := λ w,
  match _con (w_db w) with
  | None => logger "warning" (py "No connection to close.") w
  | Some con =>
      (Ok tt, set_con None (set_engine (con_close con (w_engine w)) w), [EvClose])
  end.

(** The exception of [get_columns] for an empty result set. *)
Definition retrieval_error (table_name : pystr) : exn :=
  CommonSQLError (py "Column retrieval failed. Maybe table >>" ++ table_name ++
                  py "<< does not exist.").

(** The text of the statement that [get_columns] executes. *)
Definition table_info_query (table_name : pystr) : pystr :=
  py "PRAGMA table_info(" ++ table_name ++ py ")".

Definition get_columns (table_name : pystr) : M (list row) :=
  let* table_name := lift (_clean_query_injection table_name) in
  let query := table_info_query table_name in
  let* con := get_connection in
  let* columns :=
    try_ (with_ con
            (let* res := call (con_execute con query []) (EvExecute query []) in
             call (cur_fetchall res) EvFetchall))
         (λ error, raise error)
         (ret tt)
         close_connection in
  if bool_decide (columns = []) then
    raise (retrieval_error table_name)
  else ret columns.

Definition execute_query (query : pystr) : M (option (list row)) :=
  let* con := get_connection in
  let* response :=
    try_ (with_ con
            (let* res := call (con_execute con query []) (EvExecute query []) in
             call (cur_fetchall res) EvFetchall))
         (λ error, raise error)
         (ret tt)
         close_connection in
  if bool_decide (response = []) then ret None else ret (Some response).

Definition create_table (table_name : pystr) (columns : list (pystr * pystr)) : M unit :=
  let* table_name := lift (_clean_query_injection table_name) in
  let* col_query := lift (_format_column_declaration columns) in
  do logger "info" (py "Creating table " ++ table_name ++ py "...") then
  let query := py "CREATE TABLE IF NOT EXISTS " ++ table_name ++ py " (" ++ col_query ++ py ")" in
  let* con := get_connection in
  try_ (with_ con
          (do call (con_execute con query []) (EvExecute query []) then ret tt))
       (λ error, raise error)
       (logger "info" (py "Table " ++ table_name ++ py " created successfully."))
       close_connection.

(** The text of the statement that [insert] and [insert_many] execute. *)
Definition insertion_query (table_name : pystr) (columns : list row) : pystr :=
  let placeholders := str_join (py ", ") ((λ _, py "?") <$> columns) in
  py "INSERT INTO " ++ table_name ++ py " VALUES (" ++ placeholders ++ py ")".

Definition prepare_insertion_query (table_name : pystr) : M (pystr * nat) :=
  let* columns := get_columns table_name in
  let num_cols := length columns in
  let query := insertion_query table_name columns in
  do logger "debug" (py "Prepared insertion query: " ++ query ++ py ".") then
  ret (query, num_cols).

Definition arity_message (n num_cols : nat) : pystr :=
  py "Number of data elements >>" ++ int_str (Z.of_nat n) ++
  py "<< does not match number of columns >>" ++ int_str (Z.of_nat num_cols) ++ py "<<.".

Definition prepare_insertion (table_name : pystr) (data : row) : M pystr :=
  let* table_name := lift (_clean_query_injection table_name) in
  let* '(query, num_cols) := prepare_insertion_query table_name in
  if negb (Nat.eqb (length data) num_cols) then
    raise (ValueError (arity_message (length data) num_cols))
  else ret query.

Definition insert (table_name : pystr) (data : row) : M unit :=
  let* query := prepare_insertion table_name data in
  let* con := get_connection in
  do logger "debug" (py "Inserting data into table " ++ table_name) then
  try_ (with_ con
          (do call (con_execute con query data) (EvExecute query data) then ret tt))
       (λ error, raise error)
       (logger "debug" (py "Data inserted successfully."))
       close_connection.

(** [data[0]] *)
Definition first_row (data : list row) : M row :=
  match data with
  | [] => raise (IndexError (py "list index out of range"))
  | r :: _ => ret r
  end.

(** The statements of [insert_many] that follow [prepare_insertion]. *)
Definition write_batch (table_name query : pystr) (data : list row) : M unit :=
  let* con := get_connection in
  do logger "debug" (py "Inserting data into table " ++ table_name) then
  try_ (with_ con
          (do call (con_executemany con query data) (EvExecuteMany query data) then ret tt))
       (λ error, raise error)
       (logger "debug" (py "Data inserted successfully."))
       close_connection.

(** A method is scoped when, started without a connection, it ends
    without one, opens at most [n] connections, never two at a time, and
    talks to the engine only while it holds one. *)
Definition scoped (n : nat) {A} (m : M A) : Prop :=
  ∀ w, _con (w_db w) = None →
       _con (w_db (m w).1.2) = None ∧
       one_at_a_time false (m w).2 = true ∧
       acquisitions (m w).2 ≤ n.

Definition insert_many (table_name : pystr) (data : list row) : M unit :=
  let* data_0 := first_row data in
  let* query := prepare_insertion table_name data_0 in
  let* con := get_connection in
  do logger "debug" (py "Inserting data into table " ++ table_name) then
  try_ (with_ con
          (do call (con_executemany con query data) (EvExecuteMany query data) then ret tt))
       (λ error, raise error)
       (logger "debug" (py "Data inserted successfully."))
       close_connection.

End Db.

(** ** A small engine

    Enough of an SQL engine to run the methods: tables with their column
    declarations and rows, one connection with its transaction, and the
    three statements the class emits.  A name is one token (not empty, no
    space); anything else is a syntax error.  [PRAGMA table_info] reports
    the position, the name and the declared type of every column; the
    constraint flags are not modelled and read [0]. *)

Record table := mk_table { tbl_columns : list pystr; tbl_rows : list row }.

Record mini_state := mk_mini {
  file : gmap pystr table;            (* what is committed *)
  txn : option (gmap pystr table);    (* what the open connection sees *)
}.

Inductive stmt :=
| SCreate (name : pystr) (cols : list pystr)
| STableInfo (name : pystr)
| SInsert (name : pystr) (placeholders : nat).

Fixpoint strip_prefix (p s : pystr) : option pystr :=
  match p, s with
  | [], _ => Some s
  | a :: p', b :: s' => if (a =? b)%N then strip_prefix p' s' else None
  | _ :: _, [] => None
  end.

Definition strip_suffix (p s : pystr) : option pystr :=
  reverse <$> strip_prefix (reverse p) (reverse s).

(** The text before the first [sep] and the text after it. *)
Fixpoint split_first (sep : N) (s : pystr) : option (pystr * pystr) :=
  match s with
  | [] => None
  | c :: r =>
      if (c =? sep)%N then Some ([], r)
      else match split_first sep r with
           | Some (a, b) => Some (c :: a, b)
           | None => None
           end
  end.

Definition sql_name (s : pystr) : bool :=
  nonempty s && forallb (λ c, negb (c =? 32)%N) s.

Definition parse_create (q : pystr) : option stmt :=
  match split_first 40 q with
  | Some (name_sp, defs) =>
      match strip_suffix (py " ") name_sp, strip_suffix (py ")") defs with
      | Some name, Some cols =>
          let pieces := lstrip <$> split_on 44 cols in
          if sql_name name && forallb nonempty pieces
          then Some (SCreate name pieces) else None
      | _, _ => None
      end
  | None => None
  end.

Definition parse_table_info (q : pystr) : option stmt :=
  match strip_suffix (py ")") q with
  | Some name => if sql_name name then Some (STableInfo name) else None
  | None => None
  end.

Definition parse_insert (q : pystr) : option stmt :=
  match split_first 32 q with
  | Some (name, rest) =>
      match strip_prefix (py "VALUES (") rest with
      | Some r =>
          match strip_suffix (py ")") r with
          | Some marks =>
              let pieces := lstrip <$> split_on 44 marks in
              if sql_name name && forallb (λ p, bool_decide (p = py "?")) pieces
              then Some (SInsert name (length pieces)) else None
          | None => None
          end
      | None => None
      end
  | None => None
  end.

Definition parse_stmt (q : pystr) : option stmt :=
  match strip_prefix (py "PRAGMA table_info(") q with
  | Some r => parse_table_info r
  | None =>
      match strip_prefix (py "CREATE TABLE IF NOT EXISTS ") q with
      | Some r => parse_create r
      | None =>
          match strip_prefix (py "INSERT INTO ") q with
          | Some r => parse_insert r
          | None => None
          end
      end
  end.

(** One row of [PRAGMA table_info]:
    [(cid, name, type, notnull, dflt_value, pk)]. *)
Definition describe (cid : nat) (decl : pystr) : row :=
  match split_first 32 decl with
  | Some (name, type) => [PInt (Z.of_nat cid); PStr name; PStr type; PInt 0; PNone; PInt 0]
  | None => [PInt (Z.of_nat cid); PStr decl; PStr []; PInt 0; PNone; PInt 0]
  end.

Definition table_info (db : gmap pystr table) (name : pystr) : list row :=
  match db !! name with
  | Some t => imap describe (tbl_columns t)
  | None => []
  end.

Definition syntax_error {A} : eres A := EErr OperationalError (py "syntax error").

Definition closed_error {A} : eres A :=
  EErr ProgrammingError (py "Cannot operate on a closed database.").

Definition insert_row (db : gmap pystr table) (name : pystr) (n : nat) (r : row)
    : eres (gmap pystr table) :=
  match db !! name with
  | None => EErr OperationalError (py "no such table: " ++ name)
  | Some t =>
      if negb (Nat.eqb n (length (tbl_columns t))) then
        EErr OperationalError (py "table " ++ name ++ py " has " ++
          int_str (Z.of_nat (length (tbl_columns t))) ++ py " columns but " ++
          int_str (Z.of_nat n) ++ py " values were supplied")
      else if negb (Nat.eqb (length r) n) then
        EErr ProgrammingError (py "Incorrect number of bindings supplied.")
      else EOk (<[name := mk_table (tbl_columns t) (tbl_rows t ++ [r])]> db)
  end.

Fixpoint insert_rows (db : gmap pystr table) (name : pystr) (n : nat) (rs : list row)
    : eres (gmap pystr table) * gmap pystr table :=
  match rs with
  | [] => (EOk db, db)
  | r :: rs' =>
      match insert_row db name n r with
      | EOk db' => insert_rows db' name n rs'
      | EErr cls msg => (EErr cls msg, db)
      end
  end.

Definition mini_execute (q : pystr) (params : row) (s : mini_state)
    : eres (list row) * mini_state :=
  match txn s with
  | None => (closed_error, s)
  | Some db =>
      match parse_stmt q with
      | None => (syntax_error, s)
      | Some (SCreate name cols) =>
          if negb (bool_decide (params = [])) then
            (EErr ProgrammingError (py "Incorrect number of bindings supplied."), s)
          else match db !! name with
               | Some _ => (EOk [], s)
               | None => (EOk [], mk_mini (file s) (Some (<[name := mk_table cols []]> db)))
               end
      | Some (STableInfo name) => (EOk (table_info db name), s)
      | Some (SInsert name n) =>
          match insert_row db name n params with
          | EOk db' => (EOk [], mk_mini (file s) (Some db'))
          | EErr cls msg => (EErr cls msg, s)
          end
      end
  end.

Definition mini_executemany (q : pystr) (data : list row) (s : mini_state)
    : eres (list row) * mini_state :=
  match txn s with
  | None => (closed_error, s)
  | Some db =>
      match parse_stmt q with
      | Some (SInsert name n) =>
          match insert_rows db name n data with
          | (EOk db', _) => (EOk [], mk_mini (file s) (Some db'))
          | (EErr cls msg, db') => (EErr cls msg, mk_mini (file s) (Some db'))
          end
      | Some _ =>
          (EErr ProgrammingError (py "executemany() can only execute DML statements."), s)
      | None => (syntax_error, s)
      end
  end.

Instance MiniSqlite : Engine := {|
  eng_state := mini_state;
  connection := unit;
  cursor := list row;
  sql_connect path detect_types s := (EOk tt, mk_mini (file s) (Some (file s)));
  con_execute con q params s := mini_execute q params s;
  con_executemany con q data s := mini_executemany q data s;
  cur_fetchall cur s := (EOk cur, s);
  con_commit con s :=
    match txn s with
    | Some db => (EOk tt, mk_mini db (Some db))
    | None => (closed_error, s)
    end;
  con_rollback con s :=
    match txn s with
    | Some db => (EOk tt, mk_mini (file s) (Some (file s)))
    | None => (closed_error, s)
    end;
  con_close con s := mk_mini (file s) None;
|}.

(** A table name and a column declaration that the class and the small
    engine accept: the name passes the sanitizer and is one token; there is
    at least one column; the type of every column, in capitals, is in the
    allowed set, its name and type pass the sanitizer, and name and type are
    not both blank. *)
Section Valid.
Context `{PyRuntime} `{Types}.

Definition valid_table_name (t : pystr) : Prop :=
  _clean_query_injection t = Ok t ∧ sql_name t = true.

Definition column_fragment (col : pystr * pystr) : pystr :=
  col.1 ++ py " " ++ uni_upper col.2.

Definition valid_column (col : pystr * pystr) : Prop :=
  uni_upper col.2 ∈ DB_DATA_TYPES_ALLOWED ∧
  _clean_query_injection col.1 = Ok col.1 ∧
  _clean_query_injection (uni_upper col.2) = Ok (uni_upper col.2) ∧
  nonempty (lstrip (column_fragment col)) = true.

Definition valid_declaration (columns : list (pystr * pystr)) : Prop :=
  columns ≠ [] ∧ Forall valid_column columns.

End Valid.

(** The constants used in the examples. *)
Instance example_types : Types := {|
  DB_DATA_TYPES := {[py "INTEGER"; py "TEXT"; py "DATETIME"]};
  DB_SUPPORTED_COL_CONSTRAINTS := {[py "PRIMARY KEY"; py "NOT NULL"]};
|}.

(** A fresh instance on an empty database file. *)
Definition example_world : @World MiniSqlite :=
  mk_world (mk_db (py "sim") (py "databases/sim.db") None) (mk_mini ∅ None).

(** The table of the scenario: [events(id INTEGER PRIMARY KEY,
    occurred_at DATETIME)]. *)
Definition events_columns : list (pystr * pystr) :=
  [(py "id", py "INTEGER PRIMARY KEY"); (py "occurred_at", py "DATETIME")].

(** The instance after [create_table("events", ...)]. *)
Definition events_world : @World MiniSqlite :=
  mk_world (mk_db (py "sim") (py "databases/sim.db") None)
    (mk_mini {[py "events" := mk_table [py "id INTEGER PRIMARY KEY";
                                         py "occurred_at DATETIME"] []]} None).

(** What [get_columns("events")] returns there. *)
Definition events_reflected : list row :=
  [[PInt 0; PStr (py "id"); PStr (py "INTEGER PRIMARY KEY"); PInt 0; PNone; PInt 0];
   [PInt 1; PStr (py "occurred_at"); PStr (py "DATETIME"); PInt 0; PNone; PInt 0]].

Definition reflection_events (t : pystr) : list event :=
  [EvConnect true; EvExecute (py "PRAGMA table_info(" ++ t ++ py ")") []; EvFetchall;
   EvCommit; EvClose].

(** ** Tactics *)

(** Case analysis on the comparisons of code points. *)
Ltac ascii_cases :=
  unfold ascii_isword, ascii_isalpha, ascii_isdigit, ascii_lower, ascii_upper,
    ascii_isupper, ascii_islower, is_ascii in *;
  repeat match goal with
         | H : context [(?a <=? ?b)%N] |- _ =>
             destruct (N.leb_spec a b); cbn [andb orb negb] in *
         | |- context [(?a <=? ?b)%N] =>
             destruct (N.leb_spec a b); cbn [andb orb negb] in *
         | H : context [(?a <? ?b)%N] |- _ =>
             destruct (N.ltb_spec a b); cbn [andb orb negb] in *
         | |- context [(?a <? ?b)%N] =>
             destruct (N.ltb_spec a b); cbn [andb orb negb] in *
         | H : context [(?a =? ?b)%N] |- _ =>
             destruct (N.eqb_spec a b); cbn [andb orb negb] in *
         | |- context [(?a =? ?b)%N] =>
             destruct (N.eqb_spec a b); cbn [andb orb negb] in *
         end;
  try discriminate; try reflexivity; try lia.

(** A conjunction of tests, one hypothesis per test. *)
Ltac bool_facts H :=
  repeat match type of H with
         | (_ && _ = true) =>
             let H' := fresh H in apply andb_true_iff in H as [H H']; bool_facts H'
         end.

(** Runs a method on a symbolic state, one case per outcome of the engine. *)
Ltac crunch :=
  unfold get_connection, close_connection, try_, with_, bind, call, connect, lift,
    ret, raise, logger, set_con, set_engine in *;
  repeat (simpl in *; case_match; simplify_eq); simplify_eq/=.

(** * Further properties: definitions *)

(** ** The sanitizer on ASCII strings *)

(** The first character is an ASCII digit or an underscore. *)
Definition leading_digit_underscore (s : pystr) : Prop :=
  ∃ c r, s = c :: r ∧ (ascii_isdigit c = true ∨ c = 95%N).

(** Letters, digits, underscores and spaces only. *)
Definition word_or_space (s : pystr) : Prop :=
  Forall (λ c, ascii_isword c = true ∨ c = 32%N) s.

(** ** Column declarations *)

Section Checked.
Context `{PyRuntime} `{Types}.

(** What [_format_column_declaration] checks of one column. *)
Definition checked_column (col : pystr * pystr) : Prop :=
  uni_upper col.2 ∈ DB_DATA_TYPES_ALLOWED ∧
  _clean_query_injection col.1 = Ok col.1 ∧
  _clean_query_injection (uni_upper col.2) = Ok (uni_upper col.2).

(** The exceptions the loop can raise for one column. *)
Definition column_error (col : pystr * pystr) (e : exn) : Prop :=
  e = vocabulary_error (uni_upper col.2) ∨
  e = injection_error col.1 ∨
  e = injection_error (uni_upper col.2).

End Checked.

(** ** Statements and outcomes *)

(** The text of the statement that [create_table] executes. *)
Definition creation_query (table_name col_query : pystr) : pystr :=
  py "CREATE TABLE IF NOT EXISTS " ++ table_name ++ py " (" ++ col_query ++ py ")".

(** The events of one statement run in a connection of its own. *)
Definition session_events (statement : event) (end_of_transaction : event) : list event :=
  [EvConnect true; statement; end_of_transaction; EvClose].

(** An engine that cannot open the database file. *)
Definition NoFile : Engine := {|
  eng_state := unit;
  connection := unit;
  cursor := unit;
  sql_connect path detect_types s :=
    (EErr OperationalError (py "unable to open database file"), s);
  con_execute con q params s := (EErr ProgrammingError (py "Cannot operate on a closed database."), s);
  con_executemany con q data s := (EErr ProgrammingError (py "Cannot operate on a closed database."), s);
  cur_fetchall cur s := (EOk [], s);
  con_commit con s := (EOk tt, s);
  con_rollback con s := (EOk tt, s);
  con_close con s := s;
|}.

Definition no_file_world : @World NoFile :=
  @mk_world NoFile (@mk_db NoFile (py "sim") (py "databases/sim.db") None) tt.

(** Unfolds the combinators of a method. *)
Ltac run_monad :=
  cbv beta iota delta [bind lift logger ret raise get_connection close_connection
                       try_ with_ call connect].

(** ** Calls one after another *)

Section Programs.
Context `{PyRuntime} `{Types} `{Engine}.

(** A call of a public method. *)
Inductive operation :=
| OpCreateTable (table_name : pystr) (columns : list (pystr * pystr))
| OpGetColumns (table_name : pystr)
| OpInsert (table_name : pystr) (data : row)
| OpInsertMany (table_name : pystr) (data : list row)
| OpExecuteQuery (query : pystr).

Definition run_operation (op : operation) : M unit :=
  match op with
  | OpCreateTable t columns => create_table t columns
  | OpGetColumns t => bind (get_columns t) (λ _, ret tt)
  | OpInsert t data => insert t data
  | OpInsertMany t data => insert_many t data
  | OpExecuteQuery q => bind (execute_query q) (λ _, ret tt)
  end.

(** A caller that makes the calls in turn and goes on after an exception:
    the state it ends in and all the events. *)
Fixpoint run_all (ops : list operation) (w : World) : World * list event :=
  match ops with
  | [] => (w, [])
  | op :: ops' =>
      let '(_, w1, t1) := run_operation op w in
      let '(w2, t2) := run_all ops' w1 in
      (w2, t1 ++ t2)
  end.

End Programs.

(** ** Durations as numbers *)

(** The length of a duration in microseconds. *)
Definition total_microseconds (d s us : Z) : Z :=
  ((d * 86400 + s) * 1000000 + us)%Z.

(** ** Declared and reflected columns *)

Section Reflected.
Context `{PyRuntime}.

(** The columns as the small engine keeps them for a declaration. *)
Definition declared_columns (columns : list (pystr * pystr)) : list pystr :=
  lstrip <$> (column_fragment <$> columns).

(** The row that the small engine reports for the column at position
    [cid]: its name as declared and its type in capitals. *)
Definition reflected_column (cid : nat) (col : pystr * pystr) : row :=
  [PInt (Z.of_nat cid); PStr col.1; PStr (uni_upper col.2); PInt 0; PNone; PInt 0].

End Reflected.

(** ** The order of stored dates *)

(** The order in which texts compare, code point by code point (the
    engine's binary collation, on ASCII). *)
Fixpoint text_lt (a b : pystr) : bool :=
  match a, b with
  | [], [] => false
  | [], _ :: _ => true
  | _ :: _, [] => false
  | x :: a', y :: b' => (x <? y)%N || ((x =? y)%N && text_lt a' b')
  end.

(** [d1 < d2] for dates and for naive datetimes. *)
Definition date_lt (d1 d2 : date) : bool :=
  ((year d1 <? year d2) ||
   ((year d1 =? year d2) &&
    ((month d1 <? month d2) ||
     ((month d1 =? month d2) && (day d1 <? day d2)))))%Z.

Definition date_eqb (d1 d2 : date) : bool :=
  ((year d1 =? year d2) && (month d1 =? month d2) && (day d1 =? day d2))%Z.

Definition datetime_lt (t1 t2 : datetime) : bool :=
  date_lt (dt_date t1) (dt_date t2) ||
  (date_eqb (dt_date t1) (dt_date t2) &&
   ((hour t1 <? hour t2) ||
    ((hour t1 =? hour t2) &&
     ((minute t1 <? minute t2) ||
      ((minute t1 =? minute t2) &&
       ((second t1 <? second t2) ||
        ((second t1 =? second t2) && (microsecond t1 <? microsecond t2))))))))%Z.

(** * Theorems *)

(** ** ASCII character classes *)

Lemma ascii_lower_idem c : ascii_lower (ascii_lower c) = ascii_lower c.
Proof. ascii_cases. Qed.

Lemma ascii_lower_is_ascii c :
  is_ascii (ascii_lower c) = true → is_ascii c = true.
Proof. ascii_cases. Qed.

Lemma ascii_islower_is_ascii c : ascii_islower c = true → is_ascii c = true.
Proof. ascii_cases. Qed.

Lemma ascii_islower_lower c : ascii_islower c = true → ascii_lower c = c.
Proof. ascii_cases. Qed.

Lemma ascii_isword_is_ascii c : ascii_isword c = true → is_ascii c = true.
Proof. ascii_cases. Qed.

Lemma ascii_isalpha_isword c : ascii_isalpha c = true → ascii_isword c = true.
Proof. unfold ascii_isword. intros ->. reflexivity. Qed.

Lemma N_eqb_alpha_false p c :
  ascii_isalpha c = true → ascii_isalpha p = false → (p =? c)%N = false.
Proof. intros Hc Hp. destruct (N.eqb_spec p c); [congruence|reflexivity]. Qed.

(** ** The matcher *)

Lemma nonempty_app {A} (l1 l2 : list A) :
  nonempty (l1 ++ l2) = nonempty l1 || nonempty l2.
Proof. destruct l1; reflexivity. Qed.

Lemma nonempty_true {A} (l : list A) : nonempty l = true ↔ l ≠ [].
Proof. destruct l; simpl; split; congruence. Qed.

Section RegexFacts.
Context `{PyRuntime}.

Lemma iter_plus_nonempty step k i :
  nonempty (iter_plus step (S k) i) = nonempty (step i).
Proof. simpl. rewrite nonempty_app. destruct (step i); reflexivity. Qed.

Lemma ends_lits ic w kw i :
  ends ic w (foldr (λ c r, Seq (Lit c) r) Empty kw) i =
  if ci_prefix ic kw (drop i w) then [i + length kw] else [].
Proof.
  revert i. induction kw as [|p kw IH]; intros i; simpl.
  - rewrite Nat.add_0_r. reflexivity.
  - destruct (w !! i) as [c|] eqn:Hi.
    + rewrite (drop_S _ _ _ Hi). simpl.
      destruct (chr_match ic p c); simpl; [|reflexivity].
      rewrite IH, app_nil_r, Nat.add_succ_r. reflexivity.
    + rewrite drop_ge by (apply lookup_ge_None; exact Hi). reflexivity.
Qed.

Lemma matches_lits ic w s i :
  nonempty (ends ic w (lits s) i) = ci_prefix ic (py s) (drop i w).
Proof. unfold lits. rewrite ends_lits. destruct ci_prefix; reflexivity. Qed.

Lemma re_search_None p w :
  re_search p w = None ↔ ∀ i, i ≤ length w → matches_at p w i = false.
Proof.
  unfold re_search. split.
  - intros Hn i Hi. apply (find_none _ _ Hn). apply in_seq. lia.
  - intros Hall. destruct (find _ _) as [i|] eqn:Hf; [|reflexivity].
    apply find_some in Hf as [Hin Hm]. apply in_seq in Hin.
    rewrite Hall in Hm by lia. discriminate.
Qed.

Lemma re_search_Some p w i :
  i ≤ length w → matches_at p w i = true → re_search p w ≠ None.
Proof.
  intros Hi Hm Hn. rewrite re_search_None in Hn. rewrite Hn in Hm by exact Hi.
  discriminate.
Qed.

Lemma ends_Alt ic w r1 r2 i :
  nonempty (ends ic w (Alt r1 r2) i) =
  nonempty (ends ic w r1 i) || nonempty (ends ic w r2 i).
Proof. simpl. apply nonempty_app. Qed.

Lemma ends_Group ic w r i : ends ic w (Group r) i = ends ic w r i.
Proof. reflexivity. Qed.

Lemma ends_In ic w negate items i :
  nonempty (ends ic w (In_ negate items) i) =
  match w !! i with
  | Some c => xorb negate (existsb (λ it, cls_match ic it c) items)
  | None => false
  end.
Proof.
  simpl. destruct (w !! i); [|reflexivity]. destruct (xorb _ _); reflexivity.
Qed.

Lemma ends_Bol_Plus ic w r i :
  nonempty (ends ic w (Seq Bol (Plus r)) i) =
  Nat.eqb i 0 && nonempty (ends ic w r 0).
Proof.
  cbn [ends]. destruct (Nat.eqb_spec i 0) as [->|]; [|reflexivity].
  cbn [flat_map]. rewrite app_nil_r. apply iter_plus_nonempty.
Qed.

Lemma injection_pattern_at w i :
  matches_at _check_query_pattern w i =
  head_digit_us w i || odd_char w i ||
  existsb (λ kw, ci_prefix true (py kw) (drop i w)) banned_keywords.
Proof.
  unfold matches_at, _check_query_pattern, DB_INJECTION_PATTERN.
  cbn [re_pattern re_ignorecase].
  rewrite !ends_Alt, !ends_Group, !ends_Alt, ends_Bol_Plus, !ends_In, !matches_lits.
  unfold head_digit_us, odd_char. cbn [existsb banned_keywords].
  rewrite orb_false_r, <- !orb_assoc. reflexivity.
Qed.

End RegexFacts.

(** ** The sanitizer *)

Lemma contains_ci_spec kw s : contains_ci kw s ↔ contains_ci_b kw s = true.
Proof.
  unfold contains_ci, contains_ci_b. rewrite existsb_exists. split.
  - intros (pre & mid & post & -> & Hmid). exists (length pre). split.
    + apply in_seq. rewrite length_app. lia.
    + apply bool_decide_eq_true. rewrite drop_app_length.
      rewrite <- Hmid at 1. rewrite length_fmap, take_app_length. exact Hmid.
  - intros (i & _ & Hd). apply bool_decide_eq_true in Hd.
    exists (take i s), (take (length (py kw)) (drop i s)),
      (drop (length (py kw)) (drop i s)).
    split; [|exact Hd]. rewrite !take_drop. reflexivity.
Qed.

Lemma contains_banned_spec s : contains_banned s ↔ contains_banned_b s = true.
Proof.
  unfold contains_banned, contains_banned_b. rewrite existsb_exists.
  split; intros (kw & Hin & Hc); exists kw; (split; [exact Hin|]);
    apply contains_ci_spec; exact Hc.
Qed.

Lemma banned_keywords_lower kw :
  In kw banned_keywords → forallb ascii_islower (py kw) = true.
Proof.
  unfold banned_keywords. simpl.
  intros H; repeat (destruct H as [<-|H]; [reflexivity|]); destruct H.
Qed.

Section SanitizerFacts.
Context `{PyRuntime}.

Lemma uni_ieq_lower c :
  ascii_islower (ascii_lower c) = true → uni_ieq (ascii_lower c) c = true.
Proof.
  intros Hl. pose proof (ascii_islower_is_ascii _ Hl) as Ha.
  rewrite uni_ieq_ascii by auto using ascii_lower_is_ascii.
  rewrite ascii_lower_idem. apply N.eqb_refl.
Qed.

Lemma ci_prefix_lower mid post :
  forallb ascii_islower (ascii_lower <$> mid) = true →
  ci_prefix true (ascii_lower <$> mid) (mid ++ post) = true.
Proof.
  induction mid as [|c mid IH]; simpl; [reflexivity|].
  intros [Hc Hmid]%andb_true_iff. apply andb_true_iff. split.
  - unfold chr_match. apply uni_ieq_lower, Hc.
  - apply IH, Hmid.
Qed.

Lemma ci_prefix_inv kw w :
  forallb ascii_islower kw = true → Forall (λ c, is_ascii c = true) w →
  ci_prefix true kw w = true →
  ∃ mid post, w = mid ++ post ∧ ascii_lower <$> mid = kw.
Proof.
  revert w. induction kw as [|p kw IH]; intros w Hkw Hw Hp.
  - exists [], w. split; reflexivity.
  - destruct w as [|c w]; simpl in Hp; [discriminate|].
    apply andb_true_iff in Hp as [Hpc Hp].
    simpl in Hkw. apply andb_true_iff in Hkw as [Hlp Hkw].
    inversion Hw as [|? ? Hc Hw']; subst.
    destruct (IH w Hkw Hw' Hp) as (mid & post & -> & Hmid).
    exists (c :: mid), post. split; [reflexivity|]. simpl. f_equal; [|exact Hmid].
    unfold chr_match in Hpc.
    rewrite uni_ieq_ascii in Hpc by auto using ascii_islower_is_ascii.
    apply N.eqb_eq in Hpc. rewrite ascii_islower_lower in Hpc by exact Hlp.
    symmetry. exact Hpc.
Qed.

Lemma reject_banned s : contains_banned s → re_search _check_query_pattern s ≠ None.
Proof.
  intros (kw & Hin & pre & mid & post & -> & Hmid).
  apply (re_search_Some _ _ (length pre)); [rewrite length_app; lia|].
  rewrite injection_pattern_at. apply orb_true_iff. right.
  apply existsb_exists. exists kw. split; [exact Hin|].
  rewrite drop_app_length, <- Hmid. apply ci_prefix_lower.
  rewrite Hmid. apply banned_keywords_lower, Hin.
Qed.

Lemma N_range_In lo hi c : (lo <= c <= hi)%N → In c (N_range lo hi).
Proof.
  intros Hc. unfold N_range. apply list_elem_of_In, list_elem_of_fmap.
  exists (N.to_nat (c - lo)). split; [lia|]. apply elem_of_seq. lia.
Qed.

Lemma reject_digits s :
  purely_digits_underscores s → re_search _check_query_pattern s ≠ None.
Proof.
  intros [Hne Hall]. destruct s as [|c s]; [congruence|].
  inversion Hall as [|? ? Hc _]; subst.
  apply (re_search_Some _ _ 0); [simpl; lia|].
  rewrite injection_pattern_at. apply orb_true_iff. left.
  apply orb_true_iff. left. unfold head_digit_us.
  change ((c :: s) !! 0) with (Some c). cbn [Nat.eqb andb existsb cls_match].
  unfold chr_match. destruct Hc as [Hd| ->].
  - apply orb_true_iff. right. apply orb_true_iff. left.
    apply existsb_exists. exists c. split.
    + apply N_range_In. ascii_cases.
    + rewrite uni_ieq_ascii by ascii_cases. apply N.eqb_refl.
  - rewrite uni_ieq_ascii by reflexivity. reflexivity.
Qed.

Lemma reject_odd_char s :
  has_char_outside_word_space s → re_search _check_query_pattern s ≠ None.
Proof.
  intros (c & Hin & Hw & Hsp)%Exists_exists.
  apply list_elem_of_lookup in Hin as [i Hi].
  apply (re_search_Some _ _ i); [apply lookup_lt_Some in Hi; lia|].
  rewrite injection_pattern_at. apply orb_true_iff. left.
  apply orb_true_iff. right. unfold odd_char. rewrite Hi. simpl.
  unfold chr_match. rewrite Hw, uni_ieq_uncased by reflexivity.
  destruct (N.eqb_spec 32 c); [congruence|reflexivity].
Qed.

Lemma accept_plain_identifier s :
  plain_identifier s → ¬ contains_banned s →
  re_search _check_query_pattern s = None.
Proof.
  intros (c & rest & -> & Hc & Hrest) Hnb.
  assert (Hword : Forall (λ c, ascii_isword c = true) (c :: rest))
    by (constructor; auto using ascii_isalpha_isword).
  assert (Hascii : Forall (λ c, is_ascii c = true) (c :: rest))
    by (eapply Forall_impl; [exact Hword|]; auto using ascii_isword_is_ascii).
  apply re_search_None. intros i Hi. rewrite injection_pattern_at.
  apply orb_false_iff. split; [apply orb_false_iff; split|].
  - unfold head_digit_us. change ((c :: rest) !! 0) with (Some c).
    cbn [existsb cls_match]. unfold chr_match.
    replace (N_range 48 57) with [48;49;50;51;52;53;54;55;56;57]%N by reflexivity.
    cbn [existsb]. rewrite !uni_ieq_uncased by reflexivity.
    rewrite !(N_eqb_alpha_false _ c) by (exact Hc || reflexivity).
    apply andb_false_r.
  - unfold odd_char. destruct (_ !! i) as [c'|] eqn:Hc'; [|reflexivity].
    simpl. pose proof (proj1 (Forall_lookup _ _) Hword _ _ Hc') as Hw.
    rewrite uni_isword_ascii, Hw by auto using ascii_isword_is_ascii.
    reflexivity.
  - destruct (existsb _ _) eqn:E; [|reflexivity]. exfalso. apply Hnb.
    apply existsb_exists in E as (kw & Hin & Hp).
    apply ci_prefix_inv in Hp as (mid & post & Hd & Hmid);
      [|apply banned_keywords_lower, Hin|apply Forall_drop, Hascii].
    exists kw. split; [exact Hin|].
    exists (take i (c :: rest)), mid, post. split; [|exact Hmid].
    rewrite <- Hd, take_drop. reflexivity.
Qed.

(** C1.  The sanitizer raises [ValueError], naming the string, on every
    string that contains a banned keyword in any letter case, that
    consists of digits and underscores only, or that has a character that
    is neither a word character nor a space; and it returns unchanged
    every string of the form [^[A-Za-z][A-Za-z0-9_]*$] that contains no
    banned keyword. *)
Theorem clean_query_injection_spec :
  (∀ s, contains_banned s ∨ purely_digits_underscores s ∨
        has_char_outside_word_space s →
        _clean_query_injection s =
        Raise (ValueError (py "Unallowed characters in value " ++ s ++ py "."))) ∧
  (∀ s, plain_identifier s → ¬ contains_banned s →
        _clean_query_injection s = Ok s).
Proof.
  split.
  - intros s Hs. unfold _clean_query_injection.
    destruct (re_search _ s) eqn:E; [reflexivity|]. exfalso.
    destruct Hs as [Hs|[Hs|Hs]];
      [apply reject_banned in Hs|apply reject_digits in Hs
      |apply reject_odd_char in Hs]; congruence.
  - intros s Hid Hnb. unfold _clean_query_injection.
    rewrite accept_plain_identifier by assumption. reflexivity.
Qed.

End SanitizerFacts.

(** ** Decimal text *)

Section Decimal.
Open Scope Z_scope.

Lemma digits_fuel_enough k k' n :
  0 ≤ n < 2 ^ Z.of_nat (S k) →
  digits_fuel (S k + k') n = digits_fuel (S k) n.
Proof.
  revert n k'. induction k as [|k IH]; intros n k' Hn.
  - change (2 ^ Z.of_nat 1) with 2 in Hn. simpl.
    destruct (Z.ltb_spec n 10); [reflexivity|lia].
  - change (S (S k) + k')%nat with (S (S k + k')).
    change (digits_fuel (S (S k + k')) n) with
      ((if n <? 10 then [] else digits_fuel (S k + k') (n / 10)) ++
       [chr_of_digit (n mod 10)]).
    change (digits_fuel (S (S k)) n) with
      ((if n <? 10 then [] else digits_fuel (S k) (n / 10)) ++
       [chr_of_digit (n mod 10)]).
    destruct (n <? 10); [reflexivity|]. rewrite IH; [reflexivity|].
    rewrite Nat2Z.inj_succ, Z.pow_succ_r in Hn by lia.
    Z.to_euclidean_division_equations. lia.
Qed.

Lemma digits_eq n :
  0 ≤ n →
  digits n = (if n <? 10 then [] else digits (n / 10)) ++ [chr_of_digit (n mod 10)].
Proof.
  intros Hn. unfold digits at 1.
  change (digits_fuel (S ?k) n) with
    ((if n <? 10 then [] else digits_fuel k (n / 10)) ++ [chr_of_digit (n mod 10)]).
  destruct (Z.ltb_spec n 10) as [|Hge]; [reflexivity|]. f_equal. unfold digits.
  assert (Hq : 0 < n / 10) by (Z.to_euclidean_division_equations; lia).
  destruct (Z.log2_spec n) as [Hlo Hhi]; [lia|].
  rewrite Z.pow_succ_r in Hhi by apply Z.log2_nonneg.
  assert (Hlt : Z.log2 (n / 10) < Z.log2 n).
  { apply Z.log2_lt_pow2; [exact Hq|].
    Z.to_euclidean_division_equations. lia. }
  pose proof (Z.log2_nonneg (n / 10)) as Hl0.
  replace (Z.to_nat (Z.log2 n)) with
    (S (Z.to_nat (Z.log2 (n / 10))) +
     (Z.to_nat (Z.log2 n) - S (Z.to_nat (Z.log2 (n / 10)))))%nat by lia.
  apply digits_fuel_enough. split; [lia|].
  rewrite Nat2Z.inj_succ, Z2Nat.id by exact Hl0.
  apply Z.log2_spec, Hq.
Qed.

Lemma digits_fuel_isdigit k n : forallb ascii_isdigit (digits_fuel k n) = true.
Proof.
  revert n. induction k as [|k IH]; intros n; [reflexivity|]. simpl.
  rewrite forallb_app. apply andb_true_iff. split.
  - destruct (n <? 10); [reflexivity|apply IH].
  - simpl. rewrite andb_true_r. unfold chr_of_digit, ascii_isdigit.
    pose proof (Z.mod_pos_bound n 10 eq_refl).
    apply andb_true_iff. split; apply N.leb_le; lia.
Qed.

Lemma digits_isdigit n : forallb ascii_isdigit (digits n) = true.
Proof. apply digits_fuel_isdigit. Qed.

Lemma digits_nonempty n : digits n ≠ [].
Proof. unfold digits. simpl. intros Hd. apply app_eq_nil in Hd as [_ Hd]. discriminate. Qed.

Lemma digit_val_chr d : 0 ≤ d ≤ 9 → digit_val (chr_of_digit d) = Some d.
Proof.
  intros Hd. unfold digit_val, chr_of_digit, ascii_isdigit.
  replace ((48 <=? Z.to_N (48 + d))%N && (Z.to_N (48 + d) <=? 57)%N) with true.
  - f_equal. lia.
  - symmetry. apply andb_true_iff. split; apply N.leb_le; lia.
Qed.

Lemma parse_digits_acc_snoc acc l c :
  parse_digits_acc acc (l ++ [c]) =
  match parse_digits_acc acc l, digit_val c with
  | Some v, Some d => Some (10 * v + d)
  | _, _ => None
  end.
Proof.
  revert acc. induction l as [|x l IH]; intros acc; simpl.
  - destruct (digit_val c); reflexivity.
  - destruct (digit_val x); [apply IH|reflexivity].
Qed.

Lemma parse_digits_digits n : 0 ≤ n → parse_digits_acc 0 (digits n) = Some n.
Proof.
  induction n as [n IH] using (well_founded_induction (Z.lt_wf 0)).
  intros Hn. rewrite digits_eq by exact Hn.
  rewrite parse_digits_acc_snoc, digit_val_chr
    by (pose proof (Z.mod_pos_bound n 10 eq_refl); lia).
  destruct (Z.ltb_spec n 10).
  - simpl. f_equal. Z.to_euclidean_division_equations. lia.
  - rewrite IH by (Z.to_euclidean_division_equations; lia).
    f_equal. Z.to_euclidean_division_equations. lia.
Qed.

Lemma parse_digits_zeros k l :
  parse_digits_acc 0 (replicate k 48%N ++ l) = parse_digits_acc 0 l.
Proof. induction k as [|k IH]; [reflexivity|exact IH]. Qed.

Lemma parse_digits_zpad w n : 0 ≤ n → parse_digits_acc 0 (zpad w n) = Some n.
Proof.
  intros Hn. unfold zpad. destruct (Z.ltb_spec n 0); [lia|].
  rewrite parse_digits_zeros. apply parse_digits_digits, Hn.
Qed.

Lemma length_digits w n :
  0 ≤ n < 10 ^ Z.of_nat (S w) → (length (digits n) ≤ S w)%nat.
Proof.
  revert n. induction w as [|w IH]; intros n Hn; rewrite digits_eq by lia;
    rewrite length_app; simpl.
  - change (10 ^ Z.of_nat 1) with 10 in Hn.
    destruct (Z.ltb_spec n 10); [simpl; lia|lia].
  - destruct (n <? 10); [simpl; lia|].
    assert (length (digits (n / 10)) ≤ S w)%nat; [|lia].
    apply IH. rewrite (Nat2Z.inj_succ (S w)), Z.pow_succ_r in Hn by lia.
    Z.to_euclidean_division_equations. lia.
Qed.

Lemma length_zpad w n :
  0 ≤ n < 10 ^ Z.of_nat (S w) → length (zpad (S w) n) = S w.
Proof.
  intros Hn. unfold zpad. destruct (Z.ltb_spec n 0); [lia|].
  pose proof (length_digits w n Hn). rewrite length_app, length_replicate. lia.
Qed.

Lemma parse_fixed_zpad w n rest :
  0 ≤ n < 10 ^ Z.of_nat (S w) →
  parse_fixed (S w) (zpad (S w) n ++ rest) = Some (n, rest).
Proof.
  intros Hn. unfold parse_fixed. pose proof (length_zpad w n Hn) as Hl.
  destruct (Nat.ltb_spec (length (zpad (S w) n ++ rest)) (S w)) as [Hlt|_].
  - rewrite length_app in Hlt. lia.
  - rewrite take_app_length', drop_app_length' by (symmetry; exact Hl).
    rewrite parse_digits_zpad by lia. reflexivity.
Qed.

Lemma zpad_is_ascii w n : 0 ≤ n → forallb is_ascii (zpad w n) = true.
Proof.
  intros Hn. unfold zpad. destruct (Z.ltb_spec n 0); [lia|].
  rewrite forallb_app. apply andb_true_iff. split.
  - apply forallb_forall. intros c Hc%list_elem_of_In%elem_of_replicate.
    destruct Hc as [-> _]. reflexivity.
  - apply forallb_forall. intros c Hc.
    pose proof (digits_isdigit n) as Hd.
    rewrite forallb_forall in Hd. specialize (Hd c Hc). clear -Hd. ascii_cases.
Qed.

End Decimal.

(** ** The temporal codecs *)

Section CodecFacts.
Context `{PyRuntime}.
Open Scope Z_scope.

Lemma parse_fixed_2 n rest :
  0 ≤ n < 100 → parse_fixed 2 (zpad 2 n ++ rest) = Some (n, rest).
Proof. intros. apply (parse_fixed_zpad 1). exact H0. Qed.

Lemma parse_fixed_4 n rest :
  0 ≤ n < 10000 → parse_fixed 4 (zpad 4 n ++ rest) = Some (n, rest).
Proof. intros. apply (parse_fixed_zpad 3). exact H0. Qed.

Lemma parse_fixed_6 n rest :
  0 ≤ n < 1000000 → parse_fixed 6 (zpad 6 n ++ rest) = Some (n, rest).
Proof. intros. apply (parse_fixed_zpad 5). exact H0. Qed.

Lemma days_in_month_le y m : days_in_month y m ≤ 31.
Proof.
  unfold days_in_month.
  repeat match goal with |- context [if ?b then _ else _] => destruct b end; lia.
Qed.

Lemma valid_date_bounds d :
  valid_date d = true →
  1 ≤ year d ≤ 9999 ∧ 1 ≤ month d ≤ 12 ∧
  1 ≤ day d ≤ days_in_month (year d) (month d).
Proof. unfold valid_date. intros Hv. bool_facts Hv. lia. Qed.

Lemma valid_time_bounds h m s us :
  valid_time h m s us = true →
  0 ≤ h < 24 ∧ 0 ≤ m < 60 ∧ 0 ≤ s < 60 ∧ 0 ≤ us < 1000000.
Proof. unfold valid_time. intros Hv. bool_facts Hv. lia. Qed.

Lemma Date_valid d :
  valid_date d = true → Date (year d) (month d) (day d) = Ok d.
Proof.
  intros (Hy & Hm & Hd)%valid_date_bounds. destruct d as [y m dd]. simpl in *.
  unfold Date.
  replace ((1 <=? y) && (y <=? 9999)) with true by (symmetry; apply andb_true_iff; lia).
  replace ((1 <=? m) && (m <=? 12)) with true by (symmetry; apply andb_true_iff; lia).
  replace ((1 <=? dd) && (dd <=? days_in_month y m)) with true
    by (symmetry; apply andb_true_iff; lia).
  reflexivity.
Qed.

Lemma Datetime_valid t :
  valid_datetime t = true →
  Datetime (year (dt_date t)) (month (dt_date t)) (day (dt_date t))
    (hour t) (minute t) (second t) (microsecond t) = Ok t.
Proof.
  unfold valid_datetime. intros [Hd Ht]%andb_true_iff.
  apply valid_time_bounds in Ht as (Hh & Hm & Hs & Hu).
  unfold Datetime. rewrite Date_valid by exact Hd. destruct t as [d h m s us].
  simpl in *.
  replace ((0 <=? h) && (h <? 24)) with true by (symmetry; apply andb_true_iff; lia).
  replace ((0 <=? m) && (m <? 60)) with true by (symmetry; apply andb_true_iff; lia).
  replace ((0 <=? s) && (s <? 60)) with true by (symmetry; apply andb_true_iff; lia).
  replace ((0 <=? us) && (us <? 1000000)) with true
    by (symmetry; apply andb_true_iff; lia).
  reflexivity.
Qed.

Lemma parse_isoformat_date_iso d rest :
  valid_date d = true →
  parse_isoformat_date (date_isoformat d ++ rest) =
  Some (year d, month d, day d, rest).
Proof.
  intros (Hy & Hm & Hd)%valid_date_bounds.
  pose proof (days_in_month_le (year d) (month d)).
  unfold parse_isoformat_date, date_isoformat. rewrite <- !app_assoc.
  rewrite parse_fixed_4 by lia. repeat change (py "-" ++ ?x) with (45%N :: x).
  cbv iota beta. rewrite parse_fixed_2 by lia. cbv iota beta.
  rewrite parse_fixed_2 by lia. reflexivity.
Qed.

Lemma parse_isoformat_time_iso h m s us :
  valid_time h m s us = true →
  parse_isoformat_time
    (zpad 2 h ++ py ":" ++ zpad 2 m ++ py ":" ++ zpad 2 s ++
     (if us =? 0 then [] else py "." ++ zpad 6 us)) = Some (h, m, s, us).
Proof.
  intros (Hh & Hm & Hs & Hu)%valid_time_bounds. unfold parse_isoformat_time.
  rewrite parse_fixed_2 by lia. repeat change (py ":" ++ ?x) with (58%N :: x).
  cbv iota beta. rewrite parse_fixed_2 by lia. cbv iota beta.
  destruct (Z.eqb_spec us 0) as [->|Hne]; cbv iota beta.
  - rewrite parse_fixed_2 by lia. reflexivity.
  - rewrite parse_fixed_2 by lia.
    change (py "." ++ ?x) with (46%N :: x). cbv iota beta.
    rewrite <- (app_nil_r (zpad 6 us)), parse_fixed_6 by lia. reflexivity.
Qed.

Lemma date_isoformat_ascii d :
  valid_date d = true → forallb is_ascii (date_isoformat d) = true.
Proof.
  intros (Hy & Hm & Hd)%valid_date_bounds. unfold date_isoformat.
  rewrite !forallb_app, !zpad_is_ascii by lia. reflexivity.
Qed.

Lemma datetime_isoformat_ascii t :
  valid_datetime t = true → forallb is_ascii (datetime_isoformat t) = true.
Proof.
  unfold valid_datetime. intros [Hd Ht]%andb_true_iff.
  apply valid_time_bounds in Ht as (Hh & Hm & Hs & Hu). unfold datetime_isoformat.
  rewrite !forallb_app, date_isoformat_ascii, !zpad_is_ascii by (lia || exact Hd).
  destruct (microsecond t =? 0); [reflexivity|].
  rewrite forallb_app, zpad_is_ascii by lia. reflexivity.
Qed.

Lemma date_roundtrip d :
  valid_date d = true → convert_date (stored_bytes (adapt_date_iso d)) = Ok d.
Proof.
  intros Hv. unfold convert_date, stored_bytes, adapt_date_iso, bytes_decode.
  rewrite utf8_encode_ascii, utf8_decode_ascii by (apply date_isoformat_ascii, Hv).
  unfold date_fromisoformat.
  rewrite <- (app_nil_r (date_isoformat d)) at 1.
  rewrite parse_isoformat_date_iso by exact Hv. apply Date_valid, Hv.
Qed.

Lemma datetime_roundtrip t :
  valid_datetime t = true →
  convert_datetime (stored_bytes (adapt_datetime_iso t)) = Ok t.
Proof.
  intros Hv. unfold convert_datetime, stored_bytes, adapt_datetime_iso, bytes_decode.
  rewrite utf8_encode_ascii, utf8_decode_ascii
    by (apply datetime_isoformat_ascii, Hv).
  pose proof Hv as [Hd Ht]%andb_true_iff.
  unfold datetime_fromisoformat, datetime_isoformat at 1.
  rewrite parse_isoformat_date_iso by exact Hd.
  change (py "T" ++ ?x) with (84%N :: x). cbv iota beta.
  rewrite parse_isoformat_time_iso by exact Ht. apply Datetime_valid, Hv.
Qed.

(** *** Durations *)

Lemma int_str_chars z : forallb int_chr (int_str z) = true.
Proof.
  assert (Hd : ∀ n, forallb int_chr (digits n) = true).
  { intros n. apply forallb_forall. intros c Hc.
    pose proof (digits_isdigit n) as Hn. rewrite forallb_forall in Hn.
    unfold int_chr. rewrite (Hn c Hc). apply orb_true_r. }
  unfold int_str. destruct (z <? 0); [simpl; apply Hd|apply Hd].
Qed.

Lemma int_chr_is_ascii c : int_chr c = true → is_ascii c = true.
Proof. unfold int_chr. ascii_cases. Qed.

Lemma int_chr_not_comma c : int_chr c = true → (c =? 44)%N = false.
Proof. unfold int_chr. ascii_cases. Qed.

Lemma int_chr_not_space c : int_chr c = true → bytes_isspace c = false.
Proof. unfold int_chr, bytes_isspace. ascii_cases. Qed.

Lemma split_on_nosep sep a :
  forallb (λ c, negb (c =? sep)%N) a = true → split_on sep a = [a].
Proof.
  induction a as [|c a IH]; [reflexivity|]. simpl.
  intros [Hc Ha]%andb_true_iff. apply negb_true_iff in Hc.
  rewrite Hc, IH by exact Ha. reflexivity.
Qed.

Lemma split_on_app sep a r :
  forallb (λ c, negb (c =? sep)%N) a = true →
  split_on sep (a ++ sep :: r) = a :: split_on sep r.
Proof.
  induction a as [|c a IH]; simpl.
  - intros _. rewrite N.eqb_refl. reflexivity.
  - intros [Hc Ha]%andb_true_iff. apply negb_true_iff in Hc.
    rewrite Hc, IH by exact Ha. reflexivity.
Qed.

Lemma int_str_nocomma z : forallb (λ c, negb (c =? 44)%N) (int_str z) = true.
Proof.
  apply forallb_forall. intros c Hc.
  pose proof (int_str_chars z) as Hz. rewrite forallb_forall in Hz.
  rewrite int_chr_not_comma by auto. reflexivity.
Qed.

Lemma lstrip_id l :
  Forall (λ c, bytes_isspace c = false) l → lstrip l = l.
Proof. destruct 1 as [|c l Hc _]; [reflexivity|]. simpl. rewrite Hc. reflexivity. Qed.

Lemma strip_id l :
  Forall (λ c, bytes_isspace c = false) l → strip l = l.
Proof.
  intros Hl. unfold strip. rewrite (lstrip_id l) by exact Hl.
  rewrite lstrip_id by (apply Forall_reverse; exact Hl).
  apply reverse_involutive.
Qed.

Lemma int_digits_plain ds b acc :
  forallb ascii_isdigit ds = true → ds ≠ [] →
  int_digits b acc ds = parse_digits_acc acc ds.
Proof.
  revert b acc. induction ds as [|c ds IH]; intros b acc Hd Hne; [congruence|].
  simpl in *. apply andb_true_iff in Hd as [Hc Hd].
  replace (c =? 95)%N with false by (clear -Hc; ascii_cases).
  unfold digit_val. rewrite Hc. destruct ds as [|c' ds']; [reflexivity|].
  apply IH; [exact Hd|discriminate].
Qed.

Lemma int_digits_digits n : 0 ≤ n → int_digits false 0 (digits n) = Some n.
Proof.
  intros Hn. rewrite int_digits_plain
    by auto using digits_isdigit, digits_nonempty.
  apply parse_digits_digits, Hn.
Qed.

Lemma int_of_bytes_int_str z : int_of_bytes (int_str z) = Ok z.
Proof.
  unfold int_of_bytes. rewrite strip_id.
  2:{ apply Forall_forall. intros c Hc%list_elem_of_In.
      pose proof (int_str_chars z) as Hz. rewrite forallb_forall in Hz.
      apply int_chr_not_space. auto. }
  unfold int_str. destruct (Z.ltb_spec z 0).
  - rewrite N.eqb_refl, int_digits_digits by lia. f_equal. lia.
  - destruct (digits z) as [|c r] eqn:Hz; [destruct (digits_nonempty _ Hz)|].
    pose proof (digits_isdigit z) as Hd. rewrite Hz in Hd. simpl in Hd.
    apply andb_true_iff in Hd as [Hc _].
    replace (c =? 45)%N with false by (clear -Hc; ascii_cases).
    replace (c =? 43)%N with false by (clear -Hc; ascii_cases).
    rewrite <- Hz, int_digits_digits by lia. reflexivity.
Qed.

Lemma int_str_ascii z : forallb is_ascii (int_str z) = true.
Proof.
  apply forallb_forall. intros c Hc.
  pose proof (int_str_chars z) as Hz. rewrite forallb_forall in Hz.
  auto using int_chr_is_ascii.
Qed.

Lemma adapt_timedelta_fields td :
  split_on 44 (adapt_timedelta td) =
  [int_str (days td); int_str (seconds td); int_str (microseconds td)].
Proof.
  unfold adapt_timedelta. change (py "," ++ ?x) with (44%N :: x).
  rewrite split_on_app by apply int_str_nocomma.
  change (py "," ++ ?x) with (44%N :: x).
  rewrite split_on_app by apply int_str_nocomma.
  rewrite split_on_nosep by apply int_str_nocomma. reflexivity.
Qed.

Lemma Timedelta_valid td :
  valid_timedelta td = true →
  Timedelta (days td) (seconds td) (microseconds td) = Ok td.
Proof.
  unfold valid_timedelta. intros Hv. bool_facts Hv. destruct td as [d s us].
  simpl in *. unfold Timedelta.
  rewrite (Z.div_small us), (Z.mod_small us), Z.add_0_r by lia.
  rewrite (Z.div_small s), (Z.mod_small s), Z.add_0_r by lia.
  replace ((-999999999 <=? d) && (d <=? 999999999)) with true
    by (symmetry; apply andb_true_iff; lia).
  reflexivity.
Qed.

Lemma timedelta_roundtrip td :
  valid_timedelta td = true →
  convert_timedelta (stored_bytes (adapt_timedelta td)) = Ok td.
Proof.
  intros Hv. unfold convert_timedelta, stored_bytes.
  rewrite utf8_encode_ascii.
  2:{ unfold adapt_timedelta. rewrite !forallb_app, !int_str_ascii. reflexivity. }
  rewrite adapt_timedelta_fields. cbn [map_res].
  rewrite !int_of_bytes_int_str. apply Timedelta_valid, Hv.
Qed.

(** C2.  Reading back what was written gives the value that was written:
    for every date ([1 <= year <= 9999]), for every timestamp (to the
    microsecond) and for every duration (zero and negative ones included),
    the converter applied to the stored text of the adapter's result
    returns the value; and the text of a duration has the fields
    days, seconds, microseconds, in this order, between commas. *)
Theorem temporal_codecs_roundtrip :
  (∀ d, valid_date d = true →
        convert_date (stored_bytes (adapt_date_iso d)) = Ok d) ∧
  (∀ t, valid_datetime t = true →
        convert_datetime (stored_bytes (adapt_datetime_iso t)) = Ok t) ∧
  (∀ td, valid_timedelta td = true →
         convert_timedelta (stored_bytes (adapt_timedelta td)) = Ok td ∧
         split_on 44 (adapt_timedelta td) =
         [int_str (days td); int_str (seconds td); int_str (microseconds td)]).
Proof.
  split; [exact date_roundtrip|]. split; [exact datetime_roundtrip|].
  intros td Hv. split; [apply timedelta_roundtrip, Hv|apply adapt_timedelta_fields].
Qed.

End CodecFacts.

(** ** The connection discipline of the methods *)

Lemma one_at_a_time_app held t1 t2 :
  one_at_a_time held t1 = true → one_at_a_time false t2 = true →
  one_at_a_time held (t1 ++ t2) = true.
Proof.
  revert held. induction t1 as [|ev t1 IH]; intros held H1 H2.
  - destruct held; [discriminate|exact H2].
  - destruct ev as [[]| | | | | |]; simpl in *;
      apply andb_true_iff in H1 as [-> H1]; simpl; apply IH; assumption.
Qed.

Lemma acquisitions_app t1 t2 :
  acquisitions (t1 ++ t2) = acquisitions t1 + acquisitions t2.
Proof. unfold acquisitions. rewrite filter_app, length_app. reflexivity. Qed.

Section Discipline.
Context `{PyRuntime} `{Types} `{Engine}.

Lemma scoped_weaken {A} n n' (m : M A) : n ≤ n' → scoped n m → scoped n' m.
Proof. intros Hn Hm w Hw. destruct (Hm w Hw) as (? & ? & ?). repeat split; [done..|lia]. Qed.

Lemma scoped_lift {A} (r : res A) : scoped 0 (lift r).
Proof. intros w Hw. simpl. auto. Qed.

Lemma scoped_ret {A} (a : A) : scoped 0 (ret a).
Proof. intros w Hw. simpl. auto. Qed.

Lemma scoped_raise {A} e : scoped 0 (raise (A:=A) e).
Proof. intros w Hw. simpl. auto. Qed.

Lemma scoped_bind {A B} n1 n2 (m : M A) (f : A → M B) :
  scoped n1 m → (∀ a, scoped n2 (f a)) → scoped (n1 + n2) (bind m f).
Proof.
  intros Hm Hf w Hw. unfold bind. destruct (Hm w Hw) as (Hc & Ho & Ha).
  destruct (m w) as [[[a|e] w1] t1]; simpl in *.
  - destruct (Hf a w1 Hc) as (Hc' & Ho' & Ha').
    destruct (f a w1) as [[r w2] t2]; simpl in *.
    rewrite acquisitions_app, one_at_a_time_app by assumption.
    repeat split; [assumption|lia].
  - repeat split; [assumption..|lia].
Qed.

Lemma scoped_get_columns t : scoped 1 (get_columns t).
Proof.
  intros w Hw. unfold get_columns. crunch; auto.
Qed.

Lemma scoped_execute_query q : scoped 1 (execute_query q).
Proof. intros w Hw. unfold execute_query. crunch; auto. Qed.

Lemma scoped_create_table t columns : scoped 1 (create_table t columns).
Proof. intros w Hw. unfold create_table. crunch; auto. Qed.

Lemma scoped_prepare_insertion_query t : scoped 1 (prepare_insertion_query t).
Proof.
  unfold prepare_insertion_query. apply (scoped_bind 1 0).
  - apply scoped_get_columns.
  - intros columns. apply (scoped_bind 0 0); [apply scoped_ret|].
    intros _. apply scoped_ret.
Qed.

Lemma scoped_prepare_insertion t data : scoped 1 (prepare_insertion t data).
Proof.
  unfold prepare_insertion. apply (scoped_bind 0 1); [apply scoped_lift|].
  intros t'. apply (scoped_bind 1 0); [apply scoped_prepare_insertion_query|].
  intros [query num_cols]. destruct (negb _); [apply scoped_raise|apply scoped_ret].
Qed.

Lemma scoped_write_batch t query data : scoped 1 (write_batch t query data).
Proof. intros w Hw. unfold write_batch. crunch; auto. Qed.

Lemma scoped_insert t data : scoped 2 (insert t data).
Proof.
  unfold insert. apply (scoped_bind 1 1); [apply scoped_prepare_insertion|].
  intros query w Hw. crunch; auto.
Qed.

Lemma scoped_insert_many t data : scoped 2 (insert_many t data).
Proof.
  unfold insert_many. apply (scoped_bind 0 2).
  - destruct data; [apply scoped_raise|apply scoped_ret].
  - intros data_0. apply (scoped_bind 1 1); [apply scoped_prepare_insertion|].
    intros query. apply scoped_write_batch.
Qed.

(** C8.  Every public method that starts on an instance without a
    connection leaves it without one, whether it returns or raises; what
    it asks of the engine lies between opening a connection and closing
    it, and closing is the last thing it does. *)
Theorem connection_released_after_every_operation (w : World) :
  _con (w_db w) = None →
  (∀ t columns,
      _con (w_db (create_table t columns w).1.2) = None ∧
      one_at_a_time false (create_table t columns w).2 = true) ∧
  (∀ t,
      _con (w_db (get_columns t w).1.2) = None ∧
      one_at_a_time false (get_columns t w).2 = true) ∧
  (∀ t data,
      _con (w_db (insert t data w).1.2) = None ∧
      one_at_a_time false (insert t data w).2 = true) ∧
  (∀ t data,
      _con (w_db (insert_many t data w).1.2) = None ∧
      one_at_a_time false (insert_many t data w).2 = true) ∧
  (∀ q,
      _con (w_db (execute_query q w).1.2) = None ∧
      one_at_a_time false (execute_query q w).2 = true).
Proof.
  intros Hw. repeat split; intros.
  all: first
    [ apply (scoped_create_table t columns w Hw)
    | apply (scoped_get_columns t w Hw)
    | apply (scoped_insert t data w Hw)
    | apply (scoped_insert_many t data w Hw)
    | apply (scoped_execute_query q w Hw) ].
Qed.

(** C9, as the code has it.  Started without a connection, [create_table],
    [get_columns] and [execute_query] call [sql.connect] at most once;
    [insert] and [insert_many] call it at most twice, and the second
    connection is opened only after the first has been closed. *)
Theorem acquisitions_per_operation (w : World) :
  _con (w_db w) = None →
  (∀ t columns, acquisitions (create_table t columns w).2 ≤ 1) ∧
  (∀ t, acquisitions (get_columns t w).2 ≤ 1) ∧
  (∀ q, acquisitions (execute_query q w).2 ≤ 1) ∧
  (∀ t data, acquisitions (insert t data w).2 ≤ 2 ∧
             one_at_a_time false (insert t data w).2 = true) ∧
  (∀ t data, acquisitions (insert_many t data w).2 ≤ 2 ∧
             one_at_a_time false (insert_many t data w).2 = true).
Proof.
  intros Hw. repeat split; intros.
  all: first
    [ apply (scoped_create_table t columns w Hw)
    | apply (scoped_get_columns t w Hw)
    | apply (scoped_insert t data w Hw)
    | apply (scoped_insert_many t data w Hw)
    | apply (scoped_execute_query q w Hw) ].
Qed.

End Discipline.

(** ** Validation and arity *)

Section Validation.
Context `{PyRuntime} `{Types} `{Engine}.

Lemma clean_Ok s s' : _clean_query_injection s = Ok s' → s' = s.
Proof. unfold _clean_query_injection. destruct (re_search _ _); congruence. Qed.

Lemma clean_Raise s e :
  _clean_query_injection s = Raise e → e = injection_error s.
Proof.
  unfold _clean_query_injection, injection_error.
  destruct (re_search _ _); congruence.
Qed.

Lemma format_columns_app a b acc :
  format_columns (a ++ b) acc =
  match format_columns a acc with
  | Ok acc' => format_columns b acc'
  | Raise e => Raise e
  end.
Proof.
  revert acc. induction a as [|[c ty] a IH]; intros acc; [reflexivity|].
  simpl. destruct (bool_decide _); [reflexivity|].
  destruct (_clean_query_injection c); [|reflexivity].
  destruct (_clean_query_injection (uni_upper ty)); [|reflexivity].
  apply IH.
Qed.

Lemma create_table_first_violation t good c ty rest col_def (w : World) :
  _clean_query_injection t = Ok t →
  format_columns good [] = Ok col_def →
  uni_upper ty ∉ DB_DATA_TYPES_ALLOWED →
  create_table t (good ++ (c, ty) :: rest) w =
  (Raise (vocabulary_error (uni_upper ty)), w, []).
Proof.
  intros Ht Hgood Hty. unfold create_table, bind, lift, _format_column_declaration.
  rewrite Ht, format_columns_app, Hgood. simpl.
  rewrite bool_decide_eq_true_2 by exact Hty. reflexivity.
Qed.

(** C3, as the code has it.  When the table name passes the sanitizer,
    [create_table(t, {"c": "FOOBAR"})], with [FOOBAR] outside the allowed
    types, raises the [ValueError] whose message prints the allowed set;
    so does any declaration at its first column of a type outside the
    set.  When the name does not pass, the exception is the sanitizer's,
    naming the table.  Either way nothing was asked of the engine and the
    state is as before. *)
Theorem create_table_rejects_type (w : World) :
  (∀ t, _clean_query_injection t = Ok t →
        py "FOOBAR" ∉ DB_DATA_TYPES_ALLOWED →
        create_table t [(py "c", py "FOOBAR")] w =
        (Raise (vocabulary_error (py "FOOBAR")), w, [])) ∧
  (∀ t good c ty rest col_def,
        _clean_query_injection t = Ok t →
        format_columns good [] = Ok col_def →
        uni_upper ty ∉ DB_DATA_TYPES_ALLOWED →
        create_table t (good ++ (c, ty) :: rest) w =
        (Raise (vocabulary_error (uni_upper ty)), w, [])) ∧
  (∀ t columns e,
        _clean_query_injection t = Raise e →
        create_table t columns w = (Raise (injection_error t), w, [])).
Proof.
  split; [|split].
  - intros t Ht Hty.
    assert (Hup : uni_upper (py "FOOBAR") = py "FOOBAR")
      by (rewrite uni_upper_ascii by reflexivity; reflexivity).
    rewrite <- Hup at 2.
    apply (create_table_first_violation t [] (py "c") (py "FOOBAR") [] []);
      [exact Ht|reflexivity|rewrite Hup; exact Hty].
  - intros. eapply create_table_first_violation; eassumption.
  - intros t columns e He. unfold create_table, bind, lift. rewrite He.
    rewrite (clean_Raise _ _ He). reflexivity.
Qed.

(** C10.  [insert_many] with an empty batch raises [IndexError] at
    [data[0]]: nothing was asked of the engine, no connection was opened
    and the state is as before. *)
Theorem insert_many_empty_batch t (w : World) :
  insert_many t [] w = (Raise (IndexError (py "list index out of range")), w, []).
Proof. reflexivity. Qed.

Lemma get_columns_Ok t (w w1 : World) columns tr :
  get_columns t w = (Ok columns, w1, tr) →
  _clean_query_injection t = Ok t ∧ columns ≠ [] ∧ _con (w_db w1) = None.
Proof.
  unfold get_columns. intros Hg.
  destruct (_clean_query_injection t) as [t'|e] eqn:Ht; [|crunch].
  apply clean_Ok in Ht as Heq. subst t'. split; [reflexivity|].
  crunch;
    repeat match goal with
           | Hb : bool_decide _ = false |- _ => apply bool_decide_eq_false in Hb
           end; auto.
Qed.

Lemma get_columns_trace t (w w1 : World) columns tr :
  _con (w_db w) = None →
  get_columns t w = (Ok columns, w1, tr) →
  tr = [EvConnect true; EvExecute (table_info_query t) []; EvFetchall; EvCommit;
        EvClose].
Proof.
  intros Hw Hg. pose proof (get_columns_Ok _ _ _ _ _ Hg) as (Ht & _ & _).
  unfold get_columns in Hg. rewrite Ht in Hg. crunch; auto.
Qed.

Lemma prepare_insertion_after_reflection t data (w w1 : World) columns tr :
  get_columns t w = (Ok columns, w1, tr) →
  prepare_insertion t data w =
  if negb (Nat.eqb (length data) (length columns))
  then (Raise (ValueError (arity_message (length data) (length columns))), w1, tr)
  else (Ok (insertion_query t columns), w1, tr).
Proof.
  intros Hg. pose proof (get_columns_Ok _ _ _ _ _ Hg) as (Ht & _ & _).
  unfold prepare_insertion, prepare_insertion_query, bind, lift, logger, ret, raise.
  rewrite Ht, Hg. simpl. destruct (negb _); simpl; rewrite !app_nil_r; reflexivity.
Qed.

(** C5.  When the columns of [t] can be reflected and the row has another
    length than there are columns, [insert] raises the [ValueError] of the
    arity check.  The state is the one the reflection left, the only
    statement that reached the engine is the [PRAGMA] of the reflection,
    and the connection is closed. *)
Theorem insert_arity_mismatch t data (w w1 : World) columns tr :
  _con (w_db w) = None →
  get_columns t w = (Ok columns, w1, tr) →
  length data ≠ length columns →
  insert t data w =
    (Raise (ValueError (arity_message (length data) (length columns))), w1, tr) ∧
  tr = [EvConnect true; EvExecute (table_info_query t) []; EvFetchall; EvCommit;
        EvClose] ∧
  _con (w_db w1) = None.
Proof.
  intros Hw Hg Hlen. split; [|split].
  - unfold insert, bind at 1.
    rewrite (prepare_insertion_after_reflection _ _ _ _ _ _ Hg).
    destruct (Nat.eqb_spec (length data) (length columns)); [contradiction|].
    reflexivity.
  - eapply get_columns_trace; eassumption.
  - eapply get_columns_Ok; eassumption.
Qed.

Lemma insert_many_cons t r0 rest (w : World) :
  insert_many t (r0 :: rest) w =
  bind (prepare_insertion t r0) (λ query, write_batch t query (r0 :: rest)) w.
Proof.
  unfold insert_many, write_batch, first_row. unfold bind at 1. unfold ret at 1.
  destruct (bind _ _ w) as [[r w2] t2]. reflexivity.
Qed.

Lemma write_batch_raises t query data (w w' : World) e tr :
  write_batch t query data w = (Raise e, w', tr) →
  ∃ cls msg, e = Sqlite3Error cls msg.
Proof. unfold write_batch. intros Hb. crunch; eauto. Qed.

(** C6.  Once the columns of [t] have been reflected, [insert_many]
    compares the length of the first row only with their number: it
    raises the [ValueError] of the arity check exactly when that length
    differs, and otherwise hands the whole batch to [executemany],
    whatever the lengths of the other rows. *)
Theorem insert_many_checks_first_row t r0 rest (w w1 : World) columns tr :
  get_columns t w = (Ok columns, w1, tr) →
  (length r0 ≠ length columns →
     insert_many t (r0 :: rest) w =
     (Raise (ValueError (arity_message (length r0) (length columns))), w1, tr)) ∧
  (length r0 = length columns →
     insert_many t (r0 :: rest) w =
     let '(r, w2, tr2) :=
       write_batch t (insertion_query t columns) (r0 :: rest) w1 in
     (r, w2, tr ++ tr2)) ∧
  ((∃ msg w' tr', insert_many t (r0 :: rest) w = (Raise (ValueError msg), w', tr'))
   ↔ length r0 ≠ length columns).
Proof.
  intros Hg.
  assert (Hne : length r0 ≠ length columns →
    insert_many t (r0 :: rest) w =
    (Raise (ValueError (arity_message (length r0) (length columns))), w1, tr)).
  { intros Hlen. rewrite insert_many_cons. unfold bind.
    rewrite (prepare_insertion_after_reflection _ _ _ _ _ _ Hg).
    destruct (Nat.eqb_spec (length r0) (length columns)); [contradiction|].
    reflexivity. }
  assert (Heq : length r0 = length columns →
    insert_many t (r0 :: rest) w =
    let '(r, w2, tr2) :=
      write_batch t (insertion_query t columns) (r0 :: rest) w1 in
    (r, w2, tr ++ tr2)).
  { intros Hlen. rewrite insert_many_cons. unfold bind.
    rewrite (prepare_insertion_after_reflection _ _ _ _ _ _ Hg).
    destruct (Nat.eqb_spec (length r0) (length columns)); [|contradiction].
    reflexivity. }
  split; [exact Hne|]. split; [exact Heq|]. split.
  - intros (msg & w' & tr' & Hr) Hlen. rewrite (Heq Hlen) in Hr.
    destruct (write_batch _ _ _ w1) as [[r w2] tr2] eqn:Hb.
    injection Hr as -> _ _.
    apply write_batch_raises in Hb as (cls & m & Hb). discriminate.
  - intros Hlen. eexists _, _, _. apply Hne, Hlen.
Qed.


End Validation.

(** ** The small engine *)

Section Mini.
Context `{PyRuntime} `{Types}.

Local Arguments parse_stmt : simpl never.

Lemma parse_stmt_create t col_query :
  parse_stmt (py "CREATE TABLE IF NOT EXISTS " ++ t ++ py " (" ++ col_query ++ py ")") =
  parse_create (t ++ py " (" ++ col_query ++ py ")").
Proof. reflexivity. Qed.



Lemma mini_execute_create q name cols f db :
  parse_stmt q = Some (SCreate name cols) →
  mini_execute q [] (mk_mini f (Some db)) =
  (EOk [], mk_mini f (Some (match db !! name with
                            | Some _ => db
                            | None => <[name := mk_table cols []]> db
                            end))).
Proof.
  intros Hp. unfold mini_execute. simpl. rewrite Hp. simpl.
  destruct (db !! name); reflexivity.
Qed.


Lemma strip_prefix_app p r : strip_prefix p (p ++ r) = Some r.
Proof.
  induction p as [|c p IH]; [reflexivity|]. simpl. rewrite N.eqb_refl. exact IH.
Qed.

Lemma strip_suffix_app p s : strip_suffix p (s ++ p) = Some s.
Proof.
  unfold strip_suffix. rewrite reverse_app, strip_prefix_app. simpl.
  rewrite reverse_involutive. reflexivity.
Qed.

Lemma split_first_app sep a r :
  forallb (λ c, negb (c =? sep)%N) a = true →
  split_first sep (a ++ sep :: r) = Some (a, r).
Proof.
  induction a as [|c a IH]; simpl.
  - intros _. rewrite N.eqb_refl. reflexivity.
  - intros [Hc Ha]%andb_true_iff. apply negb_true_iff in Hc.
    rewrite Hc, IH by exact Ha. reflexivity.
Qed.

(** What passes the sanitizer is made of word characters and spaces. *)
Lemma clean_Ok_chars s :
  _clean_query_injection s = Ok s →
  Forall (λ c, uni_isword c = true ∨ c = 32%N) s.
Proof.
  intros Hs. apply Forall_forall. intros c Hc.
  destruct (uni_isword c) eqn:Hw; [left; reflexivity|].
  destruct (N.eq_dec c 32%N) as [->|Hne]; [right; reflexivity|]. exfalso.
  assert (Hodd : has_char_outside_word_space s)
    by (apply Exists_exists; exists c; auto).
  apply reject_odd_char in Hodd. unfold _clean_query_injection in Hs.
  destruct (re_search _ s); congruence.
Qed.

Lemma clean_Ok_without x s :
  is_ascii x = true → ascii_isword x = false → x ≠ 32%N →
  _clean_query_injection s = Ok s →
  forallb (λ c, negb (c =? x)%N) s = true.
Proof.
  intros Ha Hx Hsp Hs. apply forallb_forall. intros c Hc%list_elem_of_In.
  pose proof (proj1 (Forall_forall _ _) (clean_Ok_chars s Hs) c Hc) as Hw.
  apply negb_true_iff. destruct (N.eqb_spec c x) as [->|]; [|reflexivity].
  rewrite uni_isword_ascii in Hw by exact Ha. destruct Hw; congruence.
Qed.

Lemma format_columns_valid columns acc :
  Forall valid_column columns →
  format_columns columns acc = Ok (acc ++ (column_fragment <$> columns)).
Proof.
  intros Hv. revert acc. induction Hv as [|[c ty] columns (Hin & Hc & Hty & _) _ IH];
    intros acc; simpl.
  - rewrite app_nil_r. reflexivity.
  - simpl in *. rewrite bool_decide_eq_false_2 by (intros Hn; exact (Hn Hin)).
    rewrite Hc, Hty, IH, <- app_assoc. reflexivity.
Qed.

Lemma split_on_join f fs :
  Forall (λ x, forallb (λ c, negb (c =? 44)%N) x = true) (f :: fs) →
  split_on 44 (str_join (py ", ") (f :: fs)) = f :: ((λ x, 32%N :: x) <$> fs).
Proof.
  revert f. induction fs as [|g fs IH]; intros f Hall.
  - simpl. apply split_on_nosep. inversion Hall; assumption.
  - inversion Hall as [|? ? Hf Hrest]; subst.
    change (str_join (py ", ") (f :: g :: fs)) with
      (f ++ 44%N :: 32%N :: str_join (py ", ") (g :: fs)).
    rewrite split_on_app by exact Hf.
    change (split_on 44 (32%N :: ?x)) with
      (match split_on 44 x with p :: ps => (32%N :: p) :: ps | [] => [[32%N]] end).
    rewrite IH by exact Hrest. reflexivity.
Qed.

Lemma column_fragment_nocomma col :
  valid_column col → forallb (λ c, negb (c =? 44)%N) (column_fragment col) = true.
Proof.
  intros (_ & Hc & Hty & _). unfold column_fragment.
  rewrite !forallb_app.
  rewrite (clean_Ok_without 44 col.1), (clean_Ok_without 44 (uni_upper col.2))
    by (assumption || reflexivity || discriminate).
  reflexivity.
Qed.

(** The statement built from a valid name and declaration is read by the
    engine as the creation of that table with these columns. *)
Lemma parse_create_valid t columns :
  valid_table_name t → valid_declaration columns →
  let col_query := str_join (py ", ") (column_fragment <$> columns) in
  _format_column_declaration columns = Ok col_query ∧
  parse_stmt (py "CREATE TABLE IF NOT EXISTS " ++ t ++ py " (" ++ col_query ++ py ")") =
  Some (SCreate t (lstrip <$> (column_fragment <$> columns))).
Proof.
  intros [Ht Hname] [Hne Hcols] col_query. subst col_query.
  unfold _format_column_declaration. rewrite format_columns_valid by exact Hcols.
  rewrite app_nil_l. split; [reflexivity|].
  rewrite parse_stmt_create. unfold parse_create.
  change (t ++ py " (" ++ ?x) with (t ++ [32%N] ++ 40%N :: x).
  rewrite app_assoc, split_first_app.
  2:{ rewrite forallb_app, (clean_Ok_without 40)
        by (assumption || reflexivity || discriminate). reflexivity. }
  rewrite !strip_suffix_app, Hname.
  destruct columns as [|col columns]; [congruence|].
  change (column_fragment <$> col :: columns) with
    (column_fragment col :: (column_fragment <$> columns)).
  rewrite split_on_join.
  2:{ change (column_fragment col :: (column_fragment <$> columns)) with
        (column_fragment <$> col :: columns).
      apply Forall_fmap. eapply Forall_impl; [exact Hcols|].
      intros x Hx. apply column_fragment_nocomma, Hx. }
  assert (Hpieces :
    lstrip <$> column_fragment col :: ((λ x, 32%N :: x) <$> (column_fragment <$> columns)) =
    lstrip <$> (column_fragment col :: (column_fragment <$> columns))).
  { simpl. f_equal. rewrite <- list_fmap_compose. reflexivity. }
  rewrite Hpieces.
  replace (forallb nonempty (lstrip <$> column_fragment col :: (column_fragment <$> columns)))
    with true; [reflexivity|].
  symmetry. apply forallb_forall. intros x Hx%list_elem_of_In.
  change (column_fragment col :: (column_fragment <$> columns)) with
    (column_fragment <$> col :: columns) in Hx.
  rewrite <- list_fmap_compose in Hx.
  apply list_elem_of_fmap in Hx as (c & -> & Hc).
  apply (proj1 (Forall_forall _ _) Hcols c Hc).
Qed.


Lemma parse_stmt_table_info t :
  parse_stmt (table_info_query t) =
  if sql_name t then Some (STableInfo t) else None.
Proof.
  change (parse_stmt (table_info_query t)) with (parse_table_info (t ++ py ")")).
  unfold parse_table_info. rewrite strip_suffix_app. reflexivity.
Qed.

(** Reflection reads: whatever it returns, the committed tables are the
    ones from before. *)
Lemma get_columns_reads t (w : @World MiniSqlite) :
  _con (w_db w) = None →
  file (w_engine (get_columns t w).1.2) = file (w_engine w).
Proof.
  intros Hw. unfold get_columns.
  destruct (_clean_query_injection t) as [t'|] eqn:Ht; [|reflexivity].
  destruct w as [[name path con] [f tx]]. simpl in Hw. subst con.
  cbv beta iota delta [bind lift logger ret].
  pose proof (parse_stmt_table_info t') as Hp.
  remember (table_info_query t') as q eqn:Hq. clear Hq.
  unfold get_connection, close_connection, try_, with_, call, connect, raise,
    set_con, set_engine.
  simpl. unfold mini_execute. simpl. rewrite Hp.
  destruct (sql_name t'); simpl; [|reflexivity].
  destruct (bool_decide _); reflexivity.
Qed.

(** A name of one token that is not among the tables has an empty
    introspection. *)
Lemma introspection_of_missing_table t (w : @World MiniSqlite) :
  _con (w_db w) = None → sql_name t = true → file (w_engine w) !! t = None →
  execute_query (table_info_query t) w =
  (Ok None, mk_world (w_db w) (mk_mini (file (w_engine w)) None), reflection_events t).
Proof.
  intros Hw Hn Hf. unfold execute_query.
  destruct w as [[name path con] [f tx]]. simpl in *. subst con.
  cbv beta iota delta [bind lift logger ret].
  pose proof (parse_stmt_table_info t) as Hp. rewrite Hn in Hp.
  unfold reflection_events. change (py "PRAGMA table_info(" ++ t ++ py ")") with
    (table_info_query t).
  remember (table_info_query t) as q eqn:Hq. clear Hq.
  unfold get_connection, close_connection, try_, with_, call, connect, raise,
    set_con, set_engine.
  simpl. unfold mini_execute. simpl. rewrite Hp. simpl.
  unfold table_info. rewrite Hf. reflexivity.
Qed.

End Mini.

(** ** The methods at work on the small engine *)

Example create_events_table :
  create_table (py "events") events_columns example_world =
  (Ok tt, events_world,
   [EvConnect true;
    EvExecute (py "CREATE TABLE IF NOT EXISTS events (id INTEGER PRIMARY KEY, occurred_at DATETIME)") [];
    EvCommit; EvClose]).
Proof. vm_compute. reflexivity. Qed.

Example reflect_events_table :
  get_columns (py "events") events_world =
  (Ok events_reflected, events_world, reflection_events (py "events")).
Proof. vm_compute. reflexivity. Qed.


(** ** Instances of the theorems *)

Lemma not_elem_of_gset (x : pystr) (X : gset pystr) :
  bool_decide (x ∈ X) = false → x ∉ X.
Proof. apply bool_decide_eq_false_1. Qed.

Lemma elem_of_gset (x : pystr) (X : gset pystr) :
  bool_decide (x ∈ X) = true → x ∈ X.
Proof. apply bool_decide_eq_true_1. Qed.

Lemma clean_query_injection_spec_witness :
  _clean_query_injection (py "Drop_it") = Raise (injection_error (py "Drop_it")) ∧
  _clean_query_injection (py "2024_01") = Raise (injection_error (py "2024_01")) ∧
  _clean_query_injection (py "a-b") = Raise (injection_error (py "a-b")) ∧
  _clean_query_injection (py "events") = Ok (py "events").
Proof.
  pose proof (@clean_query_injection_spec ascii_runtime) as [Hrej Hacc].
  split; [|split; [|split]].
  - apply Hrej. left. apply contains_banned_spec. vm_compute. reflexivity.
  - apply Hrej. right. left. split; [discriminate|].
    repeat (apply Forall_cons; split; [vm_compute; auto|]). apply Forall_nil. exact I.
  - apply Hrej. right. right. apply Exists_cons. right. apply Exists_cons. left.
    split; [reflexivity|discriminate].
  - apply Hacc.
    + exists 101%N, (py "vents"). split; [reflexivity|]. split; [reflexivity|].
      repeat (apply Forall_cons; split; [reflexivity|]). apply Forall_nil. exact I.
    + intros Hb. apply contains_banned_spec in Hb. vm_compute in Hb. discriminate.
Defined.

Lemma temporal_codecs_roundtrip_witness :
  convert_date (stored_bytes (adapt_date_iso (mk_date 2024 2 29))) =
    Ok (mk_date 2024 2 29) ∧
  convert_datetime
    (stored_bytes (adapt_datetime_iso (mk_datetime (mk_date 1 1 1) 23 59 59 999999))) =
    Ok (mk_datetime (mk_date 1 1 1) 23 59 59 999999) ∧
  convert_timedelta (stored_bytes (adapt_timedelta (mk_timedelta (-1) 0 5))) =
    Ok (mk_timedelta (-1) 0 5) ∧
  adapt_timedelta (mk_timedelta (-1) 0 5) = py "-1,0,5".
Proof.
  pose proof (@temporal_codecs_roundtrip ascii_runtime) as (Hd & Ht & Htd).
  split; [|split; [|split]].
  - apply Hd. reflexivity.
  - apply Ht. reflexivity.
  - apply Htd. reflexivity.
  - reflexivity.
Defined.

Lemma create_table_rejects_type_witness :
  create_table (py "events") [(py "c", py "FOOBAR")] example_world =
    (Raise (vocabulary_error (py "FOOBAR")), example_world, []) ∧
  create_table (py "events") (events_columns ++ [(py "c", py "blob")]) example_world =
    (Raise (vocabulary_error (py "BLOB")), example_world, []) ∧
  create_table (py "drop") [(py "c", py "FOOBAR")] example_world =
    (Raise (injection_error (py "drop")), example_world, []).
Proof.
  pose proof (create_table_rejects_type example_world) as (Hfoo & Hfirst & Hname).
  split; [|split].
  - apply Hfoo; [reflexivity|]. apply not_elem_of_gset. vm_compute. reflexivity.
  - apply (Hfirst (py "events") events_columns (py "c") (py "blob") []
             [py "id INTEGER PRIMARY KEY"; py "occurred_at DATETIME"]).
    + reflexivity.
    + vm_compute. reflexivity.
    + apply not_elem_of_gset. vm_compute. reflexivity.
  - apply (Hname (py "drop") _ (injection_error (py "drop"))). reflexivity.
Defined.

(** The claim C3 as it stands: [create_table(t, {"c": "FOOBAR"})] raises the
    exception that lists the allowed types for every table name.  For the
    name [drop] the exception is the sanitizer's. *)
Lemma create_table_rejects_type_counterexample :
  create_table (py "drop") [(py "c", py "FOOBAR")] example_world =
    (Raise (ValueError (py "Unallowed characters in value drop.")), example_world, []) ∧
  ¬ (∀ t, create_table t [(py "c", py "FOOBAR")] example_world =
          (Raise (vocabulary_error (py "FOOBAR")), example_world, [])).
Proof.
  split; [vm_compute; reflexivity|].
  intros Hall. specialize (Hall (py "drop")). vm_compute in Hall. discriminate.
Qed.


Lemma insert_arity_mismatch_witness :
  insert (py "events") [PInt 1] events_world =
    (Raise (ValueError (arity_message 1 2)), events_world,
     reflection_events (py "events")) ∧
  reflection_events (py "events") =
    [EvConnect true; EvExecute (table_info_query (py "events")) []; EvFetchall;
     EvCommit; EvClose] ∧
  _con (w_db events_world) = None.
Proof.
  apply (insert_arity_mismatch (H:=ascii_runtime) (py "events") [PInt 1]
           events_world events_world events_reflected (reflection_events (py "events"))).
  - reflexivity.
  - exact reflect_events_table.
  - simpl. lia.
Defined.

Lemma insert_many_checks_first_row_witness :
  insert_many (py "events") [[PInt 1]; [PInt 2; PNone]] events_world =
    (Raise (ValueError (arity_message 1 2)), events_world,
     reflection_events (py "events")) ∧
  (insert_many (py "events") [[PInt 1; PNone]; [PInt 2]] events_world).1.1 =
    Raise (Sqlite3Error ProgrammingError (py "Incorrect number of bindings supplied.")).
Proof.
  pose proof (insert_many_checks_first_row (H:=ascii_runtime) (py "events")
                [PInt 1] [[PInt 2; PNone]] events_world events_world events_reflected
                (reflection_events (py "events")) reflect_events_table)
    as (Hne & _ & _).
  pose proof (insert_many_checks_first_row (H:=ascii_runtime) (py "events")
                [PInt 1; PNone] [[PInt 2]] events_world events_world events_reflected
                (reflection_events (py "events")) reflect_events_table)
    as (_ & Heq & _).
  split.
  - apply Hne. simpl. lia.
  - rewrite Heq by reflexivity. vm_compute. reflexivity.
Defined.


Lemma connection_released_witness :
  _con (w_db (insert (py "events") [PInt 1; PNone] events_world).1.2) = None ∧
  one_at_a_time false (insert (py "events") [PInt 1; PNone] events_world).2 = true.
Proof.
  pose proof (connection_released_after_every_operation (H:=ascii_runtime)
                (H0:=example_types) events_world eq_refl) as (_ & _ & Hins & _).
  apply Hins.
Defined.

Lemma acquisitions_per_operation_witness :
  acquisitions (get_columns (py "events") events_world).2 ≤ 1 ∧
  acquisitions (insert (py "events") [PInt 1; PNone] events_world).2 ≤ 2.
Proof.
  pose proof (acquisitions_per_operation (H:=ascii_runtime) (H0:=example_types)
                events_world eq_refl) as (_ & Hget & _ & Hins & _).
  split; [apply Hget|apply Hins].
Defined.

(** The claim C9 as it stands: no public method opens more than one
    connection during a call.  [insert] opens two: one in [get_columns],
    for the reflection, and one for the write. *)
Lemma insert_acquires_twice_counterexample :
  (insert (py "events") [PInt 1; PNone] events_world).2 =
    reflection_events (py "events") ++
    [EvConnect true;
     EvExecute (py "INSERT INTO events VALUES (?, ?)") [PInt 1; PNone];
     EvCommit; EvClose] ∧
  acquisitions (insert (py "events") [PInt 1; PNone] events_world).2 = 2 ∧
  ¬ (∀ (w : @World MiniSqlite) t data,
       _con (w_db w) = None → acquisitions (insert t data w).2 ≤ 1).
Proof.
  split; [vm_compute; reflexivity|]. split; [vm_compute; reflexivity|].
  intros Hall. specialize (Hall events_world (py "events") [PInt 1; PNone] eq_refl).
  vm_compute in Hall. lia.
Qed.

(** * Further properties *)

(** ** The sanitizer *)

Section SanitizerMore.
Context `{PyRuntime}.

Lemma reject_leading s :
  leading_digit_underscore s →
  _clean_query_injection s = Raise (injection_error s).
Proof.
  intros (c & r & -> & Hc). unfold _clean_query_injection.
  destruct (re_search _ (c :: r)) eqn:E; [reflexivity|]. exfalso.
  revert E. apply (re_search_Some _ _ 0); [simpl; lia|].
  rewrite injection_pattern_at. apply orb_true_iff. left.
  apply orb_true_iff. left. unfold head_digit_us.
  change ((c :: r) !! 0) with (Some c). cbn [Nat.eqb andb existsb cls_match].
  unfold chr_match. destruct Hc as [Hd| ->].
  - apply orb_true_iff. right. apply orb_true_iff. left.
    apply existsb_exists. exists c. split.
    + apply N_range_In. ascii_cases.
    + rewrite uni_ieq_ascii by ascii_cases. apply N.eqb_refl.
  - rewrite uni_ieq_ascii by reflexivity. reflexivity.
Qed.

Lemma head_digit_us_false s i :
  forallb is_ascii s = true → ¬ leading_digit_underscore s →
  head_digit_us s i = false.
Proof.
  intros Ha Hl. unfold head_digit_us. apply andb_false_iff.
  destruct s as [|c r]; [right; reflexivity|]. right.
  change ((c :: r) !! 0) with (Some c). cbn [existsb cls_match]. unfold chr_match.
  simpl in Ha. apply andb_true_iff in Ha as [Hc _].
  assert (Hd : ascii_isdigit c = false).
  { destruct (ascii_isdigit c) eqn:E; [|reflexivity]. exfalso. apply Hl.
    exists c, r. auto. }
  assert (Hu : c ≠ 95%N) by (intros ->; apply Hl; exists 95%N, r; auto).
  replace (N_range 48 57) with [48;49;50;51;52;53;54;55;56;57]%N by reflexivity.
  cbn [existsb]. rewrite !uni_ieq_uncased by reflexivity.
  clear -Hd Hu. ascii_cases.
Qed.

Lemma odd_char_false s i : word_or_space s → odd_char s i = false.
Proof.
  intros Hw. unfold odd_char. destruct (s !! i) as [c|] eqn:Hc; [|reflexivity].
  cbn [existsb cls_match]. unfold chr_match.
  destruct (proj1 (Forall_lookup _ _) Hw _ _ Hc) as [Hc'| ->].
  - rewrite uni_isword_ascii, Hc' by auto using ascii_isword_is_ascii. reflexivity.
  - rewrite (uni_ieq_ascii 32 32) by reflexivity. simpl. apply negb_false_iff, orb_true_r.
Qed.

Lemma word_or_space_ascii s : word_or_space s → forallb is_ascii s = true.
Proof.
  intros Hw. apply forallb_forall. intros c Hc%list_elem_of_In.
  destruct (proj1 (Forall_forall _ _) Hw c Hc) as [Hc'| ->];
    [apply ascii_isword_is_ascii, Hc'|reflexivity].
Qed.

Lemma clean_accepts_ascii s :
  forallb is_ascii s = true →
  (_clean_query_injection s = Ok s ↔
   ¬ leading_digit_underscore s ∧ word_or_space s ∧ ¬ contains_banned s).
Proof.
  intros Ha. split.
  - intros Hs. split; [|split].
    + intros Hl. rewrite (reject_leading s Hl) in Hs.
      discriminate.
    + apply Forall_forall. intros c Hc.
      pose proof (proj1 (Forall_forall _ _) (clean_Ok_chars s Hs) c Hc) as Hw.
      rewrite forallb_forall in Ha. simpl in Hw.
      rewrite uni_isword_ascii in Hw by (apply Ha, list_elem_of_In, Hc). exact Hw.
    + intros Hb. apply reject_banned in Hb. unfold _clean_query_injection in Hs.
      destruct (re_search _ s); congruence.
  - intros (Hl & Hw & Hb). unfold _clean_query_injection.
    replace (re_search _check_query_pattern s) with (@None nat); [reflexivity|].
    symmetry. apply re_search_None. intros i Hi. rewrite injection_pattern_at.
    apply orb_false_iff. split; [apply orb_false_iff; split|].
    + apply head_digit_us_false; assumption.
    + apply odd_char_false, Hw.
    + destruct (existsb _ _) eqn:E; [|reflexivity]. exfalso. apply Hb.
      apply existsb_exists in E as (kw & Hin & Hp).
      apply ci_prefix_inv in Hp as (mid & post & Hd & Hmid);
        [|apply banned_keywords_lower, Hin|].
      * exists kw. split; [exact Hin|].
        exists (take i s), mid, post. split; [|exact Hmid].
        rewrite <- Hd, take_drop. reflexivity.
      * apply Forall_drop. apply Forall_forall. intros c Hc%list_elem_of_In.
        rewrite forallb_forall in Ha. auto.
Qed.

(** X1.  A string whose first character is a digit or an underscore is
    rejected, whatever follows: [(^[_0-9]+)] needs one such character
    only. *)
Theorem clean_rejects_leading_digit_underscore s :
  leading_digit_underscore s →
  _clean_query_injection s = Raise (injection_error s).
Proof. apply reject_leading. Qed.

(** X2.  On ASCII text the sanitizer accepts exactly the strings of
    letters, digits, underscores and spaces that do not begin with a digit
    or an underscore and contain none of the seven keywords in any letter
    case. *)
Theorem clean_accepts_iff s :
  forallb is_ascii s = true →
  (_clean_query_injection s = Ok s ↔
   ¬ leading_digit_underscore s ∧ word_or_space s ∧ ¬ contains_banned s).
Proof. apply clean_accepts_ascii. Qed.

Lemma blank_not_banned n : ¬ contains_banned (replicate n 32%N).
Proof.
  intros (kw & Hin & pre & mid & post & Hs & Hmid).
  assert (Hall : Forall (λ c, c = 32%N) mid).
  { assert (Hr : Forall (λ c, c = 32%N) (replicate n 32%N))
      by (apply Forall_forall; intros c [-> _]%elem_of_replicate; reflexivity).
    rewrite Hs in Hr. apply Forall_app in Hr as [_ Hr].
    apply Forall_app in Hr as [Hr _]. exact Hr. }
  destruct mid as [|c mid].
  - simpl in Hmid. unfold banned_keywords in Hin. simpl in Hin.
    repeat (destruct Hin as [<-|Hin]; [discriminate|]). destruct Hin.
  - inversion Hall as [|? ? -> _]; subst. unfold banned_keywords in Hin. simpl in Hin.
    repeat (destruct Hin as [<-|Hin]; [discriminate|]). destruct Hin.
Qed.

(** X3.  The empty string and every string of spaces pass the sanitizer:
    a blank table or column name is not stopped by it. *)
Theorem clean_accepts_blank n :
  _clean_query_injection (replicate n 32%N) = Ok (replicate n 32%N).
Proof.
  assert (Hw : word_or_space (replicate n 32%N))
    by (apply Forall_forall; intros c [-> _]%elem_of_replicate; right; reflexivity).
  apply clean_accepts_ascii; [apply word_or_space_ascii, Hw|].
  split; [|split; [exact Hw|apply blank_not_banned]].
  intros (c & r & Hs & Hc).
  assert (Hin : c ∈ replicate n 32%N) by (rewrite Hs; left).
  apply elem_of_replicate in Hin as [-> _]. destruct Hc; discriminate.
Qed.

End SanitizerMore.

(** ** Column declarations *)

Section Declarations.
Context `{PyRuntime} `{Types}.

Lemma format_columns_Ok columns acc col_def :
  format_columns columns acc = Ok col_def →
  Forall checked_column columns ∧ col_def = acc ++ (column_fragment <$> columns).
Proof.
  revert acc. induction columns as [|[c ty] columns IH]; intros acc; simpl.
  - intros [= <-]. rewrite app_nil_r. auto.
  - case_bool_decide as Hin; [discriminate|].
    destruct (_clean_query_injection c) as [c'|] eqn:Hc; [|discriminate].
    destruct (_clean_query_injection (uni_upper ty)) as [ty'|] eqn:Hty; [|discriminate].
    pose proof (clean_Ok _ _ Hc). pose proof (clean_Ok _ _ Hty). subst c' ty'.
    intros [Hall ->]%IH. split.
    + constructor; [|exact Hall]. repeat split; simpl; try assumption.
      all: try (destruct (decide (uni_upper ty ∈ DB_DATA_TYPES_ALLOWED));
                  [assumption|contradiction]).
    + rewrite <- app_assoc. reflexivity.
Qed.

Lemma format_columns_checked columns acc :
  Forall checked_column columns →
  format_columns columns acc = Ok (acc ++ (column_fragment <$> columns)).
Proof.
  intros Hv. revert acc. induction Hv as [|[c ty] columns (Hin & Hc & Hty) _ IH];
    intros acc; simpl.
  - rewrite app_nil_r. reflexivity.
  - simpl in *. rewrite bool_decide_eq_false_2 by (intros Hn; exact (Hn Hin)).
    rewrite Hc, Hty, IH, <- app_assoc. reflexivity.
Qed.

Lemma format_columns_Raise columns acc e :
  format_columns columns acc = Raise e →
  ∃ good col rest,
    columns = good ++ col :: rest ∧ Forall checked_column good ∧
    ¬ checked_column col ∧ column_error col e.
Proof.
  revert acc. induction columns as [|[c ty] columns IH]; intros acc; simpl;
    [discriminate|].
  assert (Hhere : ∀ e', column_error (c, ty) e' → ¬ checked_column (c, ty) →
            ∃ good col rest,
              (c, ty) :: columns = good ++ col :: rest ∧ Forall checked_column good ∧
              ¬ checked_column col ∧ column_error col e').
  { intros e' He Hn. exists [], (c, ty), columns. auto. }
  case_bool_decide as Hin.
  { intros [= <-]. apply Hhere; [left; reflexivity|]. intros (Hin' & _). auto. }
  destruct (_clean_query_injection c) as [c'|e1] eqn:Hc.
  2:{ intros [= <-]. apply Hhere.
      - right. left. apply (clean_Raise _ _ Hc).
      - intros (_ & Hc' & _). simpl in Hc'. congruence. }
  destruct (_clean_query_injection (uni_upper ty)) as [ty'|e2] eqn:Hty.
  2:{ intros [= <-]. apply Hhere.
      - right. right. apply (clean_Raise _ _ Hty).
      - intros (_ & _ & Hty'). simpl in Hty'. congruence. }
  pose proof (clean_Ok _ _ Hc). pose proof (clean_Ok _ _ Hty). subst c' ty'.
  intros (good & col & rest & -> & Hgood & Hbad & He)%IH.
  exists ((c, ty) :: good), col, rest. split; [reflexivity|]. split; [|auto].
  constructor; [|exact Hgood]. repeat split; simpl; try assumption.
  all: try (destruct (decide (uni_upper ty ∈ DB_DATA_TYPES_ALLOWED));
              [assumption|contradiction]).
Qed.

(** X4.  [_format_column_declaration] returns text exactly when every
    column passes its three checks (the type in capitals is allowed, the
    name and the type pass the sanitizer), and the text is then the
    fragments [name TYPE], types in capitals, joined by [", "].  Otherwise
    it raises at the first column that fails a check, with the exception of
    that check. *)
Theorem format_column_declaration_spec columns :
  (∀ col_query,
     _format_column_declaration columns = Ok col_query ↔
     Forall checked_column columns ∧
     col_query = str_join (py ", ") (column_fragment <$> columns)) ∧
  (∀ e,
     _format_column_declaration columns = Raise e →
     ∃ good col rest,
       columns = good ++ col :: rest ∧ Forall checked_column good ∧
       ¬ checked_column col ∧ column_error col e).
Proof.
  unfold _format_column_declaration. split.
  - intros q. split.
    + destruct (format_columns columns []) as [defs|] eqn:E; [|discriminate].
      intros [= <-]. apply format_columns_Ok in E as [Hall ->]. auto.
    + intros [Hall ->]. rewrite format_columns_checked by exact Hall. reflexivity.
  - intros e. destruct (format_columns columns []) as [defs|e'] eqn:E; [discriminate|].
    intros [= <-]. eapply format_columns_Raise, E.
Qed.

(** X5.  The allowed type tokens are the base types and the texts
    [base constraint] of one base type, one space and one supported
    constraint; nothing else. *)
Theorem allowed_types_spec (x : pystr) :
  x ∈ DB_DATA_TYPES_ALLOWED ↔
  x ∈ DB_DATA_TYPES ∨
  ∃ a b, a ∈ DB_DATA_TYPES ∧ b ∈ DB_SUPPORTED_COL_CONSTRAINTS ∧ x = a ++ py " " ++ b.
Proof.
  unfold DB_DATA_TYPES_ALLOWED, db_data_types_additional, db_col_combinations.
  rewrite elem_of_union, elem_of_list_to_set, list_elem_of_fmap.
  split; (intros [Hx|Hx]; [left; exact Hx|right]).
  - destruct Hx as ([a b] & -> & Hab).
    apply list_elem_of_bind in Hab as (a' & Hab & Ha).
    apply list_elem_of_bind in Hab as (b' & Hab & Hb).
    apply list_elem_of_singleton in Hab. injection Hab as -> ->.
    exists a', b'. rewrite !elem_of_elements in *. auto.
  - destruct Hx as (a & b & Ha & Hb & ->). exists (a, b). split; [reflexivity|].
    apply list_elem_of_bind. exists a. rewrite elem_of_elements. split; [|exact Ha].
    apply list_elem_of_bind. exists b. rewrite elem_of_elements. split; [|exact Hb].
    apply list_elem_of_singleton. reflexivity.
Qed.

End Declarations.

(** ** Opening and closing the connection *)

Section ConnectionMore.
Context `{PyRuntime} `{Types} `{Engine}.

(** X6.  [get_connection] hands out the connection the instance already
    holds, without calling [sql.connect] and without changing the state; a
    connection it opens is stored in the instance, so that the next call
    returns the same one; and when [sql.connect] raises, the instance stays
    without a connection. *)
Theorem get_connection_reuses (w : World) :
  (∀ c, _con (w_db w) = Some c → get_connection w = (Ok c, w, [])) ∧
  (∀ c w1 tr, get_connection w = (Ok c, w1, tr) →
     _con (w_db w1) = Some c ∧ get_connection w1 = (Ok c, w1, [])) ∧
  (∀ e w1 tr, _con (w_db w) = None → get_connection w = (Raise e, w1, tr) →
     _con (w_db w1) = None ∧ tr = [EvConnect false] ∧
     ∃ cls msg, e = Sqlite3Error cls msg).
Proof.
  split; [|split].
  - intros c Hc. unfold get_connection. rewrite Hc. reflexivity.
  - intros c w1 tr Hg.
    assert (Hc : _con (w_db w1) = Some c).
    { unfold get_connection in Hg. destruct (_con (w_db w)) eqn:Hw; crunch; auto. }
    split; [exact Hc|]. unfold get_connection. rewrite Hc. reflexivity.
  - intros e w1 tr Hw Hg. unfold get_connection in Hg. rewrite Hw in Hg.
    crunch; eauto.
Qed.

(** X7.  [close_connection] never raises and always leaves the instance
    without a connection; without a connection it does nothing, so closing
    twice is closing once. *)
Theorem close_connection_spec (w : World) :
  (close_connection w).1.1 = Ok tt ∧
  _con (w_db (close_connection w).1.2) = None ∧
  (_con (w_db w) = None → close_connection w = (Ok tt, w, [])) ∧
  close_connection (close_connection w).1.2 = (Ok tt, (close_connection w).1.2, []).
Proof.
  assert (Hnone : ∀ w' : World, _con (w_db w') = None →
            close_connection w' = (Ok tt, w', [])).
  { intros w' Hw'. unfold close_connection. rewrite Hw'. reflexivity. }
  assert (Hafter : _con (w_db (close_connection w).1.2) = None).
  { unfold close_connection. destruct (_con (w_db w)) eqn:Hw; simpl; auto. }
  split; [|split; [exact Hafter|split; [apply Hnone|apply Hnone, Hafter]]].
  unfold close_connection. destruct (_con (w_db w)); reflexivity.
Qed.

(** X8.  A table name that the sanitizer rejects stops [get_columns],
    [prepare_insertion], [insert] and [insert_many] (with a first row) at
    once: the sanitizer's exception is raised, nothing is asked of the
    engine and the state is as before. *)
Theorem rejected_table_name t e (w : World) :
  _clean_query_injection t = Raise e →
  get_columns t w = (Raise (injection_error t), w, []) ∧
  (∀ data, prepare_insertion t data w = (Raise (injection_error t), w, [])) ∧
  (∀ data, insert t data w = (Raise (injection_error t), w, [])) ∧
  (∀ r rest, insert_many t (r :: rest) w = (Raise (injection_error t), w, [])).
Proof.
  intros He. pose proof (clean_Raise _ _ He) as ->.
  assert (Hp : ∀ data, prepare_insertion t data w = (Raise (injection_error t), w, []))
    by (intros data; unfold prepare_insertion, bind, lift; rewrite He; reflexivity).
  split; [|split; [exact Hp|split]].
  - unfold get_columns, bind, lift. rewrite He. reflexivity.
  - intros data. unfold insert, bind at 1. rewrite Hp. reflexivity.
  - intros r rest. rewrite insert_many_cons. unfold bind at 1. rewrite Hp. reflexivity.
Qed.

End ConnectionMore.

(** ** What a call does to the engine *)

Section Outcomes.
Context `{PyRuntime} `{Types} `{Engine}.

Lemma create_table_start t columns col_query (w : World) :
  _clean_query_injection t = Ok t →
  _format_column_declaration columns = Ok col_query →
  create_table t columns w =
  bind get_connection (λ con,
    try_ (with_ con
            (bind (call (con_execute con (creation_query t col_query) [])
                        (EvExecute (creation_query t col_query) []))
                  (λ _, ret tt)))
         (λ error, raise error)
         (logger "info" (py "Table " ++ t ++ py " created successfully."))
         close_connection) w.
Proof.
  intros Ht Hfmt. unfold create_table. unfold bind at 1. unfold lift at 1. rewrite Ht.
  unfold bind at 1. unfold lift at 1. rewrite Hfmt.
  unfold bind at 1. unfold logger at 1, ret at 1.
  fold (creation_query t col_query).
  destruct (bind get_connection _ w) as [[r w2] t2]. reflexivity.
Qed.

Lemma create_table_success t columns col_query (w : World) c s1 cur s2 u s3 :
  _con (w_db w) = None →
  _clean_query_injection t = Ok t →
  _format_column_declaration columns = Ok col_query →
  sql_connect (_path (w_db w)) PARSE_DECLTYPES (w_engine w) = (EOk c, s1) →
  con_execute c (creation_query t col_query) [] s1 = (EOk cur, s2) →
  con_commit c s2 = (EOk u, s3) →
  create_table t columns w =
  (Ok tt, set_con None (set_engine (con_close c s3) w),
   session_events (EvExecute (creation_query t col_query) []) EvCommit).
Proof.
  intros Hw Ht Hfmt Hc He Hm. rewrite (create_table_start _ _ _ _ Ht Hfmt).
  remember (creation_query t col_query) as q eqn:Hq. clear Hq.
  run_monad. rewrite Hw. simpl. rewrite Hc. simpl. rewrite He. simpl. rewrite Hm.
  reflexivity.
Qed.

(** X9.  With a name and a declaration that pass the checks, [create_table]
    opens one connection, executes the one statement
    [CREATE TABLE IF NOT EXISTS name (columns)] without parameters, commits
    and closes.  It returns normally exactly on this path. *)
Theorem create_table_runs_one_statement t columns col_query (w : World) :
  _con (w_db w) = None →
  _clean_query_injection t = Ok t →
  _format_column_declaration columns = Ok col_query →
  let q := creation_query t col_query in
  (∀ c s1 cur s2 u s3,
     sql_connect (_path (w_db w)) PARSE_DECLTYPES (w_engine w) = (EOk c, s1) →
     con_execute c q [] s1 = (EOk cur, s2) →
     con_commit c s2 = (EOk u, s3) →
     create_table t columns w =
     (Ok tt, set_con None (set_engine (con_close c s3) w),
      session_events (EvExecute q []) EvCommit)) ∧
  (∀ w1 tr, create_table t columns w = (Ok tt, w1, tr) →
     tr = session_events (EvExecute q []) EvCommit).
Proof.
  intros Hw Ht Hfmt q. split.
  - intros. eapply create_table_success; eassumption.
  - rewrite (create_table_start _ _ _ _ Ht Hfmt). fold q. clearbody q.
    intros w1 tr Hr. crunch; reflexivity.
Qed.

(** X10.  What the engine raises reaches the caller as it is.  When
    [sql.connect] raises, [create_table] raises that exception and nothing
    else was asked of the engine; when the statement raises, the
    transaction is rolled back, the connection is closed and the
    statement's exception is raised. *)
Theorem create_table_propagates_engine_error t columns col_query (w : World) :
  _con (w_db w) = None →
  _clean_query_injection t = Ok t →
  _format_column_declaration columns = Ok col_query →
  let q := creation_query t col_query in
  (∀ cls msg s1,
     sql_connect (_path (w_db w)) PARSE_DECLTYPES (w_engine w) = (EErr cls msg, s1) →
     create_table t columns w =
     (Raise (Sqlite3Error cls msg), set_engine s1 w, [EvConnect false])) ∧
  (∀ c s1 cls msg s2 u s3,
     sql_connect (_path (w_db w)) PARSE_DECLTYPES (w_engine w) = (EOk c, s1) →
     con_execute c q [] s1 = (EErr cls msg, s2) →
     con_rollback c s2 = (EOk u, s3) →
     create_table t columns w =
     (Raise (Sqlite3Error cls msg), set_con None (set_engine (con_close c s3) w),
      session_events (EvExecute q []) EvRollback)).
Proof.
  intros Hw Ht Hfmt q. rewrite (create_table_start _ _ _ _ Ht Hfmt). fold q.
  clearbody q. split.
  - intros cls msg s1 Hc. run_monad. rewrite Hw. simpl. rewrite Hc. reflexivity.
  - intros c s1 cls msg s2 u s3 Hc He Hr. run_monad. rewrite Hw. simpl.
    rewrite Hc. simpl. rewrite He. simpl. rewrite Hr. reflexivity.
Qed.

(** X11.  [execute_query] hands its text to the engine as it is, whether or
    not the sanitizer would accept it, without parameters; when the
    statement and the commit succeed it returns the rows that were fetched,
    and [None] in place of an empty list. *)
Theorem execute_query_runs_text_verbatim q (w : World) c s1 cur s2 rows s3 u s4 :
  _con (w_db w) = None →
  sql_connect (_path (w_db w)) PARSE_DECLTYPES (w_engine w) = (EOk c, s1) →
  con_execute c q [] s1 = (EOk cur, s2) →
  cur_fetchall cur s2 = (EOk rows, s3) →
  con_commit c s3 = (EOk u, s4) →
  execute_query q w =
  (Ok (match rows with [] => None | _ :: _ => Some rows end),
   set_con None (set_engine (con_close c s4) w),
   [EvConnect true; EvExecute q []; EvFetchall; EvCommit; EvClose]).
Proof.
  intros Hw Hc He Hf Hm. unfold execute_query. run_monad. rewrite Hw. simpl.
  rewrite Hc. simpl. rewrite He. simpl. rewrite Hf. simpl. rewrite Hm. simpl.
  destruct rows; reflexivity.
Qed.

Lemma insertion_query_placeholders t (columns : list row) :
  insertion_query t columns =
  py "INSERT INTO " ++ t ++ py " VALUES (" ++
  str_join (py ", ") (replicate (length columns) (py "?")) ++ py ")".
Proof.
  unfold insertion_query.
  replace ((λ _ : row, py "?") <$> columns) with (replicate (length columns) (py "?"));
    [reflexivity|].
  induction columns as [|r columns IH]; [reflexivity|].
  change (replicate (length (r :: columns)) (py "?")) with
    (py "?" :: replicate (length columns) (py "?")).
  rewrite IH. reflexivity.
Qed.

Lemma insert_after_reflection t data (w w1 : World) columns tr c s1 cur s2 u s3 :
  get_columns t w = (Ok columns, w1, tr) →
  length data = length columns →
  let q := py "INSERT INTO " ++ t ++ py " VALUES (" ++
           str_join (py ", ") (replicate (length data) (py "?")) ++ py ")" in
  sql_connect (_path (w_db w1)) PARSE_DECLTYPES (w_engine w1) = (EOk c, s1) →
  con_execute c q data s1 = (EOk cur, s2) →
  con_commit c s2 = (EOk u, s3) →
  insert t data w =
  (Ok tt, set_con None (set_engine (con_close c s3) w1),
   tr ++ session_events (EvExecute q data) EvCommit).
Proof.
  intros Hg Hlen q Hc He Hm.
  pose proof (get_columns_Ok _ _ _ _ _ Hg) as (_ & _ & Hw1).
  assert (Hq : insertion_query t columns = q)
    by (rewrite insertion_query_placeholders, <- Hlen; reflexivity).
  clearbody q. unfold insert. unfold bind at 1.
  rewrite (prepare_insertion_after_reflection _ _ _ _ _ _ Hg), Hlen, Nat.eqb_refl, Hq.
  cbn [negb]. cbv iota beta. run_monad. rewrite Hw1. simpl. rewrite Hc. simpl. rewrite He. simpl.
  rewrite Hm. reflexivity.
Qed.

(** X12.  A row of the right length is written by one statement,
    [INSERT INTO name VALUES (?, ..., ?)] with one question mark per
    reflected column; the values of the row are the parameters of the
    statement and no part of its text.  The statement runs in a second
    connection, after the one of the reflection, and is committed. *)
Theorem insert_binds_values t data (w w1 : World) columns tr c s1 cur s2 u s3 :
  get_columns t w = (Ok columns, w1, tr) →
  length data = length columns →
  let q := py "INSERT INTO " ++ t ++ py " VALUES (" ++
           str_join (py ", ") (replicate (length data) (py "?")) ++ py ")" in
  sql_connect (_path (w_db w1)) PARSE_DECLTYPES (w_engine w1) = (EOk c, s1) →
  con_execute c q data s1 = (EOk cur, s2) →
  con_commit c s2 = (EOk u, s3) →
  insert t data w =
  (Ok tt, set_con None (set_engine (con_close c s3) w1),
   tr ++ session_events (EvExecute q data) EvCommit).
Proof. apply insert_after_reflection. Qed.

End Outcomes.

(** ** Calls one after another *)

Section ProgramsFacts.
Context `{PyRuntime} `{Types} `{Engine}.

Lemma scoped_run_operation op : scoped 2 (run_operation op).
Proof.
  destruct op; simpl.
  - apply (scoped_weaken 1); [lia|apply scoped_create_table].
  - apply (scoped_weaken (1 + 0)); [lia|].
    apply scoped_bind; [apply scoped_get_columns|intros; apply scoped_ret].
  - apply scoped_insert.
  - apply scoped_insert_many.
  - apply (scoped_weaken (1 + 0)); [lia|].
    apply scoped_bind; [apply scoped_execute_query|intros; apply scoped_ret].
Qed.

(** X13.  The instance is without a connection between any two calls:
    however many public methods are called in turn on an instance that
    starts without a connection, and whichever of them raise, the instance
    ends without one, no connection was opened while another was open, and
    at most two were opened per call. *)
Theorem no_connection_between_calls ops (w : World) :
  _con (w_db w) = None →
  _con (w_db (run_all ops w).1) = None ∧
  one_at_a_time false (run_all ops w).2 = true ∧
  acquisitions (run_all ops w).2 ≤ 2 * length ops.
Proof.
  revert w. induction ops as [|op ops IH]; intros w Hw; simpl.
  - auto.
  - destruct (scoped_run_operation op w Hw) as (Hc & Ho & Ha).
    destruct (run_operation op w) as [[r w1] t1]. simpl in *.
    destruct (IH w1 Hc) as (Hc' & Ho' & Ha').
    destruct (run_all ops w1) as [w2 t2]. simpl in *.
    rewrite acquisitions_app, one_at_a_time_app by assumption.
    repeat split; [assumption|lia].
Qed.

(** X14.  On an instance that already holds a connection, [execute_query],
    [get_columns] (sanitizer passed) and [create_table] (checks passed) use
    that connection instead of opening one, and close it: the instance is
    without a connection afterwards. *)
Theorem held_connection_is_used_and_closed (w : World) c :
  _con (w_db w) = Some c →
  (∀ q, acquisitions (execute_query q w).2 = 0 ∧
        one_at_a_time true (execute_query q w).2 = true ∧
        _con (w_db (execute_query q w).1.2) = None) ∧
  (∀ t, _clean_query_injection t = Ok t →
        acquisitions (get_columns t w).2 = 0 ∧
        one_at_a_time true (get_columns t w).2 = true ∧
        _con (w_db (get_columns t w).1.2) = None) ∧
  (∀ t columns col_query,
        _clean_query_injection t = Ok t →
        _format_column_declaration columns = Ok col_query →
        acquisitions (create_table t columns w).2 = 0 ∧
        one_at_a_time true (create_table t columns w).2 = true ∧
        _con (w_db (create_table t columns w).1.2) = None).
Proof.
  intros Hw. split; [|split].
  - intros q. unfold execute_query. crunch; auto.
  - intros t Ht. unfold get_columns. unfold bind at 1 2 3. unfold lift at 1 2 3.
    rewrite Ht. crunch; auto.
  - intros t columns cq Ht Hf. unfold create_table.
    unfold bind at 1 2 3. unfold lift at 1 2 3. rewrite Ht.
    unfold bind at 1 2 3. unfold lift at 1 2 3. rewrite Hf.
    crunch; auto.
Qed.

End ProgramsFacts.

(** ** Reading durations *)

Section TimedeltaMore.
Open Scope Z_scope.

Lemma int_of_bytes_raises b e :
  int_of_bytes b = Raise e → ∃ msg, e = ValueError msg.
Proof.
  unfold int_of_bytes. repeat case_match; intros; simplify_eq; eauto.
Qed.

Lemma map_res_int_raises l e :
  map_res int_of_bytes l = Raise e → ∃ msg, e = ValueError msg.
Proof.
  induction l as [|b l IH]; simpl; [discriminate|].
  destruct (int_of_bytes b) eqn:Hb.
  - destruct (map_res int_of_bytes l); [discriminate|].
    intros [= <-]. apply IH. reflexivity.
  - intros [= <-]. eapply int_of_bytes_raises, Hb.
Qed.

Lemma Timedelta_normalises d s us td :
  Timedelta d s us = Ok td →
  valid_timedelta td = true ∧
  total_microseconds (days td) (seconds td) (microseconds td) =
  total_microseconds d s us.
Proof.
  unfold Timedelta.
  destruct (_ && _) eqn:Hb; [|discriminate]. intros [= <-].
  apply andb_true_iff in Hb as [Hlo Hhi]. unfold valid_timedelta, total_microseconds.
  simpl. split.
  - rewrite Hlo, Hhi. simpl.
    pose proof (Z.mod_pos_bound (s + us / 1000000) 86400 eq_refl).
    pose proof (Z.mod_pos_bound us 1000000 eq_refl).
    repeat (apply andb_true_iff; split); (apply Z.leb_le || apply Z.ltb_lt); lia.
  - Z.to_euclidean_division_equations. lia.
Qed.

(** X15.  [convert_timedelta] succeeds only on three comma-separated
    integers; the duration it returns is normalised and lasts as long as
    the three numbers say, so text that is not normalised (seconds beyond a
    day, negative seconds) is carried over.  When it fails it raises
    [ValueError] or [OverflowError]. *)
Theorem convert_timedelta_spec val :
  (∀ td, convert_timedelta val = Ok td →
     ∃ d s us,
       map_res int_of_bytes (split_on 44 val) = Ok [d; s; us] ∧
       valid_timedelta td = true ∧
       total_microseconds (days td) (seconds td) (microseconds td) =
       total_microseconds d s us) ∧
  (∀ e, convert_timedelta val = Raise e →
     ∃ msg, e = ValueError msg ∨ e = OverflowError msg).
Proof.
  unfold convert_timedelta. split.
  - intros td Hc.
    destruct (map_res int_of_bytes (split_on 44 val)) as [l|] eqn:Hm; [|discriminate].
    destruct l as [|d [|s [|us [|x l]]]]; try discriminate.
    exists d, s, us. split; [reflexivity|]. apply Timedelta_normalises, Hc.
  - intros e Hc.
    destruct (map_res int_of_bytes (split_on 44 val)) as [l|e'] eqn:Hm.
    + destruct l as [|d [|s [|us [|x l]]]]; try (injection Hc as <-; eauto).
      unfold Timedelta in Hc. destruct (_ && _); [discriminate|].
      injection Hc as <-. eauto.
    + injection Hc as <-. apply map_res_int_raises in Hm as [msg ->]. eauto.
Qed.

End TimedeltaMore.

(** ** Writing and reading on the small engine *)

Section MiniMore.
Context `{PyRuntime} `{Types}.

Local Arguments parse_stmt : simpl never.

Lemma sql_name_nospace t : sql_name t = true → forallb (λ c, negb (c =? 32)%N) t = true.
Proof. unfold sql_name. intros [_ Hs]%andb_true_iff. exact Hs. Qed.

Lemma question_marks n :
  lstrip <$> split_on 44 (str_join (py ", ") (replicate (S n) (py "?"))) =
  replicate (S n) (py "?").
Proof.
  change (replicate (S n) (py "?")) with (py "?" :: replicate n (py "?")).
  rewrite split_on_join.
  2:{ apply Forall_forall. intros x Hx.
      change (py "?" :: replicate n (py "?")) with (replicate (S n) (py "?")) in Hx.
      apply elem_of_replicate in Hx as [-> _]. reflexivity. }
  change (lstrip <$> py "?" :: ?l) with (py "?" :: (lstrip <$> l)). f_equal.
  rewrite <- list_fmap_compose. induction n as [|n IH]; [reflexivity|].
  change (replicate (S n) (py "?")) with (py "?" :: replicate n (py "?")).
  rewrite fmap_cons, IH. reflexivity.
Qed.

Lemma parse_stmt_insert t n :
  sql_name t = true →
  parse_stmt (py "INSERT INTO " ++ t ++ py " VALUES (" ++
              str_join (py ", ") (replicate (S n) (py "?")) ++ py ")") =
  Some (SInsert t (S n)).
Proof.
  intros Hn.
  change (parse_stmt (py "INSERT INTO " ++ t ++ ?x)) with (parse_insert (t ++ x)).
  unfold parse_insert.
  change (t ++ py " VALUES (" ++ ?x) with (t ++ 32%N :: (py "VALUES (" ++ x)).
  rewrite split_first_app by (apply sql_name_nospace, Hn).
  rewrite strip_prefix_app, strip_suffix_app, question_marks, Hn, length_replicate.
  replace (forallb (λ p, bool_decide (p = py "?")) (replicate (S n) (py "?"))) with true;
    [reflexivity|].
  symmetry. apply forallb_forall. intros x Hx%list_elem_of_In.
  apply elem_of_replicate in Hx as [-> _]. apply bool_decide_eq_true_2. reflexivity.
Qed.

(** The reflection of a table that is there. *)
Lemma reflect_existing_table t tbl (w : @World MiniSqlite) :
  _con (w_db w) = None → valid_table_name t →
  file (w_engine w) !! t = Some tbl → tbl_columns tbl ≠ [] →
  get_columns t w =
  (Ok (imap describe (tbl_columns tbl)),
   mk_world (w_db w) (mk_mini (file (w_engine w)) None), reflection_events t).
Proof.
  intros Hw [Ht Hn] Hf Hcols. unfold get_columns.
  unfold bind at 1. unfold lift at 1. rewrite Ht.
  destruct w as [[name path con] [f tx]]. simpl in *. subst con.
  pose proof (parse_stmt_table_info t) as Hp. rewrite Hn in Hp.
  unfold reflection_events. change (py "PRAGMA table_info(" ++ t ++ py ")") with
    (table_info_query t).
  remember (table_info_query t) as q eqn:Hq. clear Hq.
  run_monad. unfold set_con, set_engine. simpl. unfold mini_execute. simpl.
  rewrite Hp. simpl. unfold table_info. rewrite Hf.
  destruct (tbl_columns tbl) as [|c cols]; [congruence|]. reflexivity.
Qed.

Lemma mini_execute_insert q t n tbl data f db :
  parse_stmt q = Some (SInsert t n) → db !! t = Some tbl →
  n = length (tbl_columns tbl) → length data = n →
  mini_execute q data (mk_mini f (Some db)) =
  (EOk [], mk_mini f (Some (<[t := mk_table (tbl_columns tbl) (tbl_rows tbl ++ [data])]> db))).
Proof.
  intros Hp Hf -> Hlen. unfold mini_execute. cbn [txn file]. rewrite Hp.
  unfold insert_row. rewrite Hf, Hlen, !Nat.eqb_refl. reflexivity.
Qed.

Lemma mini_insert t tbl data (w : @World MiniSqlite) :
  _con (w_db w) = None → valid_table_name t →
  file (w_engine w) !! t = Some tbl → tbl_columns tbl ≠ [] →
  length data = length (tbl_columns tbl) →
  insert t data w =
  (Ok tt,
   mk_world (w_db w)
     (mk_mini (<[t := mk_table (tbl_columns tbl) (tbl_rows tbl ++ [data])]>
                 (file (w_engine w))) None),
   reflection_events t ++
   session_events (EvExecute (insertion_query t (imap describe (tbl_columns tbl))) data)
     EvCommit).
Proof.
  intros Hw Hname Hf Hcols Hlen.
  pose proof (reflect_existing_table t tbl w Hw Hname Hf Hcols) as Hg.
  assert (Hl : length data = length (imap describe (tbl_columns tbl)))
    by (rewrite length_imap; exact Hlen).
  rewrite insertion_query_placeholders, <- Hl.
  assert (Hp : parse_stmt (py "INSERT INTO " ++ t ++ py " VALUES (" ++
                 str_join (py ", ") (replicate (length data) (py "?")) ++ py ")") =
               Some (SInsert t (length data))).
  { destruct (tbl_columns tbl) as [|c0 cols]; [congruence|].
    rewrite Hlen. apply parse_stmt_insert, Hname. }
  remember (py "INSERT INTO " ++ t ++ py " VALUES (" ++
            str_join (py ", ") (replicate (length data) (py "?")) ++ py ")") as q eqn:Hq.
  destruct w as [[name path con] [f tx]].
  cbn [w_db w_engine _con file] in Hw, Hf, Hg |- *. subst con.
  pose proof (insert_after_reflection (H1:=MiniSqlite) t data _ _ _ _
                tt (mk_mini f (Some f)) []
                (mk_mini f (Some (<[t := mk_table (tbl_columns tbl)
                                           (tbl_rows tbl ++ [data])]> f)))
                tt
                (mk_mini (<[t := mk_table (tbl_columns tbl) (tbl_rows tbl ++ [data])]> f)
                         (Some (<[t := mk_table (tbl_columns tbl)
                                         (tbl_rows tbl ++ [data])]> f)))
                Hg Hl) as Hins.
  cbv zeta in Hins. rewrite <- Hq in Hins. apply Hins.
  - reflexivity.
  - apply (mini_execute_insert q t (length data) tbl data f f Hp Hf); [exact Hlen|reflexivity].
  - reflexivity.
Qed.

(** X16.  On the small engine, [insert] of a row as long as the table has
    columns returns normally and stores the row last in the table; the
    columns of the table, its earlier rows and all other tables are as
    before, and the instance ends without a connection. *)
Theorem insert_stores_row t tbl data (w : @World MiniSqlite) :
  _con (w_db w) = None → valid_table_name t →
  file (w_engine w) !! t = Some tbl → tbl_columns tbl ≠ [] →
  length data = length (tbl_columns tbl) →
  (insert t data w).1.1 = Ok tt ∧
  file (w_engine (insert t data w).1.2) !! t =
    Some (mk_table (tbl_columns tbl) (tbl_rows tbl ++ [data])) ∧
  (∀ t', t' ≠ t →
     file (w_engine (insert t data w).1.2) !! t' = file (w_engine w) !! t') ∧
  _con (w_db (insert t data w).1.2) = None.
Proof.
  intros Hw Hname Hf Hcols Hlen.
  rewrite (mini_insert t tbl data w Hw Hname Hf Hcols Hlen). cbn [fst snd w_engine w_db file].
  split; [reflexivity|]. split; [apply lookup_insert_eq|]. split; [|exact Hw].
  intros t' Hne. apply lookup_insert_ne. congruence.
Qed.

Lemma insert_rows_all db t cols rows rs :
  db !! t = Some (mk_table cols rows) →
  Forall (λ r, length r = length cols) rs →
  insert_rows db t (length cols) rs =
  (EOk (<[t := mk_table cols (rows ++ rs)]> db),
   <[t := mk_table cols (rows ++ rs)]> db).
Proof.
  intros Hf Hall. revert db rows Hf.
  induction Hall as [|r rs Hr _ IH]; intros db rows Hf.
  - simpl. rewrite app_nil_r, insert_id by exact Hf. reflexivity.
  - simpl. unfold insert_row. rewrite Hf. cbn [tbl_columns tbl_rows].
    rewrite Hr, !Nat.eqb_refl. cbn [negb].
    rewrite (IH _ (rows ++ [r])) by apply lookup_insert_eq.
    rewrite insert_insert_eq, <- app_assoc. reflexivity.
Qed.

Lemma insert_rows_bad db t cols rows rs :
  db !! t = Some (mk_table cols rows) →
  Exists (λ r, length r ≠ length cols) rs →
  ∃ db', insert_rows db t (length cols) rs =
         (EErr ProgrammingError (py "Incorrect number of bindings supplied."), db').
Proof.
  intros Hf Hex. revert db rows Hf. induction rs as [|r rs IH]; intros db rows Hf.
  - inversion Hex.
  - simpl. unfold insert_row. rewrite Hf. cbn [tbl_columns tbl_rows].
    rewrite Nat.eqb_refl. cbn [negb].
    destruct (Nat.eqb_spec (length r) (length cols)) as [Hr|Hr]; cbn [negb].
    + apply (IH ltac:(inversion Hex; [contradiction|assumption]) _ (rows ++ [r])).
      apply lookup_insert_eq.
    + eauto.
Qed.

Lemma mini_insert_many_start t tbl r0 rest (w : @World MiniSqlite) :
  _con (w_db w) = None → valid_table_name t →
  file (w_engine w) !! t = Some tbl → tbl_columns tbl ≠ [] →
  length r0 = length (tbl_columns tbl) →
  ∃ q, parse_stmt q = Some (SInsert t (length (tbl_columns tbl))) ∧
       insert_many t (r0 :: rest) w =
       let '(r, w2, tr2) :=
         write_batch t q (r0 :: rest)
           (mk_world (w_db w) (mk_mini (file (w_engine w)) None)) in
       (r, w2, reflection_events t ++ tr2).
Proof.
  intros Hw Hname Hf Hcols Hlen.
  pose proof (reflect_existing_table t tbl w Hw Hname Hf Hcols) as Hg.
  exists (insertion_query t (imap describe (tbl_columns tbl))). split.
  - rewrite insertion_query_placeholders, length_imap.
    destruct (tbl_columns tbl) as [|c0 cols]; [congruence|].
    apply parse_stmt_insert, Hname.
  - rewrite insert_many_cons. unfold bind at 1.
    rewrite (prepare_insertion_after_reflection _ _ _ _ _ _ Hg), length_imap, Hlen,
      Nat.eqb_refl.
    reflexivity.
Qed.

(** X17.  On the small engine, [insert_many] with a first row of the right
    length stores all rows, in their order, when every row has that length.
    When a later row has another length the engine raises, the transaction
    is rolled back and no row of the batch is stored, not even the rows
    before the wrong one. *)
Theorem insert_many_all_or_nothing t tbl r0 rest (w : @World MiniSqlite) :
  _con (w_db w) = None → valid_table_name t →
  file (w_engine w) !! t = Some tbl → tbl_columns tbl ≠ [] →
  length r0 = length (tbl_columns tbl) →
  (Forall (λ r, length r = length (tbl_columns tbl)) rest →
     (insert_many t (r0 :: rest) w).1.1 = Ok tt ∧
     file (w_engine (insert_many t (r0 :: rest) w).1.2) =
       <[t := mk_table (tbl_columns tbl) (tbl_rows tbl ++ r0 :: rest)]>
         (file (w_engine w))) ∧
  (Exists (λ r, length r ≠ length (tbl_columns tbl)) rest →
     (insert_many t (r0 :: rest) w).1.1 =
       Raise (Sqlite3Error ProgrammingError
                (py "Incorrect number of bindings supplied.")) ∧
     file (w_engine (insert_many t (r0 :: rest) w).1.2) = file (w_engine w) ∧
     _con (w_db (insert_many t (r0 :: rest) w).1.2) = None).
Proof.
  intros Hw Hname Hf Hcols Hlen.
  destruct (mini_insert_many_start t tbl r0 rest w Hw Hname Hf Hcols Hlen)
    as (q & Hp & ->).
  destruct w as [[name path con] [f tx]]. destruct tbl as [cols rows].
  cbn [w_db w_engine _con file tbl_columns tbl_rows] in Hw, Hf, Hp, Hlen |- *.
  subst con.
  unfold write_batch. run_monad. unfold set_con, set_engine.
  cbn [w_db w_engine _con _path _name sql_connect con_executemany con_commit
       con_rollback con_close MiniSqlite file txn].
  unfold mini_executemany. cbn [txn file]. rewrite Hp. split.
  - intros Hall.
    rewrite (insert_rows_all f t cols rows (r0 :: rest) Hf) by (constructor; assumption).
    cbn. auto.
  - intros Hex.
    destruct (insert_rows_bad f t cols rows (r0 :: rest) Hf) as [db' ->];
      [apply Exists_cons_tl, Hex|].
    cbn. auto.
Qed.

Lemma mini_create_table t columns (w : @World MiniSqlite) :
  _con (w_db w) = None → valid_table_name t → valid_declaration columns →
  create_table t columns w =
  (Ok tt,
   mk_world (w_db w)
     (mk_mini (match file (w_engine w) !! t with
               | Some _ => file (w_engine w)
               | None => <[t := mk_table (declared_columns columns) []]> (file (w_engine w))
               end) None),
   session_events
     (EvExecute (creation_query t (str_join (py ", ") (column_fragment <$> columns))) [])
     EvCommit).
Proof.
  intros Hw Hname Hdecl.
  destruct (parse_create_valid t columns Hname Hdecl) as [Hfmt Hparse].
  fold (creation_query t (str_join (py ", ") (column_fragment <$> columns))) in Hparse.
  remember (creation_query t (str_join (py ", ") (column_fragment <$> columns))) as q
    eqn:Hq.
  destruct w as [[name path con] [f tx]].
  cbn [w_db w_engine _con file] in Hw |- *. subst con.
  pose proof (create_table_success (H1:=MiniSqlite) t columns _
                (@mk_world MiniSqlite (@mk_db MiniSqlite name path None) (mk_mini f tx))
                tt (mk_mini f (Some f)) []
                (mk_mini f (Some (match f !! t with
                                  | Some _ => f
                                  | None => <[t := mk_table (declared_columns columns) []]> f
                                  end)))
                tt
                (mk_mini (match f !! t with
                          | Some _ => f
                          | None => <[t := mk_table (declared_columns columns) []]> f
                          end)
                         (Some (match f !! t with
                                | Some _ => f
                                | None => <[t := mk_table (declared_columns columns) []]> f
                                end)))
                eq_refl (proj1 Hname) Hfmt) as Hc.
  rewrite <- Hq in Hc. apply Hc.
  - reflexivity.
  - apply (mini_execute_create q t _ f f Hparse).
  - reflexivity.
Qed.

(** X18.  On the small engine, [create_table] with a valid name and
    declaration returns normally.  When there is no table of that name it
    adds one with the declared columns and no rows; when there is one it
    changes nothing, even if that table was declared with other columns.
    Other tables are as before. *)
Theorem create_table_effect t columns (w : @World MiniSqlite) :
  _con (w_db w) = None → valid_table_name t → valid_declaration columns →
  (create_table t columns w).1.1 = Ok tt ∧
  (file (w_engine w) !! t = None →
     file (w_engine (create_table t columns w).1.2) !! t =
     Some (mk_table (declared_columns columns) [])) ∧
  (∀ tbl, file (w_engine w) !! t = Some tbl →
     file (w_engine (create_table t columns w).1.2) = file (w_engine w)) ∧
  (∀ t', t' ≠ t →
     file (w_engine (create_table t columns w).1.2) !! t' = file (w_engine w) !! t').
Proof.
  intros Hw Hname Hdecl. rewrite (mini_create_table t columns w Hw Hname Hdecl).
  cbn [fst snd w_engine file]. split; [reflexivity|]. split; [|split].
  - intros Hf. rewrite Hf. apply lookup_insert_eq.
  - intros tbl Hf. rewrite Hf. reflexivity.
  - intros t' Hne. destruct (file (w_engine w) !! t); [reflexivity|].
    apply lookup_insert_ne. congruence.
Qed.

Lemma word_not_space c : uni_isword c = true → bytes_isspace c = false.
Proof.
  intros Hw. destruct (is_ascii c) eqn:Ha.
  - rewrite uni_isword_ascii in Hw by exact Ha. unfold bytes_isspace.
    clear -Hw. ascii_cases.
  - unfold bytes_isspace. clear -Ha. ascii_cases.
Qed.

Lemma describe_declared cid col :
  valid_column col → sql_name col.1 = true →
  describe cid (lstrip (column_fragment col)) = reflected_column cid col.
Proof.
  intros (_ & Hc & _ & _) Hn. unfold column_fragment.
  destruct col as [name ty]. cbn [fst snd] in *.
  assert (Hl : lstrip (name ++ py " " ++ uni_upper ty) = name ++ py " " ++ uni_upper ty).
  { destruct name as [|c r]; [discriminate|].
    pose proof (proj1 (Forall_forall _ _) (clean_Ok_chars _ Hc) c ltac:(left)) as Hw.
    apply sql_name_nospace in Hn. simpl in Hn. apply andb_true_iff in Hn as [Hsp _].
    apply negb_true_iff in Hsp. simpl in Hw.
    destruct Hw as [Hw| ->]; [|discriminate].
    change ((c :: r) ++ ?x) with (c :: (r ++ x)). cbn [lstrip].
    rewrite (word_not_space c Hw). reflexivity. }
  rewrite Hl. unfold describe.
  change (name ++ py " " ++ ?x) with (name ++ 32%N :: x).
  rewrite split_first_app by (apply sql_name_nospace, Hn). reflexivity.
Qed.

(** X19.  On the small engine, what [get_columns] reflects of a table that
    [create_table] has just added is the declaration: one row per declared
    column, in the order of the declaration, with the position, the name
    and the type in capitals (column names of one token). *)
Theorem reflection_of_created_table t columns (w : @World MiniSqlite) :
  _con (w_db w) = None → valid_table_name t → valid_declaration columns →
  Forall (λ col, sql_name col.1 = true) columns →
  file (w_engine w) !! t = None →
  (get_columns t (create_table t columns w).1.2).1.1 =
  Ok (imap reflected_column columns).
Proof.
  intros Hw Hname Hdecl Hnames Hf.
  rewrite (mini_create_table t columns w Hw Hname Hdecl). cbn [fst snd]. rewrite Hf.
  rewrite (reflect_existing_table t (mk_table (declared_columns columns) [])).
  - cbn [fst tbl_columns]. f_equal. unfold declared_columns.
    rewrite <- list_fmap_compose, imap_fmap. apply imap_ext.
    intros i col Hi. simpl. apply describe_declared.
    + destruct Hdecl as [_ Hall]. apply (proj1 (Forall_lookup _ _) Hall i col Hi).
    + apply (proj1 (Forall_lookup _ _) Hnames i col Hi).
  - exact Hw.
  - exact Hname.
  - apply lookup_insert_eq.
  - cbn [tbl_columns]. unfold declared_columns. destruct Hdecl as [Hne _].
    destruct columns; [congruence|discriminate].
Qed.

End MiniMore.

(** ** The order of stored dates *)

Section DateOrder.
Open Scope Z_scope.

Lemma digit_val_range c d : digit_val c = Some d → 0 ≤ d ≤ 9 ∧ c = Z.to_N (48 + d).
Proof.
  unfold digit_val. destruct (ascii_isdigit c) eqn:Hc; [|discriminate].
  intros [= <-]. unfold ascii_isdigit in Hc.
  apply andb_true_iff in Hc as [H1 H2]. apply N.leb_le in H1, H2. lia.
Qed.

(** The accumulator of a run of digits only shifts the result. *)
Lemma parse_digits_acc_shift l : ∀ acc r acc',
  parse_digits_acc acc l = Some r →
  parse_digits_acc acc' l = Some (r + (acc' - acc) * 10 ^ Z.of_nat (length l)).
Proof.
  induction l as [|c l IH]; intros acc r acc' Hp.
  - simpl in *. injection Hp as <-. f_equal. lia.
  - cbn [parse_digits_acc] in *. destruct (digit_val c) as [d|]; [|discriminate].
    rewrite (IH _ _ (10 * acc' + d) Hp). f_equal.
    cbn [length]. rewrite Nat2Z.inj_succ, Z.pow_succ_r by lia. lia.
Qed.

(** A run of digits is worth less than ten to the power of its length. *)
Lemma parse_digits_acc_bound l : ∀ acc r,
  0 ≤ acc → parse_digits_acc acc l = Some r →
  acc * 10 ^ Z.of_nat (length l) ≤ r < (acc + 1) * 10 ^ Z.of_nat (length l).
Proof.
  induction l as [|c l IH]; intros acc r Hacc Hp.
  - simpl in *. injection Hp as <-. lia.
  - cbn [parse_digits_acc] in Hp. destruct (digit_val c) as [d|] eqn:Hd; [|discriminate].
    apply digit_val_range in Hd as [Hd _].
    apply IH in Hp; [|lia].
    cbn [length]. rewrite Nat2Z.inj_succ, Z.pow_succ_r by lia.
    pose proof (Z.pow_pos_nonneg 10 (Z.of_nat (length l)) eq_refl ltac:(lia)). nia.
Qed.

(** Two runs of digits of the same length compare as their values do, and
    what follows them decides between equal values. *)
Lemma text_lt_digits l1 : ∀ l2 v1 v2 x y,
  length l1 = length l2 →
  parse_digits_acc 0 l1 = Some v1 → parse_digits_acc 0 l2 = Some v2 →
  text_lt (l1 ++ x) (l2 ++ y) = (v1 <? v2) || ((v1 =? v2) && text_lt x y).
Proof.
  induction l1 as [|c1 l1 IH]; intros [|c2 l2] v1 v2 x y Hl H1 H2; try discriminate.
  - simpl in *. injection H1 as <-. injection H2 as <-. reflexivity.
  - injection Hl as Hl. cbn [parse_digits_acc] in H1, H2.
    destruct (digit_val c1) as [d1|] eqn:Hd1; [|discriminate].
    destruct (digit_val c2) as [d2|] eqn:Hd2; [|discriminate].
    apply digit_val_range in Hd1 as [Hd1 ->], Hd2 as [Hd2 ->].
    pose proof (parse_digits_acc_shift _ _ _ 0 H1) as H1'.
    pose proof (parse_digits_acc_shift _ _ _ 0 H2) as H2'.
    pose proof (parse_digits_acc_bound _ 0 _ (Z.le_refl 0) H1') as B1.
    pose proof (parse_digits_acc_bound _ 0 _ (Z.le_refl 0) H2') as B2.
    rewrite <- Hl in *.
    cbn [app text_lt]. rewrite (IH _ _ _ x y Hl H1' H2').
    set (P := 10 ^ Z.of_nat (length l1)) in *.
    destruct (text_lt x y);
      repeat match goal with
             | |- context [(?a <? ?b)%N] => destruct (N.ltb_spec a b)
             | |- context [(?a =? ?b)%N] => destruct (N.eqb_spec a b)
             | |- context [?a <? ?b] => destruct (Z.ltb_spec a b)
             | |- context [?a =? ?b] => destruct (Z.eqb_spec a b)
             end; cbn [orb andb]; try reflexivity; exfalso; nia.
Qed.

Lemma text_lt_zpad w a b x y :
  0 ≤ a < 10 ^ Z.of_nat (S w) → 0 ≤ b < 10 ^ Z.of_nat (S w) →
  text_lt (zpad (S w) a ++ x) (zpad (S w) b ++ y) =
  (a <? b) || ((a =? b) && text_lt x y).
Proof.
  intros Ha Hb. apply text_lt_digits.
  - rewrite !length_zpad by assumption. reflexivity.
  - apply parse_digits_zpad. lia.
  - apply parse_digits_zpad. lia.
Qed.

Lemma text_lt_date d1 d2 x y :
  valid_date d1 = true → valid_date d2 = true →
  text_lt (date_isoformat d1 ++ x) (date_isoformat d2 ++ y) =
  date_lt d1 d2 || (date_eqb d1 d2 && text_lt x y).
Proof.
  intros (Hy1 & Hm1 & Hd1)%valid_date_bounds (Hy2 & Hm2 & Hd2)%valid_date_bounds.
  pose proof (days_in_month_le (year d1) (month d1)).
  pose proof (days_in_month_le (year d2) (month d2)).
  unfold date_isoformat, date_lt, date_eqb. rewrite <- !app_assoc.
  rewrite (text_lt_zpad 3) by (change (10 ^ Z.of_nat 4) with 10000; lia).
  change (py "-" ++ ?l) with (45%N :: l). cbn [text_lt].
  change ((45 <? 45)%N) with false. change ((45 =? 45)%N) with true. cbn [orb andb].
  rewrite (text_lt_zpad 1) by (change (10 ^ Z.of_nat 2) with 100; lia).
  change (py "-" ++ ?l) with (45%N :: l). cbn [text_lt].
  change ((45 <? 45)%N) with false. change ((45 =? 45)%N) with true. cbn [orb andb].
  rewrite (text_lt_zpad 1) by (change (10 ^ Z.of_nat 2) with 100; lia).
  destruct (text_lt x y);
    repeat match goal with
           | |- context [?a <? ?b] => destruct (Z.ltb_spec a b)
           | |- context [?a =? ?b] => destruct (Z.eqb_spec a b)
           end; cbn [orb andb]; try reflexivity; lia.
Qed.

(** X20. The text [adapt_date_iso] stores for valid dates compares, code
    point by code point, as the dates themselves do. *)
Theorem adapt_date_iso_monotone d1 d2 :
  valid_date d1 = true → valid_date d2 = true →
  text_lt (adapt_date_iso d1) (adapt_date_iso d2) = date_lt d1 d2.
Proof.
  intros H1 H2. unfold adapt_date_iso.
  rewrite <- (app_nil_r (date_isoformat d1)), <- (app_nil_r (date_isoformat d2)).
  rewrite text_lt_date by assumption. cbn [text_lt].
  rewrite andb_false_r, orb_false_r. reflexivity.
Qed.

(** X21. The text [adapt_datetime_iso] stores for valid naive datetimes
    compares as the datetimes do, although the fraction of a second is
    printed only when it is not zero. *)
Theorem adapt_datetime_iso_monotone t1 t2 :
  valid_datetime t1 = true → valid_datetime t2 = true →
  text_lt (adapt_datetime_iso t1) (adapt_datetime_iso t2) = datetime_lt t1 t2.
Proof.
  unfold valid_datetime. intros H1 H2.
  apply andb_true_iff in H1 as [Hd1 H1], H2 as [Hd2 H2].
  apply valid_time_bounds in H1, H2.
  unfold adapt_datetime_iso, datetime_isoformat, datetime_lt.
  rewrite text_lt_date by assumption.
  f_equal. f_equal.
  change (py "T" ++ ?l) with (84%N :: l). cbn [text_lt].
  change ((84 <? 84)%N) with false. change ((84 =? 84)%N) with true. cbn [orb andb].
  rewrite (text_lt_zpad 1) by (change (10 ^ Z.of_nat 2) with 100; lia).
  change (py ":" ++ ?l) with (58%N :: l). cbn [text_lt].
  change ((58 <? 58)%N) with false. change ((58 =? 58)%N) with true. cbn [orb andb].
  rewrite (text_lt_zpad 1) by (change (10 ^ Z.of_nat 2) with 100; lia).
  change (py ":" ++ ?l) with (58%N :: l). cbn [text_lt].
  change ((58 <? 58)%N) with false. change ((58 =? 58)%N) with true. cbn [orb andb].
  rewrite (text_lt_zpad 1) by (change (10 ^ Z.of_nat 2) with 100; lia).
  f_equal. f_equal. f_equal. f_equal. f_equal. f_equal.
  destruct (Z.eqb_spec (microsecond t1) 0) as [E1|E1],
           (Z.eqb_spec (microsecond t2) 0) as [E2|E2].
  - rewrite E1, E2. reflexivity.
  - rewrite E1. cbn. symmetry. apply Z.ltb_lt. lia.
  - rewrite E2. cbn. symmetry. apply Z.ltb_ge. lia.
  - change (py "." ++ ?l) with (46%N :: l). cbn [text_lt].
    change ((46 <? 46)%N) with false. change ((46 =? 46)%N) with true. cbn [orb andb].
    rewrite <- (app_nil_r (zpad 6 (microsecond t1))), <- (app_nil_r (zpad 6 (microsecond t2))).
    rewrite (text_lt_zpad 5) by (change (10 ^ Z.of_nat 6) with 1000000; lia).
    cbn [text_lt]. rewrite andb_false_r, orb_false_r. reflexivity.
Qed.

End DateOrder.

(** ** Reflection and plain queries *)

Section ReflectionMore.
Context `{PyRuntime} `{Types} `{Engine}.

(** X22.  For a table name that passes the sanitizer, [get_columns] is
    [execute_query] on the statement [PRAGMA table_info(name)]: the same
    rows, the same final state and the same calls to the engine, except
    that the answer [None] of [execute_query] becomes the exception of the
    missing schema.  What [execute_query] raises, [get_columns] raises. *)
Theorem get_columns_is_execute_query t (w : World) :
  _clean_query_injection t = Ok t →
  get_columns t w =
  match execute_query (table_info_query t) w with
  | (Ok (Some rows), w1, tr) => (Ok rows, w1, tr)
  | (Ok None, w1, tr) => (Raise (retrieval_error t), w1, tr)
  | (Raise e, w1, tr) => (Raise e, w1, tr)
  end.
Proof.
  intros Ht. unfold get_columns, execute_query.
  unfold bind at 1. unfold lift at 1. rewrite Ht. cbv beta iota zeta.
  remember (table_info_query t) as q eqn:Hq. clear Hq.
  crunch; reflexivity.
Qed.

End ReflectionMore.

(** ** Instances of the further properties *)

Lemma clean_rejects_leading_digit_underscore_witness :
  _clean_query_injection (py "_tmp") = Raise (injection_error (py "_tmp")).
Proof.
  apply (clean_rejects_leading_digit_underscore (H:=ascii_runtime)).
  exists 95%N, (py "tmp"). split; [reflexivity|]. right. reflexivity.
Defined.

Lemma clean_accepts_iff_witness :
  _clean_query_injection (py "my table") = Ok (py "my table") ↔
  ¬ leading_digit_underscore (py "my table") ∧ word_or_space (py "my table") ∧
  ¬ contains_banned (py "my table").
Proof.
  apply (clean_accepts_iff (H:=ascii_runtime)). reflexivity.
Defined.

Lemma clean_accepts_blank_witness :
  _clean_query_injection (py "  ") = Ok (py "  ").
Proof. exact (clean_accepts_blank (H:=ascii_runtime) 2). Defined.

Lemma format_column_declaration_spec_witness :
  _format_column_declaration events_columns =
    Ok (py "id INTEGER PRIMARY KEY, occurred_at DATETIME") ↔
  Forall checked_column events_columns ∧
  py "id INTEGER PRIMARY KEY, occurred_at DATETIME" =
    str_join (py ", ") (column_fragment <$> events_columns).
Proof.
  apply (format_column_declaration_spec (H:=ascii_runtime) (H0:=example_types)).
Defined.

Lemma allowed_types_spec_witness :
  py "INTEGER NOT NULL" ∈ DB_DATA_TYPES_ALLOWED.
Proof.
  apply (allowed_types_spec (H0:=example_types)). right.
  exists (py "INTEGER"), (py "NOT NULL").
  split; [apply elem_of_gset; vm_compute; reflexivity|].
  split; [apply elem_of_gset; vm_compute; reflexivity|reflexivity].
Defined.

Lemma get_connection_reuses_witness :
  ∃ w1, _con (w_db w1) = Some tt ∧ get_connection w1 = (Ok tt, w1, []).
Proof.
  pose proof (get_connection_reuses events_world) as (_ & Hopen & _).
  eexists. eapply Hopen. vm_compute. reflexivity.
Defined.

Lemma close_connection_spec_witness :
  close_connection (close_connection events_world).1.2 =
  (Ok tt, (close_connection events_world).1.2, []).
Proof. apply (close_connection_spec events_world). Defined.

Lemma rejected_table_name_witness :
  insert (py "drop table") [PInt 1] events_world =
  (Raise (injection_error (py "drop table")), events_world, []).
Proof.
  apply (rejected_table_name (H:=ascii_runtime)
           (py "drop table") (injection_error (py "drop table")) events_world).
  vm_compute. reflexivity.
Defined.

Lemma create_table_runs_one_statement_witness :
  create_table (py "events") events_columns example_world =
  (Ok tt, events_world,
   session_events
     (EvExecute (creation_query (py "events")
                   (py "id INTEGER PRIMARY KEY, occurred_at DATETIME")) [])
     EvCommit).
Proof.
  epose proof (create_table_runs_one_statement (H:=ascii_runtime) (H0:=example_types)
                 (py "events") events_columns
                 (py "id INTEGER PRIMARY KEY, occurred_at DATETIME") example_world
                 eq_refl ltac:(vm_compute; reflexivity) ltac:(vm_compute; reflexivity))
    as Hx.
  cbv zeta in Hx. destruct Hx as [Hrun _].
  exact (Hrun tt _ _ _ tt _ eq_refl eq_refl eq_refl).
Defined.

Lemma create_table_propagates_engine_error_witness :
  create_table (py "events") events_columns no_file_world =
    (Raise (Sqlite3Error OperationalError (py "unable to open database file")),
     no_file_world, [EvConnect false]) ∧
  create_table (py "my events") events_columns example_world =
    (Raise (Sqlite3Error OperationalError (py "syntax error")), example_world,
     session_events
       (EvExecute (creation_query (py "my events")
                     (py "id INTEGER PRIMARY KEY, occurred_at DATETIME")) [])
       EvRollback).
Proof.
  split.
  - pose proof (create_table_propagates_engine_error (H:=ascii_runtime)
                  (H0:=example_types) (py "events") events_columns
                  (py "id INTEGER PRIMARY KEY, occurred_at DATETIME") no_file_world
                  eq_refl ltac:(vm_compute; reflexivity) ltac:(vm_compute; reflexivity))
      as Hx.
    cbv zeta in Hx. destruct Hx as [Hconnect _].
    exact (Hconnect _ _ _ eq_refl).
  - pose proof (create_table_propagates_engine_error (H:=ascii_runtime)
                  (H0:=example_types) (py "my events") events_columns
                  (py "id INTEGER PRIMARY KEY, occurred_at DATETIME") example_world
                  eq_refl ltac:(vm_compute; reflexivity) ltac:(vm_compute; reflexivity))
      as Hx.
    cbv zeta in Hx. destruct Hx as [_ Hstatement].
    exact (Hstatement tt _ _ _ _ tt _ eq_refl eq_refl eq_refl).
Defined.

Lemma execute_query_runs_text_verbatim_witness :
  _clean_query_injection (py "PRAGMA table_info(events)") =
    Raise (injection_error (py "PRAGMA table_info(events)")) ∧
  execute_query (py "PRAGMA table_info(events)") events_world =
    (Ok (Some events_reflected), events_world,
     [EvConnect true; EvExecute (py "PRAGMA table_info(events)") []; EvFetchall;
      EvCommit; EvClose]).
Proof.
  split; [vm_compute; reflexivity|].
  exact (execute_query_runs_text_verbatim
           (py "PRAGMA table_info(events)") events_world tt _ _ _ events_reflected _ tt _
           eq_refl eq_refl eq_refl eq_refl eq_refl).
Defined.

Lemma insert_binds_values_witness :
  (insert (py "events") [PInt 1; PNone] events_world).1.1 = Ok tt ∧
  (insert (py "events") [PInt 1; PNone] events_world).2 =
    reflection_events (py "events") ++
    session_events (EvExecute (py "INSERT INTO events VALUES (?, ?)") [PInt 1; PNone])
      EvCommit.
Proof.
  pose proof (insert_binds_values (H:=ascii_runtime)
                (py "events") [PInt 1; PNone] events_world events_world
                events_reflected (reflection_events (py "events")) tt _ _ _ tt _
                reflect_events_table eq_refl eq_refl eq_refl eq_refl) as Hx.
  rewrite Hx. split; reflexivity.
Defined.

Lemma no_connection_between_calls_witness :
  let ops := [OpCreateTable (py "events") events_columns;
              OpInsert (py "events") [PInt 1];
              OpInsertMany (py "events") [[PInt 1; PNone]; [PInt 2; PNone]];
              OpGetColumns (py "nope");
              OpExecuteQuery (py "PRAGMA table_info(events)")] in
  _con (w_db (run_all ops example_world).1) = None ∧
  one_at_a_time false (run_all ops example_world).2 = true ∧
  acquisitions (run_all ops example_world).2 ≤ 2 * 5.
Proof.
  intros ops.
  exact (no_connection_between_calls (H:=ascii_runtime) (H0:=example_types)
           ops example_world eq_refl).
Defined.

Lemma held_connection_is_used_and_closed_witness :
  let w := @mk_world MiniSqlite
             (@mk_db MiniSqlite (py "sim") (py "databases/sim.db") (Some tt))
             (mk_mini ∅ (Some ∅)) in
  acquisitions (create_table (py "events") events_columns w).2 = 0 ∧
  one_at_a_time true (create_table (py "events") events_columns w).2 = true ∧
  _con (w_db (create_table (py "events") events_columns w).1.2) = None.
Proof.
  intros w.
  pose proof (held_connection_is_used_and_closed (H:=ascii_runtime)
                (H0:=example_types) w tt eq_refl) as (_ & _ & Hcreate).
  apply (Hcreate (py "events") events_columns
           (py "id INTEGER PRIMARY KEY, occurred_at DATETIME"));
    vm_compute; reflexivity.
Defined.

Lemma convert_timedelta_spec_witness :
  ∃ d s us,
    map_res int_of_bytes (split_on 44 (stored_bytes (py "0,90000,-1"))) = Ok [d; s; us] ∧
    valid_timedelta (mk_timedelta 1 3599 999999) = true ∧
    total_microseconds 1 3599 999999 = total_microseconds d s us.
Proof.
  apply (proj1 (convert_timedelta_spec
                  (stored_bytes (py "0,90000,-1"))) (mk_timedelta 1 3599 999999)).
  vm_compute. reflexivity.
Defined.

Lemma insert_stores_row_witness :
  (insert (py "events") [PInt 1; PNone] events_world).1.1 = Ok tt ∧
  file (w_engine (insert (py "events") [PInt 1; PNone] events_world).1.2) !! py "events" =
    Some (mk_table [py "id INTEGER PRIMARY KEY"; py "occurred_at DATETIME"]
            [[PInt 1; PNone]]).
Proof.
  assert (Hname : valid_table_name (py "events")) by (split; vm_compute; reflexivity).
  assert (Hlookup : file (w_engine events_world) !! py "events" =
                    Some (mk_table [py "id INTEGER PRIMARY KEY"; py "occurred_at DATETIME"] []))
    by (vm_compute; reflexivity).
  pose proof (insert_stores_row (H:=ascii_runtime) (py "events")
                (mk_table [py "id INTEGER PRIMARY KEY"; py "occurred_at DATETIME"] [])
                [PInt 1; PNone] events_world eq_refl
                Hname Hlookup ltac:(discriminate) eq_refl)
    as (Hok & Hrow & _).
  split; [exact Hok|exact Hrow].
Defined.

Lemma insert_many_all_or_nothing_witness :
  file (w_engine (insert_many (py "events") [[PInt 1; PNone]; [PInt 2; PNone]]
                    events_world).1.2) !! py "events" =
    Some (mk_table [py "id INTEGER PRIMARY KEY"; py "occurred_at DATETIME"]
            [[PInt 1; PNone]; [PInt 2; PNone]]) ∧
  file (w_engine (insert_many (py "events") [[PInt 1; PNone]; [PInt 2]]
                    events_world).1.2) = file (w_engine events_world).
Proof.
  assert (Hname : valid_table_name (py "events")) by (split; vm_compute; reflexivity).
  assert (Hlookup : file (w_engine events_world) !! py "events" =
                    Some (mk_table [py "id INTEGER PRIMARY KEY"; py "occurred_at DATETIME"] []))
    by (vm_compute; reflexivity).
  pose proof (insert_many_all_or_nothing (H:=ascii_runtime)
                (py "events")
                (mk_table [py "id INTEGER PRIMARY KEY"; py "occurred_at DATETIME"] [])
                [PInt 1; PNone] [[PInt 2; PNone]] events_world eq_refl
                Hname Hlookup ltac:(discriminate) eq_refl)
    as [Hall _].
  pose proof (insert_many_all_or_nothing (H:=ascii_runtime)
                (py "events")
                (mk_table [py "id INTEGER PRIMARY KEY"; py "occurred_at DATETIME"] [])
                [PInt 1; PNone] [[PInt 2]] events_world eq_refl
                Hname Hlookup ltac:(discriminate) eq_refl)
    as [_ Hbad].
  split.
  - assert (Hrest : Forall (λ r : row, length r = 2%nat) [[PInt 2; PNone]])
      by (repeat constructor).
    destruct (Hall Hrest) as [_ Hfile]. rewrite Hfile. vm_compute. reflexivity.
  - apply Hbad. apply Exists_cons_hd. simpl. lia.
Defined.

Lemma events_declaration_valid : valid_declaration events_columns.
Proof.
  split; [discriminate|].
  repeat (apply Forall_cons; split;
    [split; [apply elem_of_gset; vm_compute; reflexivity|repeat split]|]).
  apply Forall_nil. exact I.
Defined.

Lemma create_table_effect_witness :
  (create_table (py "events") events_columns example_world).1.1 = Ok tt ∧
  file (w_engine (create_table (py "events") events_columns example_world).1.2)
    !! py "events" =
    Some (mk_table [py "id INTEGER PRIMARY KEY"; py "occurred_at DATETIME"] []) ∧
  file (w_engine (create_table (py "events") [(py "name", py "text")] events_world).1.2) =
    file (w_engine events_world).
Proof.
  assert (Hname : valid_table_name (py "events")) by (split; vm_compute; reflexivity).
  assert (Hother : valid_declaration [(py "name", py "text")]).
  { split; [discriminate|].
    repeat (apply Forall_cons; split;
      [split; [apply elem_of_gset; vm_compute; reflexivity|repeat split]|]).
    apply Forall_nil. exact I. }
  pose proof (create_table_effect (H:=ascii_runtime) (H0:=example_types) (py "events")
                events_columns example_world eq_refl Hname events_declaration_valid)
    as (Hok & Hnew & _ & _).
  pose proof (create_table_effect (H:=ascii_runtime) (H0:=example_types) (py "events")
                [(py "name", py "text")] events_world eq_refl Hname Hother)
    as (_ & _ & Hold & _).
  split; [exact Hok|]. split.
  - apply Hnew. vm_compute. reflexivity.
  - eapply Hold. vm_compute. reflexivity.
Defined.

Lemma reflection_of_created_table_witness :
  (get_columns (py "events")
     (create_table (py "events") events_columns example_world).1.2).1.1 =
  Ok events_reflected.
Proof.
  assert (Hname : valid_table_name (py "events")) by (split; vm_compute; reflexivity).
  assert (Hcols : Forall (λ col : pystr * pystr, sql_name col.1 = true) events_columns)
    by (repeat constructor).
  assert (Hnone : file (w_engine example_world) !! py "events" = None)
    by (vm_compute; reflexivity).
  exact (reflection_of_created_table (H:=ascii_runtime) (H0:=example_types) (py "events")
           events_columns example_world eq_refl Hname events_declaration_valid
           Hcols Hnone).
Defined.

Lemma adapt_date_iso_monotone_witness :
  text_lt (adapt_date_iso (mk_date 999 12 31)) (adapt_date_iso (mk_date 1000 1 1)) = true ∧
  adapt_date_iso (mk_date 999 12 31) = py "0999-12-31".
Proof.
  split; [|reflexivity].
  exact (adapt_date_iso_monotone (mk_date 999 12 31) (mk_date 1000 1 1)
           eq_refl eq_refl).
Defined.

Lemma adapt_datetime_iso_monotone_witness :
  text_lt (adapt_datetime_iso (mk_datetime (mk_date 2024 2 29) 23 59 59 0))
          (adapt_datetime_iso (mk_datetime (mk_date 2024 2 29) 23 59 59 1)) = true ∧
  adapt_datetime_iso (mk_datetime (mk_date 2024 2 29) 23 59 59 0) =
    py "2024-02-29T23:59:59" ∧
  adapt_datetime_iso (mk_datetime (mk_date 2024 2 29) 23 59 59 1) =
    py "2024-02-29T23:59:59.000001".
Proof.
  split; [|split; reflexivity].
  exact (adapt_datetime_iso_monotone
           (mk_datetime (mk_date 2024 2 29) 23 59 59 0)
           (mk_datetime (mk_date 2024 2 29) 23 59 59 1) eq_refl eq_refl).
Defined.

Lemma get_columns_is_execute_query_witness :
  get_columns (py "events") events_world =
    (Ok events_reflected, events_world, reflection_events (py "events")) ∧
  get_columns (py "nope") events_world =
    (Raise (retrieval_error (py "nope")), events_world, reflection_events (py "nope")).
Proof.
  split.
  - rewrite (get_columns_is_execute_query (H:=ascii_runtime) (py "events") events_world)
      by (vm_compute; reflexivity).
    vm_compute. reflexivity.
  - rewrite (get_columns_is_execute_query (H:=ascii_runtime) (py "nope") events_world)
      by (vm_compute; reflexivity).
    vm_compute. reflexivity.
Defined.
